(** * pubmed_retrieve: incremental merge and cross-reference resolution

    A shallow embedding of the two scripts of the repository,
    [main_ftp.py] (module [Ftp]) and [main.py] (module [Http]), over a
    model of the MongoDB collection they share, together with the
    properties of the watermark, the batch selection, the merge loop and
    the reference-resolution loop. *)

From Stdlib Require Import NArith Ascii String List Sorted Permutation Lia.
From stdpp Require Import base option list strings gmap.

Local Open Scope string_scope.
Local Open Scope list_scope.

(** ** Python values the scripts handle *)

(** Exceptions the modelled code can raise. *)
Inductive exn : Type :=
| KeyError (key : string)        (* d[key] on a dict without that key *)
| IndexError                     (* l[0] on an empty list *)
| TypeError                      (* None[key] *)
| AttributeError                 (* None.group(1) *)
| error_perm (resp : string)     (* ftplib.error_perm *)
| OSError (what : string)        (* a failed transfer, unzip, parse or removal *)
| NameError (name : string).     (* a global name that is not bound *)

(** ** Regular expressions of the two scripts

    Characters are the 8-bit characters of [string]; [\d] is the class
    of the ten ASCII digits. *)

Definition is_digit (c : ascii) : bool :=
  let n := N_of_ascii c in (48 <=? n)%N && (n <=? 57)%N.

Definition digit_value (c : ascii) : N := (N_of_ascii c - 48)%N.

(** [int(s)] for a string of decimal digits; Python integers are unbounded. *)
Definition int_of_digits (ds : list ascii) : N :=
  fold_left (fun acc c => (10 * acc + digit_value c)%N) ds 0%N.

(** The longest run of digits at the head of [s], and what follows it:
    the greedy [\d+]. *)
Fixpoint span_digits (s : string) : list ascii * string :=
  match s with
  | String c s' =>
      if is_digit c
      then let '(ds, rest) := span_digits s' in (c :: ds, rest)
      else ([], s)
  | EmptyString => ([], s)
  end.

(** The pattern ['n(\d+)\.'] matched at the head of [s]: group 1.
    Backtracking inside [\d+] never helps, a shorter run is followed by
    a digit and not by the dot, so the match is the maximal run of digits
    followed by ['.']. *)
Definition match_n_digits_dot (s : string) : option (list ascii) :=
  match s with
  | String c s' =>
      if Ascii.eqb c "n"
      then match span_digits s' with
           | (d :: ds, String c' _) => if Ascii.eqb c' "." then Some (d :: ds) else None
           | _ => None
           end
      else None
  | EmptyString => None
  end.

(** The pattern ['n(\d+)'] matched at the head of [s]: group 1. *)
Definition match_n_digits (s : string) : option (list ascii) :=
  match s with
  | String c s' =>
      if Ascii.eqb c "n"
      then match span_digits s' with
           | (d :: ds, _) => Some (d :: ds)
           | _ => None
           end
      else None
  | EmptyString => None
  end.

(** Group 1 of the leftmost match of a pattern in [s]: the start
    positions are tried from left to right. This is
    [re.search(p, s).group(1)], and [re.findall(p, s)[0]] for a pattern
    with one group, when there is a match. *)
Fixpoint leftmost (match_here : string -> option (list ascii)) (s : string)
    : option (list ascii) :=
  match match_here s with
  | Some g => Some g
  | None => match s with
            | String _ s' => leftmost match_here s'
            | EmptyString => None
            end
  end.

Definition findall_first (filename : string) : option (list ascii) :=
  leftmost match_n_digits_dot filename.

Definition search_first (file_name : string) : option (list ascii) :=
  leftmost match_n_digits file_name.

(** [s.split(sep)] for a one-character separator: never the empty list. *)
Fixpoint split (sep : ascii) (s : string) : list string :=
  match s with
  | EmptyString => [EmptyString]
  | String c s' =>
      if Ascii.eqb c sep
      then EmptyString :: split sep s'
      else match split sep s' with
           | w :: ws => String c w :: ws
           | [] => [String c EmptyString]
           end
  end.

(** ** Documents of the collection *)

(** The [_id] of a stored document: generated by the store when the
    inserted dict has none ([ObjectId]), or a string chosen by whoever
    wrote the document ([StrId]). *)
Inductive oid : Type :=
| ObjectId (n : nat)
| StrId (s : string).

#[global] Instance oid_eq_dec : EqDecision oid.
Proof. solve_decision. Defined.

(** An entry of a document's ['references'] array:
    [{'pmid': ref, 'idArticle': ...}]. *)
Record reference_doc : Type := {
  ref_pmid : string;
  idArticle : option oid
}.

#[global] Instance reference_doc_eq_dec : EqDecision reference_doc.
Proof. solve_decision. Defined.

(** A dict produced by [pp.parse_medline_xml]. The code reads the keys
    ['pmid'] and ['reference']; [fields] holds the other keys (title,
    authors, ...), kept opaque. A key the dict lacks is [None]. *)
Record article : Type := {
  pmid : option string;
  reference : option string;
  fields : gmap string string
}.

(** A document of the collection. [doc_fields] holds the keys the code
    never writes by name, among them ['filename']. *)
Record document : Type := {
  _id : oid;
  doc_pmid : option string;
  doc_reference : option string;
  doc_fields : gmap string string;
  updated : option bool;
  references : option (list reference_doc)
}.

#[global] Instance document_eq_dec : EqDecision document.
Proof. solve_decision. Defined.

(** [doc['filename']], when the key is there. *)
Definition filename (d : document) : option string := doc_fields d !! "filename".

(** ** The collection (pymongo) *)

(** Documents in natural (insertion) order. *)
Definition id_is (i : oid) (d : document) : bool := bool_decide (_id d = i).

Definition is_updated (d : document) : bool := bool_decide (updated d = Some true).

(** [collection.find_one(query)]: the first document matching. *)
Fixpoint find_one (q : document -> bool) (c : list document) : option document :=
  match c with
  | [] => None
  | d :: c' => if q d then Some d else find_one q c'
  end.

(** [collection.find(query)]: the matching documents. *)
Definition find (q : document -> bool) (c : list document) : list document :=
  List.filter q c.

(** [collection.update_one(query, {'$set': ...})]: the first document
    matching is changed by [upd]; no match, no change. *)
Fixpoint update_one (q : document -> bool) (upd : document -> document)
    (c : list document) : list document :=
  match c with
  | [] => []
  | d :: c' => if q d then upd d :: c' else d :: update_one q upd c'
  end.

(** An [ObjectId] no document of the collection carries. *)
Definition fresh_oid (c : list document) : nat :=
  fold_right (fun d n => match _id d with ObjectId k => Nat.max (S k) n | StrId _ => n end)
    0 c.

(** [collection.insert_one(doc)] for a dict without ['_id']: the store
    generates one. *)
Definition insert_one (mk : oid -> document) (c : list document) : list document :=
  c ++ [mk (ObjectId (fresh_oid c))].

(** ** Effects: the store, the error reports and the transfers

    A script runs over the collection, the list of errors reported so far
    (one entry for each [logger.error] with its [send_email], tagged by
    the reporting function) and the urls retrieved so far. An exception
    leaves the writes made before it in place. *)
Record state : Type := {
  collection : list document;
  reported : list (string * exn);
  retrieved : list string
}.

Inductive outcome (A : Type) : Type :=
| Return (a : A)
| Raise (e : exn).
Arguments Return {A} a.
Arguments Raise {A} e.

Definition py (A : Type) : Type := state -> outcome A * state.

Definition ret {A} (a : A) : py A := fun s => (Return a, s).

Definition raise {A} (e : exn) : py A := fun s => (Raise e, s).

Definition bind {A B} (m : py A) (k : A -> py B) : py B :=
  fun s => match m s with
           | (Return a, s') => k a s'
           | (Raise e, s') => (Raise e, s')
           end.

Notation "x <- m ;; k" := (bind m (fun x => k))
  (at level 100, m at next level, right associativity).
Notation "m ;;; k" := (bind m (fun _ => k))
  (at level 100, right associativity).

(** [try: m except Exception as e: logger.error(..); send_email(..); raise e]
    inside the function called [fn]. *)
Definition reporting {A} (fn : string) (m : py A) : py A :=
  fun s => match m s with
           | (Return a, s') => (Return a, s')
           | (Raise e, s') =>
               (Raise e, {| collection := collection s';
                            reported := reported s' ++ [(fn, e)];
                            retrieved := retrieved s' |})
           end.

(** [d[key]] on a dict. *)
Definition getitem {A} (key : string) (v : option A) : py A :=
  match v with
  | Some a => ret a
  | None => raise (KeyError key)
  end.

(** Reads and writes of the collection. *)
Definition query {A} (f : list document -> A) : py A :=
  fun s => (Return (f (collection s)), s).

Definition write (f : list document -> list document) : py unit :=
  fun s => (Return tt, {| collection := f (collection s);
                          reported := reported s;
                          retrieved := retrieved s |}).

(** [for x in xs: body(x)]. *)
Fixpoint for_each {A} (xs : list A) (body : A -> py unit) : py unit :=
  match xs with
  | [] => ret tt
  | x :: xs' => body x ;;; for_each xs' body
  end.

(** [[f(x) for x in xs]] with a body that can raise. *)
Fixpoint map_py {A B} (f : A -> py B) (xs : list A) : py (list B) :=
  match xs with
  | [] => ret []
  | x :: xs' => y <- f x ;; ys <- map_py f xs' ;; ret (y :: ys)
  end.

(** [[x for x in xs if p(x)]] with a test that can raise. *)
Fixpoint filter_py {A} (p : A -> py bool) (xs : list A) : py (list A) :=
  match xs with
  | [] => ret []
  | x :: xs' =>
      b <- p x ;; ys <- filter_py p xs' ;; ret (if b then x :: ys else ys)
  end.

(** [sorted(xs, key=...)] on the list of (key, item) pairs: a stable
    sort, so insertion after the items whose key is not greater. *)
Fixpoint insert_by_key {A} (x : N * A) (l : list (N * A)) : list (N * A) :=
  match l with
  | [] => [x]
  | y :: l' => if (fst y <=? fst x)%N then y :: insert_by_key x l' else x :: y :: l'
  end.

Definition sorted_by_key {A} (l : list (N * A)) : list (N * A) :=
  fold_left (fun acc x => insert_by_key x acc) l [].

(** The order of the keys. *)
Definition key_le {A} (a b : N * A) : Prop := (fst a <= fst b)%N.

(** [os.path.join(a, b)] on POSIX paths. *)
Definition path_join (a b : string) : string :=
  match b with
  | String "/" _ => b
  | _ => if bool_decide (a = "") then b
         else match get (String.length a - 1) a with
              | Some "/"%char => a ++ b
              | _ => a ++ "/" ++ b
              end
  end.

(** [s[:-3]]. *)
Definition drop_last3 (s : string) : string :=
  substring 0 (String.length s - 3) s.

(** ** What the scripts do not control

    The remote listing, the transfers, the parser and the local directory
    are outside the repository; a run is taken over any behaviour of
    theirs. *)
Record world : Type := {
  (* ftplib.FTP(host); login(); cwd(remote_dir): the exception raised, if any *)
  ftp_open : option exn;
  (* ftp.nlst(): the names listed, or the exception raised *)
  nlst : list string + exn;
  (* urllib.request.urlretrieve(url, filename) succeeds *)
  urlretrieve : string -> string -> bool;
  (* gzip.open(input).read() written to the output file succeeds *)
  gunzip : string -> string -> bool;
  (* pp.parse_medline_xml(file_path, ...): the dicts, or None when it raises *)
  parse_medline_xml : string -> option (list article);
  (* ftp.quit(): the exception raised, if any *)
  ftp_quit : option exn;
  (* for filename in os.listdir(directory): os.remove(os.path.join(directory, filename)):
     the exception raised, if any *)
  remove_files : string -> option exn
}.

(** * main_ftp.py *)
Module Ftp.
Section Run.

Variable w : world.

(** [get_last_file(collection, logger)] *)
Definition get_last_file : py (option string) :=
  reporting "get_last_file"
    (last_document <- query (find_one (fun _ => true)) ;;
     match last_document with
     | Some d => f <- getitem "filename" (filename d) ;; ret (Some f)
     | None => ret None
     end).

(** [parse_filename(filename, logger)]:
    [int(re.findall('n(\d+)\.', filename)[0])]. *)
Definition file_number (filename : string) : option N :=
  int_of_digits <$> findall_first filename.

Definition parse_filename (filename : string) : py N :=
  reporting "parse_filename"
    (match file_number filename with
     | Some n => ret n
     | None => raise IndexError
     end).

(** [download_file(url, filename, logger)] *)
Definition download_file (url filename : string) : py unit :=
  reporting "download_file"
    (fun s =>
       if urlretrieve w url filename
       then (Return tt, {| collection := collection s;
                           reported := reported s;
                           retrieved := retrieved s ++ [url] |})
       else (Raise (OSError url), s)).

(** [decompress_file(input_filename, output_filename, logger)] *)
Definition decompress_file (input_filename output_filename : string) : py unit :=
  reporting "decompress_file"
    (if gunzip w input_filename output_filename
     then ret tt
     else raise (OSError input_filename)).

(** [list_files(ftp, logger)] *)
Definition list_files : py (list string) :=
  match nlst w with
  | inl files => ret files
  | inr (error_perm resp) =>
      if bool_decide (resp = "550 No files found")
      then ret []
      else reporting "list_files" (raise (error_perm resp))
  | inr e => raise e
  end.

(** The ['$set': article] of the merge loop, after [article['updated']]
    and [article['references']] were assigned: every key of the dict is
    written, the keys the dict lacks stay. *)
Definition set_article (pmid reference : string) (fields : gmap string string)
    (reference_docs : list reference_doc) (d : document) : document :=
  {| _id := _id d;
     doc_pmid := Some pmid;
     doc_reference := Some reference;
     doc_fields := fields ∪ doc_fields d;
     updated := Some true;
     references := Some reference_docs |}.

(** The dict given to [insert_one], under the [_id] the store gives it. *)
Definition new_document (pmid reference : string) (fields : gmap string string)
    (reference_docs : list reference_doc) (i : oid) : document :=
  {| _id := i;
     doc_pmid := Some pmid;
     doc_reference := Some reference;
     doc_fields := fields;
     updated := Some true;
     references := Some reference_docs |}.

Definition new_reference (ref : string) : reference_doc :=
  {| ref_pmid := ref; idArticle := None |}.

(** [set(ref['pmid'] for ref in existing_article.get('references', []))] *)
Definition old_references_of (existing_article : document) : gset string :=
  list_to_set (ref_pmid <$> default [] (references existing_article)).

(** [set(article['reference'].split(';'))] *)
Definition new_references_of (reference : string) : gset string :=
  list_to_set (split ";" reference).

(** The body of [for article in dicts_out] (lines 213-231). *)
Definition merge_article (article : article) : py unit :=
  pmid <- getitem "pmid" (pmid article) ;;
  existing_article <- query (find_one (id_is (StrId pmid))) ;;
  reference <- getitem "reference" (reference article) ;;
  let new_references := new_references_of reference in
  let reference_docs := new_reference <$> elements new_references in
  match existing_article with
  | Some existing =>
      if bool_decide (old_references_of existing ≠ new_references)
      then write (update_one (id_is (_id existing))
                    (set_article pmid reference (fields article) reference_docs))
      else ret tt
  | None =>
      write (insert_one (new_document pmid reference (fields article) reference_docs))
  end.

(** The first loop of [update_database]. *)
Definition merge (dicts_out : list article) : py unit :=
  for_each dicts_out merge_article.

(** The body of [for ref in article['references']] (lines 237-239). *)
Definition resolve_reference (ref : reference_doc) : py reference_doc :=
  ref_article <- query (find_one (id_is (StrId (ref_pmid ref)))) ;;
  match ref_article with
  | Some a => ret {| ref_pmid := ref_pmid ref; idArticle := Some (_id a) |}
  | None => ret ref
  end.

Definition clear_updated (refs : list reference_doc) (d : document) : document :=
  {| _id := _id d;
     doc_pmid := doc_pmid d;
     doc_reference := doc_reference d;
     doc_fields := doc_fields d;
     updated := Some false;
     references := Some refs |}.

(** The body of [for article in updated_articles] (lines 236-241). *)
Definition resolve_article (article : document) : py unit :=
  refs <- getitem "references" (references article) ;;
  refs' <- map_py resolve_reference refs ;;
  write (update_one (id_is (_id article)) (clear_updated refs')).

(** The second loop of [update_database]. The cursor of
    [collection.find({'updated': True})] is taken as the list of the
    documents matching when the loop starts: the loop body writes only
    ['references'] and ['updated'] of the document it is at, and its
    lookups read only [_id]. *)
Definition resolve : py unit :=
  updated_articles <- query (find is_updated) ;;
  for_each updated_articles resolve_article.

(** [update_database(collection, file_path, logger)] *)
Definition update_database (file_path : string) : py unit :=
  reporting "update_database"
    (dicts_out <- match parse_medline_xml w file_path with
                  | Some ds => ret ds
                  | None => raise (OSError file_path)
                  end ;;
     merge dicts_out ;;;
     resolve).

(** The watermark of [main] (lines 264-265). *)
Definition last_number : py N :=
  last_file <- get_last_file ;;
  match last_file with
  | Some f => if bool_decide (f = "") then ret 0%N else parse_filename f
  | None => ret 0%N
  end.

(** The files of a listing that [main] goes through, in its order
    (lines 272-275). *)
Definition files_to_download (last_number : N) (files : list string) : py (list string) :=
  filter_py (fun file => n <- parse_filename file ;; ret (last_number <? n)%N) files.

Definition sorted_files (files : list string) : py (list string) :=
  keyed <- map_py (fun x => k <- parse_filename x ;; ret (k, x)) files ;;
  ret (snd <$> sorted_by_key keyed).

(** ['ftp://' + host + remote_dir + file] *)
Definition ftp_url (host remote_dir file : string) : string :=
  "ftp://" ++ host ++ remote_dir ++ file.

(** The body of the loop of [main] (lines 276-282). *)
Definition process_file (host directory remote_dir file : string) : py unit :=
  let gz_file_name := path_join directory file in
  let xml_file_name := drop_last3 gz_file_name in
  download_file (ftp_url host remote_dir file) gz_file_name ;;;
  decompress_file gz_file_name xml_file_name ;;;
  update_database xml_file_name.

(** [setup_logger()] (lines 21-37): its first statement reads the global
    [logging], a module the file never imports, so the call raises
    [NameError] before a logger exists. *)
Definition setup_logger : py unit :=
  raise (NameError "logging").

(** The end of the [try] block of [main] (lines 284-288): [ftp.quit()],
    then the removal of every file of the local directory. *)
Definition quit_and_remove (directory : string) : py unit :=
  match ftp_quit w with Some e => raise e | None => ret tt end ;;;
  match remove_files w directory with Some e => raise e | None => ret tt end.

(** The [try] statement of [main] with its handler (lines 262-294), on a
    logger: the watermark, the listing, the loop over the files, then
    [ftp.quit()] and the removal of the local files, all inside the
    [try]. [get_db_collection] builds the client without connecting, and
    the [finally] block (the profiler's report) touches nothing of the
    state. *)
Definition main_try (host directory remote_dir : string) : py unit :=
  reporting "main"
    (last_number <- last_number ;;
     match ftp_open w with Some e => raise e | None => ret tt end ;;;
     files <- list_files ;;
     files_to_download <- files_to_download last_number files ;;
     sorted <- sorted_files files_to_download ;;
     for_each sorted (process_file host directory remote_dir) ;;;
     quit_and_remove directory).

(** [main(host, directory, remote_dir)] (lines 249-302): [setup_logger]
    is called before the [try], so what it raises is neither caught nor
    reported. *)
Definition main (host directory remote_dir : string) : py unit :=
  setup_logger ;;;
  main_try host directory remote_dir.

End Run.
End Ftp.

(** * main.py

    The watermark and the selection of the update files; the documents of
    this script are the trees of [xmltodict], which the merge of
    [main_ftp.py] replaced, and are not modelled. *)
Module Http.

(** [get_file_number(file_name)]:
    [int(re.search('n(\d+)', file_name).group(1))]. *)
Definition get_file_number (file_name : string) : outcome N :=
  match search_first file_name with
  | Some ds => Return (int_of_digits ds)
  | None => Raise AttributeError
  end.

(** The order of [sort=[("filename", -1)]] on the key: a missing key
    sorts below every string, strings compare character by character. *)
Definition filename_leb (a b : option string) : bool :=
  match a, b with
  | None, _ => true
  | Some _, None => false
  | Some x, Some y => String.leb x y
  end.

(** [collection.find_one(sort=[("filename", -1)])]: a document with the
    greatest ['filename'], the first of them in natural order. *)
Fixpoint find_one_sort_filename_desc (c : list document) : option document :=
  match c with
  | [] => None
  | d :: c' =>
      match find_one_sort_filename_desc c' with
      | None => Some d
      | Some m => if filename_leb (filename m) (filename d) then Some d else Some m
      end
  end.

(** [get_last_updated_file(collection)] *)
Definition get_last_updated_file (c : list document) : outcome string :=
  match find_one_sort_filename_desc c with
  | None => Raise TypeError
  | Some last_updated_doc =>
      match filename last_updated_doc with
      | Some f => Return f
      | None => Raise (KeyError "filename")
      end
  end.

(** The watermark of [main] (lines 79-80). *)
Definition last_number (c : list document) : outcome N :=
  match get_last_updated_file c with
  | Return last_updated_file => get_file_number last_updated_file
  | Raise e => Raise e
  end.

(** [[link for link in links if get_file_number(link) > last_number]] *)
Fixpoint filter_links (last_number : N) (links : list string) : outcome (list string) :=
  match links with
  | [] => Return []
  | link :: links' =>
      match get_file_number link with
      | Raise e => Raise e
      | Return n =>
          match filter_links last_number links' with
          | Raise e => Raise e
          | Return ls => Return (if (last_number <? n)%N then link :: ls else ls)
          end
      end
  end.

(** [sorted(links)]: strings in their own order. *)
Fixpoint insert_link (x : string) (l : list string) : list string :=
  match l with
  | [] => [x]
  | y :: l' => if String.leb y x then y :: insert_link x l' else x :: y :: l'
  end.

Definition sorted (links : list string) : list string :=
  fold_left (fun acc x => insert_link x acc) links [].

(** The links [process_files] downloads and merges, in its order
    (lines 48-49). *)
Definition process_files_order (links : list string) (last_number : N)
    : outcome (list string) :=
  match filter_links last_number links with
  | Return ls => Return (sorted ls)
  | Raise e => Raise e
  end.

(** [s.replace('.gz', '')]: every occurrence, from the left, is dropped. *)
Fixpoint replace_gz (s : string) : string :=
  match s with
  | String "." (String "g" (String "z" rest)) => replace_gz rest
  | String c s' => String c (replace_gz s')
  | EmptyString => EmptyString
  end.

(** [url.split('/')[-1]] *)
Definition last_component (url : string) : string :=
  List.last (split "/" url) "".

(** The two names of [download_and_unzip(url, directory)]: the archive
    it retrieves into, and the file it unzips into and returns. *)
Definition gz_file_name (url directory : string) : string :=
  path_join directory (last_component url).

Definition xml_file_name (url directory : string) : string :=
  replace_gz (gz_file_name url directory).

End Http.

(** * The notions of the specification, read on the model *)

(** A Record's [externalId] is its PMID, its [internalId] the [_id] of the
    document, its [dirty] flag the key ['updated'], its citations the
    array ['references'], and its [batchSeq] the number in the file name
    under ['filename']. *)
Definition externalId (d : document) : option string := doc_pmid d.

Definition internalId (d : document) : oid := _id d.

Definition dirty (d : document) : bool := is_updated d.

Definition citations (d : document) : list reference_doc := default [] (references d).

Definition batchSeq (d : document) : option N := filename d ≫= Ftp.file_number.

(** The Records of the store with a given [externalId]. *)
Definition records_of (p : string) (c : list document) : list document :=
  List.filter (fun d => bool_decide (externalId d = Some p)) c.

(** The watermark as the specification words it: the greatest [batchSeq]
    of the stored Records, 0 for the empty store. *)
Definition max_batchSeq (c : list document) : N :=
  fold_right (fun d m => N.max (default 0%N (batchSeq d)) m) 0%N c.

(** The [batchSeq] of a listed file, 0 for a name without a number. *)
Definition batch_number (file : string) : N := default 0%N (Ftp.file_number file).

(** A listed batch is above the watermark [n]. *)
Definition above_watermark (n : N) (file : string) : bool :=
  match Ftp.file_number file with
  | Some k => (n <? k)%N
  | None => false
  end.

(** The batches of a listing above the watermark, each under its number,
    in the order of [sorted]: lines 272-275 of [main_ftp.py] when every
    listed name has a number. *)
Definition batch_order (n : N) (files : list string) : list string :=
  snd <$> sorted_by_key
            ((fun file => (batch_number file, file)) <$> List.filter (above_watermark n) files).

(** A raw record the merge loop can take: both keys it reads are there. *)
Definition well_formed (a : article) : Prop :=
  is_Some (pmid a) ∧ is_Some (reference a).

(** ['n<digits>.'] occurs in [f] after [pre], with [ds] the digits. *)
Definition number_segment (f pre : string) (ds : list ascii) (post : string) : Prop :=
  f = (pre ++ "n" ++ string_of_list_ascii ds ++ "." ++ post)%string
  ∧ ds ≠ [] ∧ Forall (fun c => is_digit c = true) ds.

(** The store is keyed by [externalId] wherever a key is a string. *)
Definition keyed_by_pmid (c : list document) : Prop :=
  ∀ d s, d ∈ c → _id d = StrId s → externalId d = Some s.

(** Every resolved citation points at a Record with the cited [externalId]. *)
Definition citation_resolved_to_target (c : list document) (r : reference_doc) : Prop :=
  ∀ i, idArticle r = Some i →
       ∃ t, t ∈ c ∧ internalId t = i ∧ externalId t = Some (ref_pmid r).

Definition citations_resolved_to_targets (c : list document) : Prop :=
  ∀ d r, d ∈ c → r ∈ citations d → citation_resolved_to_target c r.

(** The operations on the store, in any order. *)
Inductive operation : Type :=
| Merge (dicts_out : list article)
| Resolve.

Definition run_operation (o : operation) : py unit :=
  match o with
  | Merge dicts_out => Ftp.merge dicts_out
  | Resolve => Ftp.resolve
  end.

(** The state after a sequence of operations; an operation that raises
    leaves its writes, and the next one goes on from there. *)
Definition run_operations (os : list operation) (s : state) : state :=
  fold_left (fun s o => snd (run_operation o s)) os s.

(** The empty store, nothing reported, nothing retrieved. *)
Definition initial : state :=
  {| collection := []; reported := []; retrieved := [] |}.

(** * Notions for the further properties *)

(** The [_id]s of the store, in natural order; the store keeps them
    pairwise distinct. *)
Definition ids (c : list document) : list oid := _id <$> c.

Definition unique_ids (c : list document) : Prop := NoDup (ids c).

(** No document was written under a string [_id]: the stores the script
    builds by itself. *)
Definition no_string_id (c : list document) : Prop :=
  ∀ d s, d ∈ c → _id d ≠ StrId s.

(** Every dirty document has its ['references'] array. *)
Definition dirty_have_references (c : list document) : Prop :=
  ∀ d, d ∈ c → is_updated d = true → is_Some (references d).

(** ['n<digits>'] occurs in [f] after [pre], with [ds] all the digits
    that follow this ['n']. *)
Definition number_run (f pre : string) (ds : list ascii) (post : string) : Prop :=
  f = (pre ++ "n" ++ string_of_list_ascii ds ++ post)%string
  ∧ ds ≠ [] ∧ Forall (fun c => is_digit c = true) ds
  ∧ match post with
    | String c _ => is_digit c = false
    | EmptyString => True
    end.

(** The number main.py reads in a link, 0 when it reads none. *)
Definition link_number (link : string) : N :=
  match Http.get_file_number link with
  | Return k => k
  | Raise _ => 0%N
  end.

(** A run reports errors only: what it reports is added at the end of
    the reports, and nothing is added when it returns. *)
Definition reports_only_errors {A} (m : py A) : Prop :=
  ∀ s, ∃ l, reported (snd (m s)) = reported s ++ l
            ∧ (∀ a, fst (m s) = Return a → l = []).

(** No citation of the store is resolved. *)
Definition all_unresolved (c : list document) : Prop :=
  ∀ d r, d ∈ c → r ∈ citations d → idArticle r = None.

(** A citation after the lookup of its PMID among the [_id]s of [c]. *)
Definition resolve_against (c : list document) (r : reference_doc) : reference_doc :=
  match find_one (id_is (StrId (ref_pmid r))) c with
  | Some t => {| ref_pmid := ref_pmid r; idArticle := Some (_id t) |}
  | None => r
  end.

(** A document after the resolution loop over the store [c]: a dirty one
    has its citations looked up and its flag cleared, the others stay. *)
Definition resolved_document (c : list document) (d : document) : document :=
  if is_updated d
  then Ftp.clear_updated (resolve_against c <$> citations d) d
  else d.

(** * Sample data *)

(** A raw record with PMID [p] citing the PMIDs of [cites]
    (['reference'] is the ';'-separated list). *)
Definition raw (p cites : string) : article :=
  {| pmid := Some p; reference := Some cites; fields := ∅ |}.

(** A raw record without its identifier. *)
Definition raw_without_pmid : article :=
  {| pmid := None; reference := Some "1"; fields := {["title" := "untitled"]} |}.

(** A document written by another tool under its PMID, from the file
    [file], with nothing to resolve. *)
Definition stored (p file : string) : document :=
  {| _id := StrId p;
     doc_pmid := Some p;
     doc_reference := Some "";
     doc_fields := {["filename" := file]};
     updated := Some false;
     references := Some [] |}.

(** A world in which the listing is [files], every transfer and the
    removal of the local files succeed, and the parser returns
    [parse file_path]. *)
Definition world_of (files : list string) (parse : string -> option (list article)) : world :=
  {| ftp_open := None;
     nlst := inl files;
     urlretrieve := fun _ _ => true;
     gunzip := fun _ _ => true;
     parse_medline_xml := parse;
     ftp_quit := None;
     remove_files := fun _ => None |}.

Definition with_collection (c : list document) : state :=
  {| collection := c; reported := []; retrieved := [] |}.

(** A store with a document written under its PMID and a dirty Record
    that cites it. *)
Definition dirty_store : state :=
  with_collection
    [ stored "2" "pubmed23n0001.xml";
      {| _id := ObjectId 0;
         doc_pmid := Some "1";
         doc_reference := Some "2;3";
         doc_fields := ∅;
         updated := Some true;
         references := Some [ {| ref_pmid := "3"; idArticle := None |};
                              {| ref_pmid := "2"; idArticle := None |} ] |} ].

(** * Properties *)

(** ** The helpers on small inputs *)

Example findall_first_ex1 :
  int_of_digits <$> findall_first "pubmed23n0012.xml.gz" = Some 12%N.
Proof. reflexivity. Qed.

Example findall_first_ex2 : findall_first "nan12x.n7" = None.
Proof. reflexivity. Qed.

Example findall_first_ex3 :
  int_of_digits <$> findall_first "nan12x.n7.gz" = Some 7%N.
Proof. reflexivity. Qed.

Example split_ex1 : split ";" "12;7;;12" = ["12"; "7"; ""; "12"].
Proof. reflexivity. Qed.

Example split_ex2 : split ";" "" = [""].
Proof. reflexivity. Qed.

Example sorted_by_key_stable :
  sorted_by_key [(3, "a"); (1, "b"); (3, "c"); (2, "d"); (1, "e")]%N
  = [(1, "b"); (1, "e"); (2, "d"); (3, "a"); (3, "c")]%N.
Proof. reflexivity. Qed.

Example path_join_ex : path_join "xml_data" "pubmed23n0001.xml.gz" = "xml_data/pubmed23n0001.xml.gz".
Proof. reflexivity. Qed.

Example drop_last3_ex : drop_last3 "xml_data/pubmed23n0001.xml.gz" = "xml_data/pubmed23n0001.xml".
Proof. reflexivity. Qed.

(** ** File numbers *)

Lemma span_digits_run (ds : list ascii) (rest : string) :
  Forall (fun c => is_digit c = true) ds →
  span_digits (string_of_list_ascii ds ++ "." ++ rest) = (ds, String "." rest).
Proof.
  induction 1 as [|c ds Hc _ IH]; simpl.
  - reflexivity.
  - rewrite Hc. simpl in IH. rewrite IH. reflexivity.
Qed.

Lemma span_digits_sound (s : string) (ds : list ascii) (rest : string) :
  span_digits s = (ds, rest) →
  s = (string_of_list_ascii ds ++ rest)%string ∧ Forall (fun c => is_digit c = true) ds.
Proof.
  revert ds rest. induction s as [|c s IH]; intros ds rest; simpl.
  - intros [= <- <-]. split; [reflexivity | constructor].
  - destruct (is_digit c) eqn:Hc.
    + destruct (span_digits s) as [ds' rest'] eqn:Hs.
      intros [= <- <-]. destruct (IH _ _ eq_refl) as [-> Hds].
      split; [reflexivity | by constructor].
    + intros [= <- <-]. split; [reflexivity | constructor].
Qed.

(** A match at the head is a segment with nothing before it. *)
Lemma match_n_digits_dot_spec (s : string) (ds : list ascii) :
  match_n_digits_dot s = Some ds ↔ ∃ post, number_segment s "" ds post.
Proof.
  split.
  - destruct s as [|c s]; simpl; [done |].
    destruct (Ascii.eqb_spec c "n") as [-> |]; [| done].
    destruct (span_digits s) as [[|d run] [|c' rest]] eqn:Hrun; try done.
    destruct (Ascii.eqb_spec c' ".") as [-> |]; [| done].
    intros [= <-]. exists rest.
    apply span_digits_sound in Hrun as [-> Hds]. by repeat split.
  - intros (post & Hf & Hne & Hds). subst s.
    change (match_n_digits_dot (String "n" (string_of_list_ascii ds ++ "." ++ post))
            = Some ds).
    simpl. rewrite (span_digits_run ds post Hds).
    destruct ds; [done | reflexivity].
Qed.

Lemma number_segment_tail (c : ascii) (s pre : string) (ds : list ascii) (post : string) :
  number_segment (String c s) pre ds post →
  pre = "" ∨ ∃ pre', pre = String c pre' ∧ number_segment s pre' ds post.
Proof.
  intros (Hf & Hne & Hds). destruct pre as [|c' pre']; [by left | right].
  simpl in Hf. injection Hf as <- ->. exists pre'. by repeat split.
Qed.

Lemma number_segment_cons (c : ascii) (s pre : string) (ds : list ascii) (post : string) :
  number_segment s pre ds post → number_segment (String c s) (String c pre) ds post.
Proof. intros (-> & Hne & Hds). by repeat split. Qed.

Lemma number_segment_nonempty (pre : string) (ds : list ascii) (post : string) :
  ¬ number_segment "" pre ds post.
Proof. intros (Hf & _). by destruct pre. Qed.

(** [findall_first] returns the digits of the leftmost segment. *)
Lemma findall_first_Some (f : string) (ds : list ascii) :
  findall_first f = Some ds →
  ∃ pre post, number_segment f pre ds post
    ∧ ∀ pre' ds' post', number_segment f pre' ds' post' →
                        (String.length pre <= String.length pre')%nat.
Proof.
  unfold findall_first. revert ds. induction f as [|c s IH]; intros ds; [done |].
  cbn [leftmost]. destruct (match_n_digits_dot (String c s)) as [g|] eqn:Hhere.
  - intros [= <-]. apply match_n_digits_dot_spec in Hhere as [post Hseg].
    exists "", post. split; [done |]. intros; simpl; lia.
  - intros Hs. destruct (IH _ Hs) as (pre & post & Hseg & Hleft).
    exists (String c pre), post. split; [by apply number_segment_cons |].
    intros pre' ds' post' Hseg'.
    destruct (number_segment_tail _ _ _ _ _ Hseg') as [-> | (pre'' & -> & Hseg'')].
    + assert (match_n_digits_dot (String c s) = Some ds') as Hm
        by (apply match_n_digits_dot_spec; eauto).
      congruence.
    + simpl. apply le_n_S. eauto.
Qed.

(** Without a segment there is no match. *)
Lemma findall_first_None (f : string) :
  findall_first f = None ↔ ¬ ∃ pre ds post, number_segment f pre ds post.
Proof.
  unfold findall_first. split.
  - induction f as [|c s IH]; intros Hnone (pre & ds & post & Hseg).
    + by apply number_segment_nonempty in Hseg.
    + cbn [leftmost] in Hnone.
      destruct (match_n_digits_dot (String c s)) as [g|] eqn:Hhere; [done |].
      destruct (number_segment_tail _ _ _ _ _ Hseg) as [-> | (pre' & -> & Hseg')].
      * assert (match_n_digits_dot (String c s) = Some ds) as Hm
          by (apply match_n_digits_dot_spec; eauto).
        congruence.
      * apply (IH Hnone). eauto.
  - intros Hno. destruct (leftmost match_n_digits_dot f) as [ds|] eqn:Hf; [| done].
    destruct (findall_first_Some f ds Hf) as (pre & post & Hseg & _).
    exfalso. apply Hno. eauto.
Qed.

(** ** Runs *)

Lemma state_eta (s : state) :
  {| collection := collection s; reported := reported s; retrieved := retrieved s |} = s.
Proof. by destruct s. Qed.

Lemma for_each_app {A} (xs ys : list A) (body : A → py unit) (s : state) :
  for_each (xs ++ ys) body s =
  match for_each xs body s with
  | (Return _, s') => for_each ys body s'
  | (Raise e, s') => (Raise e, s')
  end.
Proof.
  revert s. induction xs as [|x xs IH]; intros s; simpl; [done |].
  unfold bind. destruct (body x s) as [[[]|e] s']; [apply IH | done].
Qed.

(** What every step of a loop keeps, the loop keeps, raising or not. *)
Lemma for_each_preserves {A} (P : state → Prop) (body : A → py unit) (xs : list A) :
  (∀ x s, x ∈ xs → P s → P (snd (body x s))) →
  ∀ s, P s → P (snd (for_each xs body s)).
Proof.
  induction xs as [|x xs IH]; intros Hbody s Hs; simpl; [done |].
  unfold bind. pose proof (Hbody x s (list_elem_of_here _ _) Hs) as Hx.
  destruct (body x s) as [[[]|e] s']; simpl in *; [| done].
  apply IH; [| done]. intros y t Hy. apply Hbody. by right.
Qed.

(** Unfolds the plumbing of a run, leaving the reads and writes. *)
Tactic Notation "py_unfold" :=
  cbv beta iota delta [bind query write ret raise getitem].
Tactic Notation "py_unfold" "in" hyp(H) :=
  cbv beta iota delta [bind query write ret raise getitem] in H.

(** *** The merge loop, case by case *)

Section Merge.

Context (a : article) (s : state).

Lemma merge_article_no_pmid :
  pmid a = None → Ftp.merge_article a s = (Raise (KeyError "pmid"), s).
Proof. intros H. unfold Ftp.merge_article. rewrite H. by py_unfold. Qed.

Lemma merge_article_no_reference (p : string) :
  pmid a = Some p → reference a = None →
  Ftp.merge_article a s = (Raise (KeyError "reference"), s).
Proof. intros Hp Hr. unfold Ftp.merge_article. rewrite Hp, Hr. by py_unfold. Qed.

Lemma merge_article_insert (p r : string) :
  pmid a = Some p → reference a = Some r →
  find_one (id_is (StrId p)) (collection s) = None →
  Ftp.merge_article a s =
  (Return tt,
   {| collection :=
        insert_one (Ftp.new_document p r (fields a)
                      (Ftp.new_reference <$> elements (Ftp.new_references_of r)))
          (collection s);
      reported := reported s;
      retrieved := retrieved s |}).
Proof.
  intros Hp Hr Hnone. unfold Ftp.merge_article. rewrite Hp, Hr.
  py_unfold. by rewrite Hnone.
Qed.

Lemma merge_article_update (p r : string) (existing : document) :
  pmid a = Some p → reference a = Some r →
  find_one (id_is (StrId p)) (collection s) = Some existing →
  Ftp.old_references_of existing ≠ Ftp.new_references_of r →
  Ftp.merge_article a s =
  (Return tt,
   {| collection :=
        update_one (id_is (_id existing))
          (Ftp.set_article p r (fields a)
             (Ftp.new_reference <$> elements (Ftp.new_references_of r)))
          (collection s);
      reported := reported s;
      retrieved := retrieved s |}).
Proof.
  intros Hp Hr Hsome Hne. unfold Ftp.merge_article. rewrite Hp, Hr.
  py_unfold. rewrite Hsome. by rewrite bool_decide_eq_true_2.
Qed.

Lemma merge_article_unchanged (p r : string) (existing : document) :
  pmid a = Some p → reference a = Some r →
  find_one (id_is (StrId p)) (collection s) = Some existing →
  Ftp.old_references_of existing = Ftp.new_references_of r →
  Ftp.merge_article a s = (Return tt, s).
Proof.
  intros Hp Hr Hsome Heq. unfold Ftp.merge_article. rewrite Hp, Hr.
  py_unfold. rewrite Hsome. rewrite bool_decide_eq_false_2; [by rewrite state_eta || done |].
  by intros Hne.
Qed.

End Merge.

(** A well-formed raw record never makes the merge loop raise. *)
Lemma merge_article_returns (a : article) (s : state) :
  well_formed a → fst (Ftp.merge_article a s) = Return tt.
Proof.
  intros [[p Hp] [r Hr]].
  destruct (find_one (id_is (StrId p)) (collection s)) as [existing|] eqn:Hfind.
  - destruct (decide (Ftp.old_references_of existing = Ftp.new_references_of r)).
    + by erewrite merge_article_unchanged.
    + by erewrite merge_article_update.
  - by erewrite merge_article_insert.
Qed.

Lemma merge_returns (dicts_out : list article) (s : state) :
  Forall well_formed dicts_out → fst (Ftp.merge dicts_out s) = Return tt.
Proof.
  intros Hwf. revert s. induction Hwf as [|a ds Ha _ IH]; intros s; [done |].
  unfold Ftp.merge in *. simpl. unfold bind.
  pose proof (merge_article_returns a s Ha) as Hret.
  destruct (Ftp.merge_article a s) as [[[]|e] s']; simpl in Hret; [apply IH | done].
Qed.

(** ** The collection *)

Lemma find_one_Some (q : document → bool) (c : list document) (d : document) :
  find_one q c = Some d → d ∈ c ∧ q d = true.
Proof.
  induction c as [|x c IH]; simpl; [done |].
  destruct (q x) eqn:Hq.
  - intros [= <-]. split; [left | done].
  - intros H. destruct (IH H). split; [by right | done].
Qed.

Lemma find_one_None (q : document → bool) (c : list document) :
  find_one q c = None → ∀ d, d ∈ c → q d = false.
Proof.
  induction c as [|x c IH]; simpl; intros Hnone d Hd.
  - by apply elem_of_nil in Hd.
  - destruct (q x) eqn:Hq; [done |].
    apply elem_of_cons in Hd as [-> | Hd]; [done | by apply IH].
Qed.

Lemma elem_of_update_one (q : document → bool) (upd : document → document)
    (c : list document) (d' : document) :
  d' ∈ update_one q upd c →
  d' ∈ c ∨ ∃ d, d ∈ c ∧ q d = true ∧ d' = upd d.
Proof.
  induction c as [|x c IH]; simpl; [by left |].
  destruct (q x) eqn:Hq; intros Hd; apply elem_of_cons in Hd as [-> | Hd].
  - right. exists x. split; [left | done].
  - left. by right.
  - left. left.
  - destruct (IH Hd) as [? | (d & ? & ? & ?)].
    + left. by right.
    + right. exists d. split; [by right | done].
Qed.

Lemma update_one_keeps (q : document → bool) (upd : document → document)
    (c : list document) (t : document) :
  t ∈ c → t ∈ update_one q upd c ∨ (q t = true ∧ upd t ∈ update_one q upd c).
Proof.
  induction c as [|x c IH]; simpl; intros Ht; [by apply elem_of_nil in Ht |].
  apply elem_of_cons in Ht as [-> | Ht].
  - destruct (q x) eqn:Hq; [right | left]; (split || idtac); first [done | left].
  - destruct (q x) eqn:Hq.
    + left. by right.
    + destruct (IH Ht) as [? | [? ?]]; [left | right; split; [done |]]; by right.
Qed.

(** ** Citations are never resolved to a wrong Record *)

(** A write that keeps [_id] and [externalId] of what it changes keeps
    the target of every resolved citation. *)
Lemma update_one_target (q : document → bool) (upd : document → document)
    (c : list document) (r : reference_doc) :
  (∀ d, d ∈ c → q d = true →
        internalId (upd d) = internalId d ∧ externalId (upd d) = externalId d) →
  citation_resolved_to_target c r →
  citation_resolved_to_target (update_one q upd c) r.
Proof.
  intros Hupd Hr i Hi. destruct (Hr i Hi) as (t & Ht & Hid & Hext).
  destruct (update_one_keeps q upd c t Ht) as [Hin | [Hq Hin]].
  - by exists t.
  - destruct (Hupd t Ht Hq) as [Hid' Hext']. exists (upd t).
    split; [done |]. split; congruence.
Qed.

Lemma insert_one_target (mk : oid → document) (c : list document) (r : reference_doc) :
  citation_resolved_to_target c r →
  citation_resolved_to_target (insert_one mk c) r.
Proof.
  intros Hr i Hi. destruct (Hr i Hi) as (t & Ht & Hid & Hext).
  exists t. split; [| done]. unfold insert_one. apply elem_of_app. by left.
Qed.

Lemma new_references_unresolved (c : list document) (refs : list string) (r : reference_doc) :
  r ∈ Ftp.new_reference <$> refs → citation_resolved_to_target c r.
Proof. intros Hr i Hi. apply list_elem_of_fmap in Hr as (x & -> & _). done. Qed.

Lemma insert_new_document_invariant (c : list document) (p r : string)
    (flds : gmap string string) (refs : list string) :
  keyed_by_pmid c → citations_resolved_to_targets c →
  keyed_by_pmid (insert_one (Ftp.new_document p r flds (Ftp.new_reference <$> refs)) c)
  ∧ citations_resolved_to_targets
      (insert_one (Ftp.new_document p r flds (Ftp.new_reference <$> refs)) c).
Proof.
  intros Hkey Hcit. split.
  - intros d s Hd Hid. unfold insert_one in Hd.
    apply elem_of_app in Hd as [Hd | Hd]; [by eapply Hkey |].
    apply list_elem_of_singleton in Hd as ->. done.
  - intros d x Hd Hx. apply insert_one_target. unfold insert_one in Hd.
    apply elem_of_app in Hd as [Hd | Hd]; [by eapply Hcit |].
    apply list_elem_of_singleton in Hd as ->.
    unfold citations in Hx. simpl in Hx. by eapply new_references_unresolved.
Qed.

Lemma set_article_invariant (c : list document) (p r : string)
    (flds : gmap string string) (refs : list string) :
  keyed_by_pmid c → citations_resolved_to_targets c →
  keyed_by_pmid
    (update_one (id_is (StrId p)) (Ftp.set_article p r flds (Ftp.new_reference <$> refs)) c)
  ∧ citations_resolved_to_targets
      (update_one (id_is (StrId p)) (Ftp.set_article p r flds (Ftp.new_reference <$> refs)) c).
Proof.
  intros Hkey Hcit. split.
  - intros d s Hd Hid.
    apply elem_of_update_one in Hd as [Hd | (d0 & Hd0 & Hq & ->)]; [by eapply Hkey |].
    apply bool_decide_eq_true in Hq. simpl in Hid. unfold externalId. simpl. congruence.
  - intros d x Hd Hx. apply update_one_target.
    + intros d0 Hd0 Hq. split; [done |]. apply bool_decide_eq_true in Hq.
      by rewrite (Hkey d0 p Hd0 Hq).
    + apply elem_of_update_one in Hd as [Hd | (d0 & Hd0 & Hq & ->)]; [by eapply Hcit |].
      unfold citations in Hx. simpl in Hx. by eapply new_references_unresolved.
Qed.

Lemma clear_updated_invariant (c : list document) (i : oid) (refs' : list reference_doc) :
  Forall (citation_resolved_to_target c) refs' →
  keyed_by_pmid c → citations_resolved_to_targets c →
  keyed_by_pmid (update_one (id_is i) (Ftp.clear_updated refs') c)
  ∧ citations_resolved_to_targets (update_one (id_is i) (Ftp.clear_updated refs') c).
Proof.
  intros Hrefs Hkey Hcit. split.
  - intros d s Hd Hid.
    apply elem_of_update_one in Hd as [Hd | (d0 & Hd0 & Hq & ->)]; [by eapply Hkey |].
    by apply (Hkey d0 s Hd0).
  - intros d x Hd Hx. apply update_one_target; [done |].
    apply elem_of_update_one in Hd as [Hd | (d0 & Hd0 & Hq & ->)]; [by eapply Hcit |].
    unfold citations in Hx. simpl in Hx. by eapply Forall_forall in Hrefs.
Qed.

(** One raw record through the merge loop. *)
Lemma merge_article_invariant (a : article) (s : state) :
  keyed_by_pmid (collection s) → citations_resolved_to_targets (collection s) →
  keyed_by_pmid (collection (snd (Ftp.merge_article a s)))
  ∧ citations_resolved_to_targets (collection (snd (Ftp.merge_article a s))).
Proof.
  intros Hkey Hcit.
  destruct (pmid a) as [p|] eqn:Hp; [| by rewrite merge_article_no_pmid].
  destruct (reference a) as [r|] eqn:Hr; [| by erewrite merge_article_no_reference].
  destruct (find_one (id_is (StrId p)) (collection s)) as [existing|] eqn:Hfind.
  - destruct (decide (Ftp.old_references_of existing = Ftp.new_references_of r)).
    + by erewrite merge_article_unchanged.
    + erewrite merge_article_update by done. simpl.
      apply find_one_Some in Hfind as [_ Hid]. apply bool_decide_eq_true in Hid.
      rewrite Hid. by apply set_article_invariant.
  - erewrite merge_article_insert by done. simpl.
    by apply insert_new_document_invariant.
Qed.

(** The lookups of one document's citations: nothing is written, nothing
    raises, and each citation is left as it was or takes the [_id] of the
    document found under its PMID. *)
Lemma resolve_references_spec (refs : list reference_doc) (s : state) :
  ∃ refs',
    map_py Ftp.resolve_reference refs s = (Return refs', s)
    ∧ Forall2 (fun r r' =>
                 ref_pmid r' = ref_pmid r
                 ∧ match find_one (id_is (StrId (ref_pmid r))) (collection s) with
                   | Some t => idArticle r' = Some (_id t)
                   | None => idArticle r' = idArticle r
                   end) refs refs'.
Proof.
  induction refs as [|r refs (refs' & Hrun & Hall)].
  - exists []. split; [done | constructor].
  - simpl. unfold Ftp.resolve_reference at 1. py_unfold.
    destruct (find_one (id_is (StrId (ref_pmid r))) (collection s)) as [t|] eqn:Hfind;
      rewrite Hrun; eexists; (split; [reflexivity |]);
      constructor; try done; simpl; by rewrite Hfind.
Qed.

Lemma resolve_references_targets (c : list document) (refs refs' : list reference_doc) :
  keyed_by_pmid c →
  Forall (citation_resolved_to_target c) refs →
  Forall2 (fun r r' =>
             ref_pmid r' = ref_pmid r
             ∧ match find_one (id_is (StrId (ref_pmid r))) c with
               | Some t => idArticle r' = Some (_id t)
               | None => idArticle r' = idArticle r
               end) refs refs' →
  Forall (citation_resolved_to_target c) refs'.
Proof.
  intros Hkey Hrefs Hall. induction Hall as [|r r' refs refs' [Hp Hr] _ IH].
  - constructor.
  - apply Forall_cons in Hrefs as [Hr0 Hrefs]. constructor; [| by apply IH].
    intros i Hi. destruct (find_one _ c) as [t|] eqn:Hfind.
    + apply find_one_Some in Hfind as [Ht Hid]. apply bool_decide_eq_true in Hid.
      exists t. split; [done |]. split; [unfold internalId; congruence |].
      rewrite Hp. by apply Hkey.
    + rewrite Hp. apply Hr0. congruence.
Qed.

(** One dirty document through the resolution loop. *)
Lemma resolve_article_invariant (article : document) (s : state) :
  Forall (citation_resolved_to_target (collection s)) (citations article) →
  keyed_by_pmid (collection s) → citations_resolved_to_targets (collection s) →
  keyed_by_pmid (collection (snd (Ftp.resolve_article article s)))
  ∧ citations_resolved_to_targets (collection (snd (Ftp.resolve_article article s)))
  ∧ ∀ r, citation_resolved_to_target (collection s) r →
         citation_resolved_to_target (collection (snd (Ftp.resolve_article article s))) r.
Proof.
  intros Hart Hkey Hcit. unfold Ftp.resolve_article, citations in *.
  destruct (references article) as [refs|]; [| done].
  destruct (resolve_references_spec refs s) as (refs' & Hrun & Hall).
  py_unfold. rewrite Hrun. simpl.
  pose proof (resolve_references_targets _ _ _ Hkey Hart Hall) as Hrefs'.
  destruct (clear_updated_invariant _ (_id article) refs' Hrefs' Hkey Hcit) as [? ?].
  repeat split; [done | done |]. intros r. by apply update_one_target.
Qed.

Lemma resolve_invariant (s : state) :
  keyed_by_pmid (collection s) → citations_resolved_to_targets (collection s) →
  keyed_by_pmid (collection (snd (Ftp.resolve s)))
  ∧ citations_resolved_to_targets (collection (snd (Ftp.resolve s))).
Proof.
  intros Hkey Hcit. unfold Ftp.resolve. py_unfold.
  set (snapshot := find is_updated (collection s)).
  pose (P := fun t : state =>
    keyed_by_pmid (collection t) ∧ citations_resolved_to_targets (collection t)
    ∧ ∀ article, article ∈ snapshot →
        Forall (citation_resolved_to_target (collection t)) (citations article)).
  assert (P (snd (for_each snapshot Ftp.resolve_article s))) as (? & ? & _); [| done].
  apply for_each_preserves.
  - intros article t Hin (Hk & Hc & Hsnap).
    destruct (resolve_article_invariant article t (Hsnap _ Hin) Hk Hc) as (? & ? & Hkeep).
    repeat split; [done | done |]. intros article' Hin'.
    eapply Forall_impl; [by apply Hsnap | done].
  - repeat split; [done | done |]. intros article Hin.
    apply Forall_forall. intros r Hr. apply (Hcit article); [| done].
    unfold snapshot, find in Hin. apply list_elem_of_In, filter_In in Hin as [Hin _].
    by apply list_elem_of_In.
Qed.

Lemma merge_invariant (dicts_out : list article) (s : state) :
  keyed_by_pmid (collection s) → citations_resolved_to_targets (collection s) →
  keyed_by_pmid (collection (snd (Ftp.merge dicts_out s)))
  ∧ citations_resolved_to_targets (collection (snd (Ftp.merge dicts_out s))).
Proof.
  intros Hkey Hcit. unfold Ftp.merge.
  apply (for_each_preserves
           (fun t => keyed_by_pmid (collection t)
                     ∧ citations_resolved_to_targets (collection t))); [| done].
  intros a t _ [? ?]. by apply merge_article_invariant.
Qed.

(** C9. After any sequence of merges and resolutions, started in a store
    whose string keys are the PMIDs and whose resolved citations point at
    their targets (the empty store is one), every citation is unresolved
    or holds the [_id] of a stored Record whose [externalId] is the cited
    one: no citation is ever resolved to a Record of another PMID. *)
Theorem citation_resolution_invariant (os : list operation) (s : state) :
  keyed_by_pmid (collection s) →
  citations_resolved_to_targets (collection s) →
  ∀ d r, d ∈ collection (run_operations os s) → r ∈ citations d →
    idArticle r = None
    ∨ ∃ t, t ∈ collection (run_operations os s)
           ∧ idArticle r = Some (internalId t)
           ∧ externalId t = Some (ref_pmid r).
Proof.
  intros Hkey Hcit.
  assert (keyed_by_pmid (collection (run_operations os s))
          ∧ citations_resolved_to_targets (collection (run_operations os s))) as [_ Hend].
  { revert s Hkey Hcit. unfold run_operations.
    induction os as [|o os IH]; intros s Hkey Hcit; simpl; [done |].
    apply IH; destruct o; simpl;
      first [by apply merge_invariant | by apply resolve_invariant]. }
  intros d r Hd Hr. destruct (idArticle r) as [i|] eqn:Hi; [right | by left].
  destruct (Hend d r Hd Hr i Hi) as (t & Ht & Hid & Hext).
  exists t. by rewrite Hid.
Qed.

Lemma citation_resolution_invariant_witness :
  let s := with_collection [stored "2" "pubmed23n0001.xml"] in
  let os := [Merge [raw "1" "2;3"]; Resolve] in
  let d := {| _id := ObjectId 0;
              doc_pmid := Some "1";
              doc_reference := Some "2;3";
              doc_fields := ∅;
              updated := Some false;
              references := Some [ {| ref_pmid := "3"; idArticle := None |};
                                   {| ref_pmid := "2"; idArticle := Some (StrId "2") |} ] |} in
  let r := {| ref_pmid := "2"; idArticle := Some (StrId "2") |} in
  keyed_by_pmid (collection s)
  ∧ citations_resolved_to_targets (collection s)
  ∧ d ∈ collection (run_operations os s)
  ∧ r ∈ citations d
  ∧ (idArticle r = None
     ∨ ∃ t, t ∈ collection (run_operations os s)
            ∧ idArticle r = Some (internalId t)
            ∧ externalId t = Some (ref_pmid r)).
Proof.
  intros s os d r.
  assert (keyed_by_pmid (collection s)) as Hkey.
  { intros x k Hx Hid. apply list_elem_of_singleton in Hx as ->.
    injection Hid as <-. reflexivity. }
  assert (citations_resolved_to_targets (collection s)) as Hcit.
  { intros x y Hx Hy. apply list_elem_of_singleton in Hx as ->.
    by apply elem_of_nil in Hy. }
  assert (d ∈ collection (run_operations os s)) as Hd.
  { vm_compute. right. left. }
  assert (r ∈ citations d) as Hr.
  { vm_compute. right. left. }
  repeat split; try assumption.
  exact (citation_resolution_invariant os s Hkey Hcit d r Hd Hr).
Defined.

(** ** Merging what the store already holds *)

(** The Record [insert_one] stores for [raw "1" "2;3"] in the empty store:
    its [_id] is the store's, not the PMID. *)
Lemma merge_stores_under_generated_id :
  collection (snd (Ftp.merge [raw "1" "2;3"] initial))
  = [ {| _id := ObjectId 0;
         doc_pmid := Some "1";
         doc_reference := Some "2;3";
         doc_fields := ∅;
         updated := Some true;
         references := Some [ {| ref_pmid := "3"; idArticle := None |};
                              {| ref_pmid := "2"; idArticle := None |} ] |} ].
Proof. vm_compute. reflexivity. Qed.

(** C1. Merging the batch [[raw "1" "2;3"]] into the empty store and then
    merging it again does not leave the store as the first merge left it:
    the lookup by [_id] misses the Record stored under a generated
    [_id], and the second merge inserts the Record once more, dirty. *)
Theorem remerge_inserts_again :
  let batch := [raw "1" "2;3"] in
  let once := snd (Ftp.merge batch initial) in
  let twice := snd (Ftp.merge batch once) in
  length (collection once) = 1
  ∧ length (collection twice) = 2
  ∧ (dirty <$> records_of "1" (collection twice)) = [true; true]
  ∧ twice ≠ once.
Proof.
  intros batch once twice.
  assert (length (collection once) = 1) as H1 by (vm_compute; reflexivity).
  assert (length (collection twice) = 2) as H2 by (vm_compute; reflexivity).
  split; [done |]. split; [done |]. split; [vm_compute; reflexivity |].
  intros Heq. rewrite Heq in H2. congruence.
Qed.

(** C2. Two batches that carry the PMID "1", merged and resolved one
    after the other into the empty store, leave two Records with that
    [externalId]. *)
Theorem externalId_stored_twice :
  let s := run_operations
             [Merge [raw "1" "2;3"]; Resolve; Merge [raw "1" "2;4"]; Resolve] initial in
  length (records_of "1" (collection s)) = 2
  ∧ (internalId <$> records_of "1" (collection s)) = [ObjectId 0; ObjectId 1].
Proof. vm_compute. split; reflexivity. Qed.

(** C3. A batch with a Record citing "2" and the Record "2" itself,
    merged into the empty store and resolved: the citing Record was
    dirty, its flag is cleared, and its citation of "2" is still
    unresolved although a Record with [externalId] "2" is stored (under
    the [_id] [ObjectId 1], which the lookup by PMID does not find). *)
Theorem citation_of_stored_target_unresolved :
  let merged := snd (Ftp.merge [raw "1" "2"; raw "2" ""] initial) in
  let s := snd (Ftp.resolve merged) in
  (dirty <$> collection merged) = [true; true]
  ∧ ((fun d => (internalId d, externalId d, dirty d, citations d)) <$> collection s)
    = [ (ObjectId 0, Some "1", false, [ {| ref_pmid := "2"; idArticle := None |} ]);
        (ObjectId 1, Some "2", false, [ {| ref_pmid := ""; idArticle := None |} ]) ].
Proof. vm_compute. split; reflexivity. Qed.

(** When the lookup does return the Record, the comparison of the two
    sets of PMIDs is what the design asks for: equal sets, nothing is
    written, nothing reported. *)
Lemma merge_article_noop_when_found (a : article) (s : state) (p r : string)
    (existing : document) :
  pmid a = Some p → reference a = Some r →
  find_one (id_is (StrId p)) (collection s) = Some existing →
  (∀ x, x ∈ split ";" r ↔ x ∈ (ref_pmid <$> citations existing)) →
  Ftp.merge_article a s = (Return tt, s).
Proof.
  intros Hp Hr Hfind Hsame. eapply merge_article_unchanged; try done.
  unfold Ftp.old_references_of, Ftp.new_references_of. apply set_eq. intros x.
  rewrite !elem_of_list_to_set. symmetry. apply Hsame.
Qed.

(** C5. The Record of [raw "1" "2;3"], stored by a first merge, and the
    same raw record republished with its citations reordered: the two
    citation sets are equal, and merge still writes to the store, a
    second Record for the PMID. *)
Theorem republished_unchanged_record_is_written :
  let s := snd (Ftp.merge [raw "1" "2;3"] initial) in
  let s' := snd (Ftp.merge_article (raw "1" "3;2") s) in
  (∀ existing, existing ∈ collection s →
     externalId existing = Some "1"
     ∧ Ftp.old_references_of existing = Ftp.new_references_of "3;2")
  ∧ length (collection s) = 1
  ∧ length (collection s') = 2
  ∧ collection s' ≠ collection s.
Proof.
  intros s s'.
  assert (length (collection s') = 2) as H2 by (vm_compute; reflexivity).
  split; [| split; [vm_compute; reflexivity | split; [done |]]].
  - intros existing Hin. unfold s in Hin.
    rewrite merge_stores_under_generated_id in Hin.
    apply list_elem_of_singleton in Hin as ->. split; [reflexivity |].
    vm_compute. reflexivity.
  - intros Heq. rewrite Heq in H2. revert H2. vm_compute. discriminate.
Qed.

(** ** The watermark *)

(** [main_ftp.py] reads the watermark off the first document of the
    collection, whatever the others hold. *)
Lemma last_number_of_first_document (d : document) (c : list document) (f : string) (n : N) :
  filename d = Some f → f ≠ "" → Ftp.file_number f = Some n →
  Ftp.last_number (with_collection (d :: c)) = (Return n, with_collection (d :: c)).
Proof.
  intros Hf Hne Hn. unfold Ftp.last_number, Ftp.get_last_file, reporting.
  py_unfold. simpl. rewrite Hf. simpl.
  rewrite bool_decide_eq_false_2 by done.
  unfold Ftp.parse_filename, reporting. rewrite Hn. reflexivity.
Qed.

Lemma last_number_of_empty_store :
  Ftp.last_number initial = (Return 0%N, initial).
Proof. reflexivity. Qed.

(** C4. A store whose first document comes from file 2 and whose second
    comes from file 5: [main_ftp.py] takes 2 for the watermark, the
    greatest [batchSeq] is 5. On the empty store [main.py] raises, where
    the watermark is 0. *)
Theorem watermark_is_not_the_maximum :
  let c := [stored "7" "pubmed23n0002.xml"; stored "8" "pubmed23n0005.xml"] in
  Ftp.last_number (with_collection c) = (Return 2%N, with_collection c)
  ∧ max_batchSeq c = 5%N
  ∧ Http.last_number [] = Raise TypeError
  ∧ max_batchSeq [] = 0%N.
Proof. vm_compute. repeat split; reflexivity. Qed.

(** ** New Records *)

Lemma fresh_oid_fresh (c : list document) (d : document) (n : nat) :
  d ∈ c → _id d = ObjectId n → n < fresh_oid c.
Proof.
  induction c as [|x c IH]; intros Hd Hid; [by apply elem_of_nil in Hd |].
  simpl. apply elem_of_cons in Hd as [-> | Hd].
  - rewrite Hid. lia.
  - specialize (IH Hd Hid). destruct (_id x); lia.
Qed.




(** The key discipline is needed: in a store with a document filed under
    the string ["1"] that is the Record of PMID "9", no Record has the
    [externalId] "1", and yet the raw record "1" is not inserted; the
    lookup hits the misfiled document, which is rewritten. *)
Lemma misfiled_document_is_rewritten :
  let misfiled := {| _id := StrId "1";
                     doc_pmid := Some "9";
                     doc_reference := Some "";
                     doc_fields := ∅;
                     updated := Some false;
                     references := Some [] |} in
  let s := with_collection [misfiled] in
  (∀ x, x ∈ collection s → externalId x ≠ Some "1")
  ∧ ¬ keyed_by_pmid (collection s)
  ∧ length (collection (snd (Ftp.merge_article (raw "1" "2") s))) = 1.
Proof.
  intros misfiled s. split; [| split; [| reflexivity]].
  - intros x Hx. apply list_elem_of_singleton in Hx as ->. discriminate.
  - intros Hkey. specialize (Hkey misfiled "1" ltac:(by left) eq_refl). discriminate.
Qed.


(** ** Malformed raw records *)

(** The merge loop reports nothing and retrieves nothing. *)
Lemma merge_article_frame (a : article) (s : state) :
  reported (snd (Ftp.merge_article a s)) = reported s
  ∧ retrieved (snd (Ftp.merge_article a s)) = retrieved s.
Proof.
  destruct (pmid a) as [p|] eqn:Hp; [| by rewrite merge_article_no_pmid].
  destruct (reference a) as [r|] eqn:Hr; [| by erewrite merge_article_no_reference].
  destruct (find_one (id_is (StrId p)) (collection s)) as [existing|] eqn:Hfind.
  - destruct (decide (Ftp.old_references_of existing = Ftp.new_references_of r)).
    + by erewrite merge_article_unchanged.
    + by erewrite merge_article_update.
  - by erewrite merge_article_insert.
Qed.

Lemma merge_frame (dicts_out : list article) (s : state) :
  reported (snd (Ftp.merge dicts_out s)) = reported s
  ∧ retrieved (snd (Ftp.merge dicts_out s)) = retrieved s.
Proof.
  apply (for_each_preserves
           (fun t => reported t = reported s ∧ retrieved t = retrieved s)); [| done].
  intros a t _ [<- <-]. apply merge_article_frame.
Qed.

(** The merge loop stops at the first raw record without ['pmid']. *)
Lemma merge_stops_at_malformed (pre post : list article) (bad : article) (s : state) :
  Forall well_formed pre → pmid bad = None →
  Ftp.merge (pre ++ bad :: post) s = (Raise (KeyError "pmid"), snd (Ftp.merge pre s)).
Proof.
  intros Hpre Hbad. unfold Ftp.merge. rewrite for_each_app.
  pose proof (merge_returns pre s Hpre) as Hret. unfold Ftp.merge in Hret.
  destruct (for_each pre Ftp.merge_article s) as [[[]|e] s']; [| done].
  simpl. unfold bind. by rewrite merge_article_no_pmid.
Qed.

(** C7, as the code has it. A raw record without its identifier stops the
    batch where it stands: the records before it are merged, the records
    after it are not looked at, the resolution loop is not run, and
    [update_database] reports the [KeyError] once and raises it again. *)
Theorem malformed_record_aborts_batch (w : world) (file_path : string)
    (pre post : list article) (bad : article) (s : state) :
  parse_medline_xml w file_path = Some (pre ++ bad :: post) →
  Forall well_formed pre → pmid bad = None →
  Ftp.update_database w file_path s
  = (Raise (KeyError "pmid"),
     {| collection := collection (snd (Ftp.merge pre s));
        reported := reported s ++ [("update_database", KeyError "pmid")];
        retrieved := retrieved s |}).
Proof.
  intros Hparse Hpre Hbad. unfold Ftp.update_database, reporting. rewrite Hparse.
  py_unfold. rewrite (merge_stops_at_malformed pre post bad s Hpre Hbad).
  by destruct (merge_frame pre s) as [-> ->].
Qed.

Lemma malformed_record_aborts_batch_witness :
  let w := world_of ["pubmed23n0001.xml.gz"]
             (fun _ => Some ([raw "1" "2"] ++ raw_without_pmid :: [raw "3" "1"])) in
  parse_medline_xml w "pubmed23n0001.xml"
  = Some ([raw "1" "2"] ++ raw_without_pmid :: [raw "3" "1"])
  ∧ Forall well_formed [raw "1" "2"]
  ∧ pmid raw_without_pmid = None
  ∧ Ftp.update_database w "pubmed23n0001.xml" initial
    = (Raise (KeyError "pmid"),
       {| collection := collection (snd (Ftp.merge [raw "1" "2"] initial));
          reported := reported initial ++ [("update_database", KeyError "pmid")];
          retrieved := retrieved initial |}).
Proof.
  intros w.
  assert (Forall well_formed [raw "1" "2"]) as Hpre.
  { constructor; [| constructor]. split; eexists; reflexivity. }
  split; [reflexivity |]. split; [exact Hpre |]. split; [reflexivity |].
  exact (malformed_record_aborts_batch w "pubmed23n0001.xml"
           [raw "1" "2"] [raw "3" "1"] raw_without_pmid initial
           eq_refl Hpre eq_refl).
Defined.

(** C7 as stated fails: in a batch of three raw records whose second has
    no identifier, the merge raises at the second and the third is never
    stored. *)
Lemma malformed_record_blocks_the_rest :
  let out := Ftp.merge [raw "1" "2"; raw_without_pmid; raw "3" "1"] initial in
  fst out = Raise (KeyError "pmid")
  ∧ (externalId <$> collection (snd out)) = [Some "1"]
  ∧ records_of "3" (collection (snd out)) = [].
Proof. vm_compute. repeat split; reflexivity. Qed.

(** ** Which batches a run goes through, and in which order *)

Section SortedByKey.

Context {A : Type}.

Lemma insert_by_key_perm (x : N * A) (l : list (N * A)) :
  Permutation (insert_by_key x l) (x :: l).
Proof.
  induction l as [|y l IH]; simpl; [done |].
  destruct (fst y <=? fst x)%N; [| done].
  rewrite IH. apply perm_swap.
Qed.

Lemma insert_by_key_Forall (P : N * A → Prop) (x : N * A) (l : list (N * A)) :
  P x → Forall P l → Forall P (insert_by_key x l).
Proof.
  intros Hx Hl. induction Hl as [|y l Hy Hl IH]; simpl.
  - by constructor.
  - destruct (fst y <=? fst x)%N; by repeat constructor.
Qed.

Lemma insert_by_key_sorted (x : N * A) (l : list (N * A)) :
  StronglySorted key_le l → StronglySorted key_le (insert_by_key x l).
Proof.
  induction 1 as [|y l Hl IH Hy]; simpl.
  - repeat constructor.
  - destruct (N.leb_spec (fst y) (fst x)) as [Hle | Hlt].
    + constructor; [done |]. by apply insert_by_key_Forall.
    + constructor; [by constructor |]. constructor.
      * unfold key_le. lia.
      * eapply Forall_impl; [exact Hy |]. unfold key_le. intros z Hz. simpl in Hz. lia.
Qed.

Lemma sorted_by_key_perm (l : list (N * A)) : Permutation (sorted_by_key l) l.
Proof.
  unfold sorted_by_key.
  assert (∀ acc, Permutation (fold_left (fun acc x => insert_by_key x acc) l acc) (acc ++ l))
    as Hgen; [| by rewrite Hgen].
  induction l as [|x l IH]; intros acc; simpl.
  - by rewrite app_nil_r.
  - rewrite IH, insert_by_key_perm. by rewrite <- Permutation_middle.
Qed.

Lemma sorted_by_key_sorted (l : list (N * A)) : StronglySorted key_le (sorted_by_key l).
Proof.
  unfold sorted_by_key.
  assert (∀ acc, StronglySorted key_le acc →
                 StronglySorted key_le (fold_left (fun acc x => insert_by_key x acc) l acc))
    as Hgen; [| apply Hgen; constructor].
  induction l as [|x l IH]; intros acc Hacc; simpl; [done |].
  by apply IH, insert_by_key_sorted.
Qed.

End SortedByKey.

(** The batches of [batch_order] are the listed batches above the
    watermark, each as often as listed. *)
Lemma batch_order_perm (n : N) (files : list string) :
  Permutation (batch_order n files) (List.filter (above_watermark n) files).
Proof.
  unfold batch_order. rewrite sorted_by_key_perm.
  rewrite <- list_fmap_compose. by rewrite list_fmap_id.
Qed.

(** They come in ascending order of their numbers. *)
Lemma batch_order_sorted (n : N) (files : list string) :
  StronglySorted (fun a b => (batch_number a <= batch_number b)%N) (batch_order n files).
Proof.
  unfold batch_order.
  set (keyed := (fun file => (batch_number file, file)) <$> List.filter (above_watermark n) files).
  assert (Forall (fun p => fst p = batch_number (snd p)) (sorted_by_key keyed)) as Hkeys.
  { rewrite sorted_by_key_perm. unfold keyed. apply Forall_fmap, Forall_forall. done. }
  pose proof (sorted_by_key_sorted keyed) as Hsorted.
  induction Hsorted as [|p l Hl IH Hp]; simpl; [constructor |].
  apply Forall_cons in Hkeys as [Hk Hkeys]. constructor; [by apply IH |].
  apply Forall_fmap. apply Forall_forall. intros q Hq. simpl.
  rewrite Forall_forall in Hp, Hkeys. specialize (Hp q Hq). specialize (Hkeys q Hq).
  unfold key_le in Hp. by rewrite <- Hk, <- Hkeys.
Qed.

Lemma parse_filename_Some (f : string) (n : N) (s : state) :
  Ftp.file_number f = Some n → Ftp.parse_filename f s = (Return n, s).
Proof. intros H. unfold Ftp.parse_filename, reporting. by rewrite H. Qed.

Lemma parse_filename_None (f : string) (s : state) :
  Ftp.file_number f = None →
  Ftp.parse_filename f s
  = (Raise IndexError,
     {| collection := collection s;
        reported := reported s ++ [("parse_filename", IndexError)];
        retrieved := retrieved s |}).
Proof. intros H. unfold Ftp.parse_filename, reporting. by rewrite H. Qed.

(** With a number in every listed name, the filter of [main] raises
    nothing and keeps the batches above the watermark. *)
Lemma files_to_download_all_numbered (n : N) (files : list string) (s : state) :
  Forall (fun f => is_Some (Ftp.file_number f)) files →
  Ftp.files_to_download n files s = (Return (List.filter (above_watermark n) files), s).
Proof.
  unfold Ftp.files_to_download. induction 1 as [|f files [k Hk] _ IH]; [done |].
  simpl. py_unfold. rewrite (parse_filename_Some f k s Hk).
  py_unfold in IH. rewrite IH. unfold above_watermark. rewrite Hk.
  by destruct (n <? k)%N.
Qed.

(** With a listed name without a number, the filter raises, and neither
    the store nor the transfers have been touched. *)
Lemma files_to_download_unnumbered (n : N) (files : list string) (f : string) (s : state) :
  f ∈ files → Ftp.file_number f = None →
  ∃ s', Ftp.files_to_download n files s = (Raise IndexError, s')
        ∧ collection s' = collection s ∧ retrieved s' = retrieved s.
Proof.
  unfold Ftp.files_to_download. intros Hin Hf.
  induction files as [|x files IH]; [by apply elem_of_nil in Hin |].
  simpl. py_unfold. destruct (Ftp.file_number x) as [k|] eqn:Hx.
  - rewrite (parse_filename_Some x k s Hx).
    apply elem_of_cons in Hin as [-> | Hin]; [congruence |].
    destruct (IH Hin) as (s' & Hrun & ? & ?). py_unfold in Hrun. rewrite Hrun. eauto.
  - rewrite (parse_filename_None x s Hx). eauto.
Qed.

Lemma sorted_files_all_numbered (files : list string) (s : state) :
  Forall (fun f => is_Some (Ftp.file_number f)) files →
  Ftp.sorted_files files s
  = (Return (snd <$> sorted_by_key ((fun file => (batch_number file, file)) <$> files)), s).
Proof.
  intros Hall. unfold Ftp.sorted_files. py_unfold.
  assert (map_py (fun x => bind (Ftp.parse_filename x) (fun k => ret (k, x))) files s
          = (Return ((fun file => (batch_number file, file)) <$> files), s)) as Hkeys.
  { induction Hall as [|f files [k Hk] _ IH]; [done |].
    simpl. py_unfold. rewrite (parse_filename_Some f k s Hk).
    py_unfold in IH. rewrite IH. unfold batch_number. by rewrite Hk. }
  py_unfold in Hkeys. by rewrite Hkeys.
Qed.

(** The watermark is read without a write. *)
Lemma last_number_reads (n : N) (s : state) :
  fst (Ftp.last_number s) = Return n → Ftp.last_number s = (Return n, s).
Proof.
  unfold Ftp.last_number, Ftp.get_last_file, reporting. py_unfold.
  destruct (find_one (fun _ => true) (collection s)) as [d|]; simpl.
  - destruct (filename d) as [f|]; simpl; [| done].
    destruct (bool_decide (f = "")); [by intros [= ->] |].
    unfold Ftp.parse_filename, reporting.
    destruct (Ftp.file_number f); simpl; [by intros [= ->] | done].
  - by intros [= ->].
Qed.

(** Only [download_file] adds to the transfers. *)
Lemma resolve_article_retrieved (article : document) (s : state) :
  retrieved (snd (Ftp.resolve_article article s)) = retrieved s.
Proof.
  unfold Ftp.resolve_article. destruct (references article) as [refs|]; [| done].
  destruct (resolve_references_spec refs s) as (refs' & Hrun & _).
  py_unfold. by rewrite Hrun.
Qed.

Lemma resolve_retrieved (s : state) : retrieved (snd (Ftp.resolve s)) = retrieved s.
Proof.
  unfold Ftp.resolve. py_unfold.
  apply (for_each_preserves (fun t => retrieved t = retrieved s)); [| done].
  intros article t _ <-. apply resolve_article_retrieved.
Qed.

Lemma reporting_retrieved {A} (fn : string) (m : py A) (s : state) :
  retrieved (snd (reporting fn m s)) = retrieved (snd (m s)).
Proof. unfold reporting. by destruct (m s) as [[a|e] s']. Qed.

Lemma update_database_retrieved (w : world) (file_path : string) (s : state) :
  retrieved (snd (Ftp.update_database w file_path s)) = retrieved s.
Proof.
  unfold Ftp.update_database. rewrite reporting_retrieved.
  destruct (parse_medline_xml w file_path) as [ds|]; [| done].
  py_unfold. pose proof (merge_frame ds s) as [_ Hm].
  destruct (Ftp.merge ds s) as [[[]|e] s']; simpl in *; [| done].
  by rewrite resolve_retrieved.
Qed.

(** A batch that is gone through is first retrieved, under its url. *)
Lemma process_file_retrieved (w : world) (host directory remote_dir file : string)
    (s : state) :
  retrieved (snd (Ftp.process_file w host directory remote_dir file s))
  = retrieved s ++ [Ftp.ftp_url host remote_dir file]
  ∨ (retrieved (snd (Ftp.process_file w host directory remote_dir file s)) = retrieved s
     ∧ fst (Ftp.process_file w host directory remote_dir file s)
       = Raise (OSError (Ftp.ftp_url host remote_dir file))).
Proof.
  unfold Ftp.process_file, Ftp.download_file, Ftp.decompress_file, reporting. py_unfold.
  destruct (urlretrieve w _ _); [left | by right].
  destruct (gunzip w _ _); [| done].
  by rewrite update_database_retrieved.
Qed.

Lemma process_files_retrieved (w : world) (host directory remote_dir : string)
    (files : list string) (s : state) :
  ∃ k,
    retrieved (snd (for_each files (Ftp.process_file w host directory remote_dir) s))
    = retrieved s ++ (Ftp.ftp_url host remote_dir <$> take k files)
    ∧ (fst (for_each files (Ftp.process_file w host directory remote_dir) s) = Return tt →
       k = length files).
Proof.
  revert s. induction files as [|file files IH]; intros s.
  - exists 0. by rewrite app_nil_r.
  - simpl. unfold bind.
    destruct (process_file_retrieved w host directory remote_dir file s) as [Hok | [Hno Hraise]].
    + destruct (Ftp.process_file w host directory remote_dir file s) as [[[]|e] s'];
        simpl in Hok.
      * destruct (IH s') as (k & Hk & Hlen). exists (S k). simpl.
        rewrite Hk, Hok, <- app_assoc. split; [done |]. intros Hret. by rewrite Hlen.
      * exists 1. simpl. by rewrite Hok.
    + destruct (Ftp.process_file w host directory remote_dir file s) as [[[]|e] s'];
        simpl in *; [done |].
      exists 0. by rewrite app_nil_r.
Qed.

(** [ftp.quit()] and the removal of the local files leave the state as
    it is, whether they raise or not. *)
Lemma quit_and_remove_spec (w : world) (directory : string) (s : state) :
  Ftp.quit_and_remove w directory s
  = (match ftp_quit w, remove_files w directory with
     | Some e, _ => Raise e
     | None, Some e => Raise e
     | None, None => Return tt
     end, s).
Proof.
  unfold Ftp.quit_and_remove. py_unfold.
  destruct (ftp_quit w); [done |]. by destruct (remove_files w directory).
Qed.

(** The [try] block of [main_ftp.py] sorts by number. With the watermark
    [n] read off the store, and a listing in which every name has a
    number, it goes through exactly the listed batches whose number is
    above [n] (each as often as listed), in ascending order of their
    numbers: it runs the loop body over [batch_order n files], and the
    urls it retrieves are those of a prefix of that list, of the whole
    list when the block ends without an error. *)
Theorem batches_above_watermark_in_ascending_order
    (w : world) (host directory remote_dir : string) (files : list string)
    (n : N) (s : state) :
  fst (Ftp.last_number s) = Return n →
  ftp_open w = None →
  nlst w = inl files →
  Forall (fun f => is_Some (Ftp.file_number f)) files →
  Permutation (batch_order n files) (List.filter (above_watermark n) files)
  ∧ StronglySorted (fun a b => (batch_number a <= batch_number b)%N) (batch_order n files)
  ∧ Ftp.main_try w host directory remote_dir s
    = reporting "main"
        (for_each (batch_order n files) (Ftp.process_file w host directory remote_dir) ;;;
         Ftp.quit_and_remove w directory) s
  ∧ ∃ k,
      retrieved (snd (Ftp.main_try w host directory remote_dir s))
      = retrieved s ++ (Ftp.ftp_url host remote_dir <$> take k (batch_order n files))
      ∧ (fst (Ftp.main_try w host directory remote_dir s) = Return tt →
         k = length (batch_order n files)).
Proof.
  intros Hn Hopen Hlist Hall.
  assert (Ftp.main_try w host directory remote_dir s
          = reporting "main"
              (for_each (batch_order n files)
                 (Ftp.process_file w host directory remote_dir) ;;;
               Ftp.quit_and_remove w directory) s) as Hmain.
  { unfold Ftp.main_try, reporting, Ftp.list_files. rewrite Hopen, Hlist. py_unfold.
    rewrite (last_number_reads n s Hn).
    rewrite (files_to_download_all_numbered n files s Hall).
    rewrite sorted_files_all_numbered; [done |].
    apply Forall_forall. intros f Hf. apply list_elem_of_In, filter_In in Hf as [Hf _].
    rewrite Forall_forall in Hall. by apply Hall, list_elem_of_In. }
  split; [apply batch_order_perm |]. split; [apply batch_order_sorted |].
  split; [exact Hmain |].
  rewrite Hmain.
  destruct (process_files_retrieved w host directory remote_dir (batch_order n files) s)
    as (k & Hk & Hlen).
  exists k. rewrite reporting_retrieved. unfold bind.
  destruct (for_each _ _ s) as [[[]|e] s'] eqn:Hrun; simpl in Hk, Hlen |- *.
  - rewrite quit_and_remove_spec. split; [done |]. intros _. by apply Hlen.
  - split; [done |]. unfold reporting, bind. by rewrite Hrun.
Qed.

Lemma batches_above_watermark_in_ascending_order_witness :
  let w := world_of ["pubmed23n0007.xml.gz"; "pubmed23n0003.xml.gz"; "pubmed23n0005.xml.gz"]
             (fun _ => Some []) in
  let files := ["pubmed23n0007.xml.gz"; "pubmed23n0003.xml.gz"; "pubmed23n0005.xml.gz"] in
  let s := with_collection [stored "9" "pubmed23n0003.xml"] in
  let host := "ftp.ncbi.nlm.nih.gov" in
  let remote_dir := "/pubmed/updatefiles/" in
  fst (Ftp.last_number s) = Return 3%N
  ∧ ftp_open w = None
  ∧ nlst w = inl files
  ∧ Forall (fun f => is_Some (Ftp.file_number f)) files
  ∧ batch_order 3 files = ["pubmed23n0005.xml.gz"; "pubmed23n0007.xml.gz"]
  ∧ Permutation (batch_order 3 files) (List.filter (above_watermark 3) files)
  ∧ StronglySorted (fun a b => (batch_number a <= batch_number b)%N) (batch_order 3 files)
  ∧ Ftp.main_try w host "xml_data" remote_dir s
    = reporting "main"
        (for_each (batch_order 3 files) (Ftp.process_file w host "xml_data" remote_dir) ;;;
         Ftp.quit_and_remove w "xml_data") s
  ∧ ∃ k,
      retrieved (snd (Ftp.main_try w host "xml_data" remote_dir s))
      = retrieved s ++ (Ftp.ftp_url host remote_dir <$> take k (batch_order 3 files))
      ∧ (fst (Ftp.main_try w host "xml_data" remote_dir s) = Return tt →
         k = length (batch_order 3 files)).
Proof.
  intros w files s host remote_dir.
  assert (Forall (fun f => is_Some (Ftp.file_number f)) files) as Hall.
  { repeat constructor; eexists; reflexivity. }
  split; [reflexivity |]. split; [reflexivity |]. split; [reflexivity |].
  split; [exact Hall |]. split; [reflexivity |].
  exact (batches_above_watermark_in_ascending_order w host "xml_data" remote_dir files 3 s
           eq_refl eq_refl eq_refl Hall).
Defined.

(** ** A listed name without a number *)

Lemma number_segment_same_start (f pre pre' : string) (ds ds' : list ascii)
    (post post' : string) :
  number_segment f pre ds post → number_segment f pre' ds' post' →
  String.length pre = String.length pre' → ds = ds'.
Proof.
  revert pre pre'. induction f as [|c f IH]; intros pre pre' Hseg Hseg' Hlen.
  - by apply number_segment_nonempty in Hseg.
  - destruct (number_segment_tail _ _ _ _ _ Hseg) as [-> | (p & -> & Hp)];
      destruct (number_segment_tail _ _ _ _ _ Hseg') as [-> | (p' & -> & Hp')];
      try done.
    + assert (match_n_digits_dot (String c f) = Some ds) as H1
        by (apply match_n_digits_dot_spec; eauto).
      assert (match_n_digits_dot (String c f) = Some ds') as H2
        by (apply match_n_digits_dot_spec; eauto).
      congruence.
    + simpl in Hlen. eapply IH; eauto.
Qed.

(** [parse_filename] returns the number of the leftmost ['n<digits>.']. *)
Lemma file_number_spec (f : string) (n : N) :
  Ftp.file_number f = Some n ↔
  ∃ pre ds post,
    number_segment f pre ds post ∧ n = int_of_digits ds
    ∧ ∀ pre' ds' post', number_segment f pre' ds' post' →
                        (String.length pre <= String.length pre')%nat.
Proof.
  unfold Ftp.file_number. split.
  - destruct (findall_first f) as [ds|] eqn:Hf; [| done]. intros [= <-].
    destruct (findall_first_Some f ds Hf) as (pre & post & Hseg & Hleft).
    exists pre, ds, post. eauto.
  - intros (pre & ds & post & Hseg & -> & Hleft).
    destruct (findall_first f) as [ds0|] eqn:Hf.
    + destruct (findall_first_Some f ds0 Hf) as (pre0 & post0 & Hseg0 & Hleft0).
      simpl. f_equal. f_equal. eapply number_segment_same_start; eauto.
      apply Nat.le_antisymm; eauto.
    + apply findall_first_None in Hf. exfalso. apply Hf. eauto.
Qed.

Lemma last_number_keeps (s : state) :
  collection (snd (Ftp.last_number s)) = collection s
  ∧ retrieved (snd (Ftp.last_number s)) = retrieved s.
Proof.
  unfold Ftp.last_number, Ftp.get_last_file, reporting. py_unfold.
  destruct (find_one (fun _ => true) (collection s)) as [d|]; simpl; [| done].
  destruct (filename d) as [f|]; simpl; [| done].
  destruct (bool_decide (f = "")); [done |].
  unfold Ftp.parse_filename, reporting. by destruct (Ftp.file_number f).
Qed.

Lemma filter_links_unnumbered (n : N) (links : list string) (link : string) :
  link ∈ links → search_first link = None →
  Http.filter_links n links = Raise AttributeError.
Proof.
  intros Hin Hlink. induction links as [|x links IH]; [by apply elem_of_nil in Hin |].
  simpl. unfold Http.get_file_number at 1.
  destruct (search_first x) as [ds|] eqn:Hx; [| done].
  apply elem_of_cons in Hin as [-> | Hin]; [congruence |]. by rewrite IH.
Qed.

(** As the file stands, a run of [main] ends in [setup_logger]: it raises
    [NameError] before the [try], with nothing reported, written or
    retrieved. *)
Lemma main_stops_in_setup_logger (w : world) (host directory remote_dir : string)
    (s : state) :
  Ftp.main w host directory remote_dir s = (Raise (NameError "logging"), s).
Proof. reflexivity. Qed.

(** C10. [parse_filename] returns a number exactly for the names with a
    segment ['n<digits>.'], the number of the leftmost one, and raises
    for every other name; and a listing with one name without such a
    segment makes the [try] block of [main] raise before any batch is
    gone through: the store is as it was and nothing was retrieved. So
    does [main] as a whole, which calls [setup_logger] first. The filter
    of [main.py] raises in the same way on a link without ['n<digits>']. *)
Theorem unparsable_filename_aborts_run
    (w : world) (host directory remote_dir : string) (files : list string)
    (f : string) (s : state) :
  (∀ n, fst (Ftp.parse_filename f s) = Return n ↔
        ∃ pre ds post,
          number_segment f pre ds post ∧ n = int_of_digits ds
          ∧ ∀ pre' ds' post', number_segment f pre' ds' post' →
                              (String.length pre <= String.length pre')%nat)
  ∧ ((¬ ∃ pre ds post, number_segment f pre ds post) ↔
     fst (Ftp.parse_filename f s) = Raise IndexError)
  ∧ (nlst w = inl files → f ∈ files →
     (¬ ∃ pre ds post, number_segment f pre ds post) →
     ∃ e, fst (Ftp.main_try w host directory remote_dir s) = Raise e
          ∧ collection (snd (Ftp.main_try w host directory remote_dir s)) = collection s
          ∧ retrieved (snd (Ftp.main_try w host directory remote_dir s)) = retrieved s)
  ∧ (nlst w = inl files → f ∈ files →
     (¬ ∃ pre ds post, number_segment f pre ds post) →
     ∃ e, fst (Ftp.main w host directory remote_dir s) = Raise e
          ∧ collection (snd (Ftp.main w host directory remote_dir s)) = collection s
          ∧ retrieved (snd (Ftp.main w host directory remote_dir s)) = retrieved s)
  ∧ (f ∈ files → search_first f = None →
     ∀ n, Http.process_files_order files n = Raise AttributeError).
Proof.
  split; [| split; [| split; [| split]]].
  - intros n. rewrite <- file_number_spec. unfold Ftp.parse_filename, reporting.
    destruct (Ftp.file_number f) as [k|]; simpl; [| done].
    split; congruence.
  - rewrite <- findall_first_None. unfold Ftp.parse_filename, reporting, Ftp.file_number.
    by destruct (findall_first f).
  - intros Hlist Hin Hno. apply findall_first_None in Hno.
    assert (Ftp.file_number f = None) as Hf by (unfold Ftp.file_number; by rewrite Hno).
    unfold Ftp.main_try, reporting, Ftp.list_files. rewrite Hlist. py_unfold.
    destruct (last_number_keeps s) as [Hc Hr].
    destruct (Ftp.last_number s) as [[n|e] s1]; simpl in Hc, Hr; [| by eauto].
    destruct (ftp_open w) as [e|]; [by eauto |].
    destruct (files_to_download_unnumbered n files f s1 Hin Hf) as (s2 & Hrun & Hc2 & Hr2).
    rewrite Hrun. simpl. exists IndexError. split; [done |]. split; congruence.
  - intros _ _ _. rewrite main_stops_in_setup_logger. by eexists.
  - intros Hin Hf n. unfold Http.process_files_order.
    by rewrite (filter_links_unnumbered n files f Hin Hf).
Qed.

Lemma unparsable_filename_aborts_run_witness :
  let files := ["pubmed23n0004.xml.gz"; "README.txt"] in
  let w := world_of files (fun _ => Some [raw "1" "2"]) in
  let host := "ftp.ncbi.nlm.nih.gov" in
  let remote_dir := "/pubmed/updatefiles/" in
  nlst w = inl files
  ∧ "README.txt" ∈ files
  ∧ (¬ ∃ pre ds post, number_segment "README.txt" pre ds post)
  ∧ search_first "README.txt" = None
  ∧ fst (Ftp.parse_filename "README.txt" initial) = Raise IndexError
  ∧ (∃ e, fst (Ftp.main_try w host "xml_data" remote_dir initial) = Raise e
          ∧ collection (snd (Ftp.main_try w host "xml_data" remote_dir initial))
            = collection initial
          ∧ retrieved (snd (Ftp.main_try w host "xml_data" remote_dir initial))
            = retrieved initial)
  ∧ (∃ e, fst (Ftp.main w host "xml_data" remote_dir initial) = Raise e
          ∧ collection (snd (Ftp.main w host "xml_data" remote_dir initial))
            = collection initial
          ∧ retrieved (snd (Ftp.main w host "xml_data" remote_dir initial))
            = retrieved initial)
  ∧ ∀ n, Http.process_files_order files n = Raise AttributeError.
Proof.
  intros files w host remote_dir.
  assert ("README.txt" ∈ files) as Hin by (right; left).
  assert (¬ ∃ pre ds post, number_segment "README.txt" pre ds post) as Hno
    by (by apply findall_first_None).
  destruct (unparsable_filename_aborts_run w host "xml_data" remote_dir files
              "README.txt" initial) as (_ & Hraise & Htry & Hmain & Hhttp).
  split; [reflexivity |]. split; [exact Hin |]. split; [exact Hno |].
  split; [reflexivity |]. split; [by apply Hraise |].
  split; [by apply Htry |]. split; [by apply Hmain | by apply Hhttp].
Defined.

(** ** main.py on the same questions *)

(** C8. [process_files] of [main.py] selects the links above the
    watermark by their numbers and then goes through them in the order of
    the strings ([sorted(links)], without the key its sibling sorts by):
    with the batches 999 and 1000 listed above the watermark 7, both are
    selected, and batch 1000 is processed before batch 999. *)
Theorem http_batches_out_of_ascending_order :
  let b999 := "https://ftp.ncbi.nlm.nih.gov/pubmed/updatefiles/pubmed23n999.xml.gz" in
  let b1000 := "https://ftp.ncbi.nlm.nih.gov/pubmed/updatefiles/pubmed23n1000.xml.gz" in
  Http.get_file_number b999 = Return 999%N
  ∧ Http.get_file_number b1000 = Return 1000%N
  ∧ Http.process_files_order [b999; b1000] 7%N = Return [b1000; b999]
  ∧ ¬ StronglySorted (fun a b => (link_number a <= link_number b)%N) [b1000; b999].
Proof.
  intros b999 b1000.
  split; [reflexivity |]. split; [reflexivity |]. split; [reflexivity |].
  intros Hsorted. apply StronglySorted_inv in Hsorted as [_ Hle].
  apply Forall_inv in Hle. revert Hle. vm_compute. intros Hle. by apply Hle.
Qed.

(** With names of one width, as the corpus has them, the order of the
    strings is the order of the numbers. *)
Lemma http_links_of_one_width :
  Http.process_files_order
    ["https://ftp.ncbi.nlm.nih.gov/pubmed/updatefiles/pubmed23n1201.xml.gz";
     "https://ftp.ncbi.nlm.nih.gov/pubmed/updatefiles/pubmed23n1199.xml.gz";
     "https://ftp.ncbi.nlm.nih.gov/pubmed/updatefiles/pubmed23n1200.xml.gz"] 1199%N
  = Return ["https://ftp.ncbi.nlm.nih.gov/pubmed/updatefiles/pubmed23n1200.xml.gz";
            "https://ftp.ncbi.nlm.nih.gov/pubmed/updatefiles/pubmed23n1201.xml.gz"].
Proof. reflexivity. Qed.

(** * Further properties of the two scripts *)

(** ** The [_id]s of the store (main_ftp.py, [update_database]) *)

Lemma ids_update_one (q : document → bool) (upd : document → document)
    (c : list document) :
  (∀ d, _id (upd d) = _id d) → ids (update_one q upd c) = ids c.
Proof.
  intros Hupd. unfold ids. induction c as [|d c IH]; [done |].
  cbn [update_one]. destruct (q d); rewrite !fmap_cons; [by rewrite Hupd | by rewrite IH].
Qed.

Lemma fresh_oid_not_in (c : list document) : ObjectId (fresh_oid c) ∉ ids c.
Proof.
  unfold ids. intros Hin. apply list_elem_of_fmap in Hin as (d & Hid & Hd).
  symmetry in Hid. apply (fresh_oid_fresh c d _ Hd) in Hid. lia.
Qed.

(** One raw record adds at most one [_id], a generated one no document
    has, and changes none. *)
Lemma merge_article_ids (a : article) (s : state) :
  ids (collection (snd (Ftp.merge_article a s))) = ids (collection s)
  ∨ ids (collection (snd (Ftp.merge_article a s)))
    = ids (collection s) ++ [ObjectId (fresh_oid (collection s))].
Proof.
  destruct (pmid a) as [p|] eqn:Hp; [| left; by rewrite merge_article_no_pmid].
  destruct (reference a) as [r|] eqn:Hr;
    [| left; by erewrite merge_article_no_reference].
  destruct (find_one (id_is (StrId p)) (collection s)) as [existing|] eqn:Hfind.
  - left. destruct (decide (Ftp.old_references_of existing = Ftp.new_references_of r)).
    + by erewrite merge_article_unchanged.
    + erewrite merge_article_update by done. simpl. by apply ids_update_one.
  - right. erewrite merge_article_insert by done. simpl.
    unfold insert_one, ids. by rewrite fmap_app.
Qed.

Lemma resolve_article_ids (article : document) (s : state) :
  ids (collection (snd (Ftp.resolve_article article s))) = ids (collection s).
Proof.
  unfold Ftp.resolve_article. destruct (references article) as [refs|]; [| done].
  destruct (resolve_references_spec refs s) as (refs' & Hrun & _).
  py_unfold. rewrite Hrun. simpl. by apply ids_update_one.
Qed.

Lemma resolve_ids (s : state) :
  ids (collection (snd (Ftp.resolve s))) = ids (collection s).
Proof.
  unfold Ftp.resolve. py_unfold.
  apply (for_each_preserves (fun t => ids (collection t) = ids (collection s))); [| done].
  intros article t _ <-. apply resolve_article_ids.
Qed.

(** What an operation does to the [_id]s: it keeps those there are, in
    their order, and adds generated ones that keep them distinct. *)
Lemma run_operation_ids (o : operation) (s : state) :
  ∃ new,
    ids (collection (snd (run_operation o s))) = ids (collection s) ++ new
    ∧ Forall (fun i => ∃ n, i = ObjectId n) new
    ∧ (unique_ids (collection s) → unique_ids (collection (snd (run_operation o s)))).
Proof.
  destruct o as [dicts_out|]; simpl.
  - unfold Ftp.merge.
    apply (for_each_preserves
             (fun t => ∃ new,
                ids (collection t) = ids (collection s) ++ new
                ∧ Forall (fun i => ∃ n, i = ObjectId n) new
                ∧ (unique_ids (collection s) → unique_ids (collection t)))).
    + intros a t _ (new & Ht & Hnew & Huniq).
      destruct (merge_article_ids a t) as [Hsame | Hadd].
      * exists new. unfold unique_ids in *. rewrite Hsame. eauto.
      * exists (new ++ [ObjectId (fresh_oid (collection t))]).
        unfold unique_ids in *. rewrite Hadd, Ht, <- app_assoc.
        split; [done |]. split.
        -- apply Forall_app. split; [done |]. repeat constructor. eauto.
        -- intros Hs. specialize (Huniq Hs). rewrite app_assoc, <- Ht.
           apply NoDup_app. split; [done |]. split; [| apply NoDup_singleton].
           intros i Hi Hi'. apply list_elem_of_singleton in Hi' as ->.
           by apply fresh_oid_not_in in Hi.
    + exists []. rewrite app_nil_r. by repeat split.
  - exists []. unfold unique_ids. rewrite app_nil_r, resolve_ids. by repeat split.
Qed.

(** X1. No operation deletes, reorders or re-keys a document: the [_id]s of
    the store before a sequence of merges and resolutions are a prefix of
    those after it, and every [_id] added is a generated one. *)
Theorem ids_only_grow (os : list operation) (s : state) :
  ∃ new,
    ids (collection (run_operations os s)) = ids (collection s) ++ new
    ∧ Forall (fun i => ∃ n, i = ObjectId n) new.
Proof.
  revert s. induction os as [|o os IH]; intros s; simpl.
  - exists []. by rewrite app_nil_r.
  - destruct (run_operation_ids o s) as (new1 & H1 & Hn1 & _).
    destruct (IH (snd (run_operation o s))) as (new2 & H2 & Hn2).
    exists (new1 ++ new2). unfold run_operations in *. simpl.
    rewrite H2, H1, <- app_assoc. split; [done |]. by apply Forall_app.
Qed.

(** X2. The [_id]s stay pairwise distinct through any sequence of merges and
    resolutions: [insert_one] never reuses one. *)
Theorem ids_stay_unique (os : list operation) (s : state) :
  unique_ids (collection s) → unique_ids (collection (run_operations os s)).
Proof.
  revert s. induction os as [|o os IH]; intros s Hs; simpl; [done |].
  apply IH. destruct (run_operation_ids o s) as (_ & _ & _ & H). by apply H.
Qed.

Lemma ids_stay_unique_witness :
  unique_ids (collection (with_collection [stored "2" "pubmed23n0001.xml"]))
  ∧ unique_ids
      (collection
         (run_operations [Merge [raw "1" "2;3"; raw "1" "2;3"]; Resolve]
            (with_collection [stored "2" "pubmed23n0001.xml"]))).
Proof.
  assert (unique_ids (collection (with_collection [stored "2" "pubmed23n0001.xml"])))
    as Hs by (apply NoDup_singleton).
  split; [exact Hs |].
  exact (ids_stay_unique [Merge [raw "1" "2;3"; raw "1" "2;3"]; Resolve] _ Hs).
Defined.

(** ** The resolution loop as one pass over the store *)

Lemma update_one_unique (i : oid) (upd : document → document) (c : list document) :
  unique_ids c →
  update_one (id_is i) upd c = (fun d => if id_is i d then upd d else d) <$> c.
Proof.
  unfold unique_ids, ids. induction c as [|d c IH]; intros Huniq; [done |].
  rewrite fmap_cons in Huniq. apply NoDup_cons in Huniq as [Hd Huniq].
  cbn [update_one]. rewrite fmap_cons. destruct (id_is i d) eqn:Hid.
  - f_equal. symmetry. rewrite <- (list_fmap_id c) at 2. apply Forall_fmap_ext.
    apply Forall_forall. intros x Hx. unfold id_is in *.
    apply bool_decide_eq_true in Hid. rewrite bool_decide_eq_false_2; [done |].
    intros Hx'. apply Hd. rewrite Hid, <- Hx'. by apply list_elem_of_fmap_2.
  - f_equal. by apply IH.
Qed.

Lemma unique_ids_same (c : list document) (d1 d2 : document) :
  unique_ids c → d1 ∈ c → d2 ∈ c → _id d1 = _id d2 → d1 = d2.
Proof.
  unfold unique_ids, ids. induction c as [|x c IH]; intros Huniq H1 H2 Hid;
    [by apply elem_of_nil in H1 |].
  rewrite fmap_cons in Huniq. apply NoDup_cons in Huniq as [Hx Huniq].
  apply elem_of_cons in H1 as [-> | H1]; apply elem_of_cons in H2 as [-> | H2].
  - done.
  - exfalso. apply Hx. rewrite Hid. by apply list_elem_of_fmap_2.
  - exfalso. apply Hx. rewrite <- Hid. by apply list_elem_of_fmap_2.
  - by apply IH.
Qed.

Lemma find_one_id_None (i : oid) (c : list document) :
  find_one (id_is i) c = None ↔ i ∉ ids c.
Proof.
  unfold ids. induction c as [|d c IH]; simpl.
  - split; [intros _ H; by apply elem_of_nil in H | done].
  - unfold id_is at 1. destruct (bool_decide_reflect (_id d = i)) as [Hd | Hd].
    + split; [done |]. intros Hn. exfalso. apply Hn. rewrite Hd. left.
    + rewrite IH. split.
      * intros Hn Hin. apply elem_of_cons in Hin as [Hin | Hin]; [congruence | done].
      * intros Hn Hin. apply Hn. by right.
Qed.

(** The lookup of a citation reads the [_id]s only. *)
Lemma resolve_against_ids (c : list document) (r : reference_doc) :
  resolve_against c r
  = if bool_decide (StrId (ref_pmid r) ∈ ids c)
    then {| ref_pmid := ref_pmid r; idArticle := Some (StrId (ref_pmid r)) |}
    else r.
Proof.
  unfold resolve_against.
  destruct (find_one (id_is (StrId (ref_pmid r))) c) as [t|] eqn:Hfind.
  - pose proof Hfind as Hsome. apply find_one_Some in Hfind as [Ht Hid].
    apply bool_decide_eq_true in Hid. rewrite bool_decide_eq_true_2; [by rewrite Hid |].
    unfold ids. rewrite <- Hid. by apply list_elem_of_fmap_2.
  - apply find_one_id_None in Hfind. by rewrite bool_decide_eq_false_2.
Qed.

Lemma resolve_against_same_ids (c1 c2 : list document) (r : reference_doc) :
  ids c1 = ids c2 → resolve_against c1 r = resolve_against c2 r.
Proof. intros H. by rewrite !resolve_against_ids, H. Qed.

Lemma resolve_references_against (refs : list reference_doc) (s : state) :
  map_py Ftp.resolve_reference refs s
  = (Return (resolve_against (collection s) <$> refs), s).
Proof.
  destruct (resolve_references_spec refs s) as (refs' & -> & Hall).
  f_equal. f_equal. induction Hall as [|r r' refs refs' [Hp Hr] _ IH]; [done |].
  rewrite fmap_cons, IH. f_equal. unfold resolve_against.
  destruct (find_one _ (collection s)) as [t|]; destruct r as [p i], r' as [p' i'];
    simpl in *; congruence.
Qed.

(** One dirty document: its citations are looked up and written back
    with the flag cleared, on the document of its [_id]. *)
Lemma resolve_article_step (article : document) (refs : list reference_doc) (s : state) :
  references article = Some refs →
  Ftp.resolve_article article s
  = (Return tt,
     {| collection :=
          update_one (id_is (_id article))
            (Ftp.clear_updated (resolve_against (collection s) <$> refs)) (collection s);
        reported := reported s;
        retrieved := retrieved s |}).
Proof.
  intros Hrefs. unfold Ftp.resolve_article. rewrite Hrefs. py_unfold.
  by rewrite resolve_references_against.
Qed.

Lemma resolve_loop (c0 : list document) (todo : list document) (s : state) :
  unique_ids (collection s) → ids (collection s) = ids c0 →
  NoDup (ids todo) →
  (∀ a, a ∈ todo → a ∈ collection s ∧ is_Some (references a)) →
  for_each todo Ftp.resolve_article s
  = (Return tt,
     {| collection :=
          (fun d => if bool_decide (_id d ∈ ids todo)
                    then Ftp.clear_updated (resolve_against c0 <$> citations d) d
                    else d) <$> collection s;
        reported := reported s;
        retrieved := retrieved s |}).
Proof.
  revert s. induction todo as [|a todo IH]; intros s Huniq Hids Hnodup Htodo.
  - assert ((fun d => if bool_decide (_id d ∈ ids [])
                        then Ftp.clear_updated (resolve_against c0 <$> citations d) d
                        else d) <$> collection s = collection s) as ->.
    { rewrite <- (list_fmap_id (collection s)) at 2.
      apply Forall_fmap_ext, Forall_forall. intros d _.
      rewrite bool_decide_eq_false_2; [done |]. apply not_elem_of_nil. }
    by rewrite state_eta.
  - unfold ids in Hnodup. rewrite fmap_cons in Hnodup.
    apply NoDup_cons in Hnodup as [Ha Hnodup].
    destruct (Htodo a) as [Hin [refs Hrefs]]; [left |].
    simpl. unfold bind. rewrite (resolve_article_step a refs s Hrefs).
    rewrite (update_one_unique _ _ _ Huniq).
    set (f_a := fun d => if id_is (_id a) d
                         then Ftp.clear_updated (resolve_against (collection s) <$> refs) d
                         else d).
    assert (ids (f_a <$> collection s) = ids (collection s)) as Hsame.
    { unfold ids. rewrite <- list_fmap_compose. apply Forall_fmap_ext, Forall_forall.
      intros d _. unfold f_a. simpl. by destruct (id_is (_id a) d). }
    rewrite IH; simpl.
    + f_equal. f_equal. rewrite <- list_fmap_compose.
      apply Forall_fmap_ext, Forall_forall. intros d Hd. simpl. unfold f_a, id_is.
      destruct (bool_decide_reflect (_id d = _id a)) as [Hda | Hda].
      * assert (d = a) as -> by (by apply (unique_ids_same (collection s))).
        simpl. rewrite bool_decide_eq_false_2 by done.
        rewrite bool_decide_eq_true_2 by left.
        unfold citations. rewrite Hrefs. simpl.
        f_equal. apply Forall_fmap_ext, Forall_forall. intros r _.
        by apply resolve_against_same_ids.
      * apply (f_equal (fun b : bool => if b then _ else _)).
        apply bool_decide_ext. rewrite elem_of_cons.
        split; [by right | by intros [? | ?]].
    + unfold unique_ids. by rewrite Hsame.
    + by rewrite Hsame.
    + done.
    + intros a' Ha'. destruct (Htodo a') as [Hin' Hrefs']; [by right |].
      split; [| done]. apply list_elem_of_fmap. exists a'. split; [| done].
      unfold f_a, id_is. rewrite bool_decide_eq_false_2; [done |].
      intros Heq. apply Ha. rewrite <- Heq. by apply list_elem_of_fmap_2.
Qed.

Lemma unique_ids_filter (q : document → bool) (c : list document) :
  unique_ids c → NoDup (ids (List.filter q c)).
Proof.
  unfold unique_ids, ids. induction c as [|d c IH]; intros Huniq; [constructor |].
  rewrite fmap_cons in Huniq. apply NoDup_cons in Huniq as [Hd Huniq].
  simpl. destruct (q d); [| by apply IH].
  rewrite fmap_cons. apply NoDup_cons. split; [| by apply IH].
  intros Hin. apply Hd. apply list_elem_of_fmap in Hin as (x & Hx & Hin).
  apply list_elem_of_In, filter_In in Hin as [Hin _]. rewrite Hx.
  by apply list_elem_of_fmap_2, list_elem_of_In.
Qed.

Lemma resolve_runs_as_pass (s : state) :
  unique_ids (collection s) → dirty_have_references (collection s) →
  Ftp.resolve s
  = (Return tt,
     {| collection := resolved_document (collection s) <$> collection s;
        reported := reported s;
        retrieved := retrieved s |}).
Proof.
  intros Huniq Hrefs. unfold Ftp.resolve. py_unfold.
  rewrite (resolve_loop (collection s)); try done.
  - f_equal. f_equal. apply Forall_fmap_ext, Forall_forall. intros d Hd.
    unfold resolved_document.
    apply (f_equal (fun b : bool => if b then _ else d)).
    destruct (is_updated d) eqn:Hdirty.
    + apply bool_decide_eq_true. apply list_elem_of_fmap_2.
      apply list_elem_of_In, filter_In. split; [by apply list_elem_of_In | done].
    + apply bool_decide_eq_false. intros Hin.
      apply list_elem_of_fmap in Hin as (x & Hx & Hin).
      apply list_elem_of_In, filter_In in Hin as [Hin Hdx]. apply list_elem_of_In in Hin.
      assert (d = x) as -> by (by apply (unique_ids_same (collection s))). congruence.
  - by apply unique_ids_filter.
  - intros a Ha. apply list_elem_of_In, filter_In in Ha as [Ha Hdirty].
    apply list_elem_of_In in Ha. split; [done | by apply Hrefs].
Qed.

Lemma resolved_documents_clean (c : list document) (d : document) :
  d ∈ resolved_document c <$> c → dirty d = false.
Proof.
  intros Hd. apply list_elem_of_fmap in Hd as (x & -> & _).
  unfold resolved_document, dirty. by destruct (is_updated x) eqn:Hx.
Qed.

(** X3. In a store with distinct [_id]s where every dirty document has its
    ['references'], the resolution loop returns and is one pass over the
    store: each dirty document gets its citations looked up among the
    [_id]s and its flag cleared, a citation whose PMID is no [_id] stays
    as it was, and the other documents, and every other key, stay. *)
Theorem resolve_is_one_pass (s : state) :
  unique_ids (collection s) → dirty_have_references (collection s) →
  Ftp.resolve s
  = (Return tt,
     {| collection := resolved_document (collection s) <$> collection s;
        reported := reported s;
        retrieved := retrieved s |}).
Proof. apply resolve_runs_as_pass. Qed.

Lemma dirty_store_unique_ids : unique_ids (collection dirty_store).
Proof.
  unfold unique_ids, ids. simpl. apply NoDup_cons. split.
  - intros H. apply list_elem_of_singleton in H. discriminate.
  - apply NoDup_singleton.
Qed.

Lemma dirty_store_references : dirty_have_references (collection dirty_store).
Proof.
  intros d Hd _. apply elem_of_cons in Hd as [-> | Hd]; [by eexists |].
  apply list_elem_of_singleton in Hd as ->. by eexists.
Qed.

Lemma resolve_is_one_pass_witness :
  unique_ids (collection dirty_store)
  ∧ dirty_have_references (collection dirty_store)
  ∧ Ftp.resolve dirty_store
    = (Return tt,
       {| collection := resolved_document (collection dirty_store) <$> collection dirty_store;
          reported := reported dirty_store;
          retrieved := retrieved dirty_store |})
  ∧ (citations <$> (resolved_document (collection dirty_store) <$> collection dirty_store))
    = [ []; [ {| ref_pmid := "3"; idArticle := None |};
              {| ref_pmid := "2"; idArticle := Some (StrId "2") |} ] ].
Proof.
  split; [exact dirty_store_unique_ids |]. split; [exact dirty_store_references |].
  split; [| reflexivity].
  exact (resolve_is_one_pass dirty_store dirty_store_unique_ids dirty_store_references).
Defined.

Lemma resolve_article_outcome (article : document) (s : state) :
  fst (Ftp.resolve_article article s)
  = match references article with
    | Some _ => Return tt
    | None => Raise (KeyError "references")
    end.
Proof.
  destruct (references article) as [refs|] eqn:Hrefs.
  - by rewrite (resolve_article_step article refs s Hrefs).
  - unfold Ftp.resolve_article. by rewrite Hrefs.
Qed.

Lemma resolve_loop_outcome (todo : list document) (s : state) :
  fst (for_each todo Ftp.resolve_article s)
  = if forallb (fun d => bool_decide (is_Some (references d))) todo
    then Return tt
    else Raise (KeyError "references").
Proof.
  revert s. induction todo as [|a todo IH]; intros s; [done |].
  simpl. unfold bind. pose proof (resolve_article_outcome a s) as Ha.
  destruct (Ftp.resolve_article a s) as [[[]|e] s']; simpl in Ha.
  - destruct (references a); [| done]. rewrite bool_decide_eq_true_2 by done. apply IH.
  - destruct (references a); [done |]. injection Ha as ->.
    by rewrite bool_decide_eq_false_2 by (by intros [? ?]).
Qed.

(** X4. The resolution loop returns exactly when every dirty document has its
    ['references'] array; otherwise it raises [KeyError('references')]
    at the first dirty document without it. *)
Theorem resolve_returns_iff (s : state) :
  (fst (Ftp.resolve s) = Return tt ↔ dirty_have_references (collection s))
  ∧ (fst (Ftp.resolve s) = Return tt
     ∨ fst (Ftp.resolve s) = Raise (KeyError "references")).
Proof.
  unfold Ftp.resolve. py_unfold. rewrite resolve_loop_outcome.
  destruct (forallb _ (find is_updated (collection s))) eqn:Hall.
  - split; [| by left]. split; [| done]. intros _ d Hd Hdirty.
    rewrite forallb_forall in Hall. eapply bool_decide_eq_true, Hall.
    apply filter_In. split; [by apply list_elem_of_In | done].
  - split; [| by right]. split; [done |]. intros Hrefs. exfalso.
    assert (forallb (fun d => bool_decide (is_Some (references d)))
              (find is_updated (collection s)) = true) as Htrue; [| congruence].
    apply forallb_forall. intros d Hd. apply filter_In in Hd as [Hd Hdirty].
    apply bool_decide_eq_true. apply Hrefs; [by apply list_elem_of_In | done].
Qed.

(** X5. After a resolution that went through, no document is dirty, and a
    second resolution writes nothing. *)
Theorem resolve_clears_every_flag (s : state) :
  unique_ids (collection s) → dirty_have_references (collection s) →
  (∀ d, d ∈ collection (snd (Ftp.resolve s)) → dirty d = false)
  ∧ Ftp.resolve (snd (Ftp.resolve s)) = (Return tt, snd (Ftp.resolve s)).
Proof.
  intros Huniq Hrefs. rewrite (resolve_runs_as_pass s Huniq Hrefs). simpl.
  pose proof (resolved_documents_clean (collection s)) as Hclean.
  split; [done |]. unfold Ftp.resolve. py_unfold. simpl. unfold dirty in Hclean.
  assert (find is_updated (resolved_document (collection s) <$> collection s) = []) as ->;
    [| done].
  unfold find. induction (resolved_document (collection s) <$> collection s) as [|x l IH];
    [done |].
  simpl. rewrite (Hclean x) by left. apply IH. intros d Hd. apply Hclean. by right.
Qed.

Lemma resolve_clears_every_flag_witness :
  unique_ids (collection dirty_store)
  ∧ dirty_have_references (collection dirty_store)
  ∧ (∀ d, d ∈ collection (snd (Ftp.resolve dirty_store)) → dirty d = false)
  ∧ Ftp.resolve (snd (Ftp.resolve dirty_store)) = (Return tt, snd (Ftp.resolve dirty_store)).
Proof.
  split; [exact dirty_store_unique_ids |]. split; [exact dirty_store_references |].
  exact (resolve_clears_every_flag dirty_store
           dirty_store_unique_ids dirty_store_references).
Defined.

(** ** Stores the script has built by itself *)

Lemma no_string_id_lookup (c : list document) (p : string) :
  no_string_id c → find_one (id_is (StrId p)) c = None.
Proof.
  intros Hno. destruct (find_one (id_is (StrId p)) c) as [t|] eqn:Hfind; [| done].
  apply find_one_Some in Hfind as [Ht Hid]. apply bool_decide_eq_true in Hid.
  by apply Hno in Hid.
Qed.

Lemma no_string_id_insert (mk : oid → document) (c : list document) :
  (∀ i, _id (mk i) = i) → no_string_id c → no_string_id (insert_one mk c).
Proof.
  intros Hmk Hno d s Hd. unfold insert_one in Hd.
  apply elem_of_app in Hd as [Hd | Hd]; [by apply Hno |].
  apply list_elem_of_singleton in Hd as ->. by rewrite Hmk.
Qed.

(** X6. In a store without string [_id]s the lookup of the merge loop never
    finds a Record: a batch of raw records with both keys is appended to
    the store, one dirty Record for each raw record and in their order,
    whatever PMIDs the store already holds; and the store is again
    without string [_id]s. *)
Theorem merge_always_inserts (dicts_out : list article) (s : state) :
  no_string_id (collection s) → Forall well_formed dicts_out →
  ∃ new,
    Ftp.merge dicts_out s
    = (Return tt, {| collection := collection s ++ new;
                     reported := reported s;
                     retrieved := retrieved s |})
    ∧ Forall2 (fun a d => externalId d = pmid a ∧ dirty d = true
                          ∧ doc_fields d = fields a) dicts_out new
    ∧ no_string_id (collection s ++ new).
Proof.
  intros Hno Hwf. revert s Hno.
  induction Hwf as [|a ds [[p Hp] [r Hr]] _ IH]; intros s Hno.
  - exists []. rewrite app_nil_r. unfold Ftp.merge. simpl. unfold ret.
    rewrite state_eta. by repeat split.
  - unfold Ftp.merge in *. simpl. unfold bind.
    rewrite (merge_article_insert a s p r Hp Hr (no_string_id_lookup _ p Hno)).
    set (d := Ftp.new_document p r (fields a)
                (Ftp.new_reference <$> elements (Ftp.new_references_of r))
                (ObjectId (fresh_oid (collection s)))).
    destruct (IH {| collection := insert_one
                      (Ftp.new_document p r (fields a)
                         (Ftp.new_reference <$> elements (Ftp.new_references_of r)))
                      (collection s);
                    reported := reported s; retrieved := retrieved s |})
      as (new & Hrun & Hnew & Hno').
    { simpl. by apply no_string_id_insert. }
    simpl in Hrun, Hno'. unfold insert_one in Hrun, Hno'. fold d in Hrun, Hno'.
    rewrite <- app_assoc in Hrun, Hno'. simpl in Hrun, Hno'.
    exists (d :: new). unfold insert_one. fold d. rewrite Hrun.
    split; [done |]. split; [| done]. constructor; [| done].
    unfold externalId, dirty. by rewrite Hp.
Qed.

Lemma merge_always_inserts_witness :
  no_string_id (collection (snd (Ftp.merge [raw "1" "2"] initial)))
  ∧ Forall well_formed [raw "1" "2"; raw "1" "2"]
  ∧ ∃ new,
      Ftp.merge [raw "1" "2"; raw "1" "2"] (snd (Ftp.merge [raw "1" "2"] initial))
      = (Return tt,
         {| collection := collection (snd (Ftp.merge [raw "1" "2"] initial)) ++ new;
            reported := reported (snd (Ftp.merge [raw "1" "2"] initial));
            retrieved := retrieved (snd (Ftp.merge [raw "1" "2"] initial)) |})
      ∧ Forall2 (fun a d => externalId d = pmid a ∧ dirty d = true
                            ∧ doc_fields d = fields a) [raw "1" "2"; raw "1" "2"] new
      ∧ no_string_id (collection (snd (Ftp.merge [raw "1" "2"] initial)) ++ new).
Proof.
  assert (no_string_id (collection (snd (Ftp.merge [raw "1" "2"] initial)))) as Hno.
  { intros d s Hd. vm_compute in Hd. apply list_elem_of_singleton in Hd as ->. done. }
  assert (Forall well_formed [raw "1" "2"; raw "1" "2"]) as Hwf.
  { repeat constructor; by eexists. }
  split; [exact Hno |]. split; [exact Hwf |].
  exact (merge_always_inserts _ _ Hno Hwf).
Defined.

Lemma merge_article_unresolved (a : article) (s : state) :
  no_string_id (collection s) → all_unresolved (collection s) →
  no_string_id (collection (snd (Ftp.merge_article a s)))
  ∧ all_unresolved (collection (snd (Ftp.merge_article a s))).
Proof.
  intros Hno Hun.
  destruct (pmid a) as [p|] eqn:Hp; [| by rewrite merge_article_no_pmid].
  destruct (reference a) as [r|] eqn:Hr; [| by erewrite merge_article_no_reference].
  rewrite (merge_article_insert a s p r Hp Hr (no_string_id_lookup _ p Hno)). simpl.
  split; [by apply no_string_id_insert |].
  intros d x Hd Hx. unfold insert_one in Hd.
  apply elem_of_app in Hd as [Hd | Hd]; [by eapply Hun |].
  apply list_elem_of_singleton in Hd as ->. unfold citations in Hx. simpl in Hx.
  by apply list_elem_of_fmap in Hx as (t & -> & _).
Qed.

Lemma resolve_article_unresolved (article : document) (s : state) :
  Forall (fun r => idArticle r = None) (citations article) →
  no_string_id (collection s) → all_unresolved (collection s) →
  no_string_id (collection (snd (Ftp.resolve_article article s)))
  ∧ all_unresolved (collection (snd (Ftp.resolve_article article s))).
Proof.
  intros Hart Hno Hun. unfold citations in Hart.
  destruct (references article) as [refs|] eqn:Hrefs;
    [| unfold Ftp.resolve_article; by rewrite Hrefs].
  rewrite (resolve_article_step article refs s Hrefs). simpl in *.
  assert (resolve_against (collection s) <$> refs = refs) as ->.
  { rewrite <- (list_fmap_id refs) at 2. apply Forall_fmap_ext, Forall_forall.
    intros r _. unfold resolve_against. by rewrite no_string_id_lookup. }
  split.
  - intros d k Hd. apply elem_of_update_one in Hd as [Hd | (d0 & Hd0 & _ & ->)];
      [by apply Hno | by apply (Hno d0)].
  - intros d x Hd Hx. apply elem_of_update_one in Hd as [Hd | (d0 & Hd0 & _ & ->)];
      [by eapply Hun |].
    unfold citations in Hx. simpl in Hx. by eapply Forall_forall in Hart.
Qed.

(** X7. Started in a store without string [_id]s and without a resolved
    citation (the empty store is one), no sequence of merges and
    resolutions ever resolves a citation: the lookup by PMID finds none
    of the Records the script stores. *)
Theorem nothing_is_ever_resolved (os : list operation) (s : state) :
  no_string_id (collection s) → all_unresolved (collection s) →
  no_string_id (collection (run_operations os s))
  ∧ all_unresolved (collection (run_operations os s)).
Proof.
  revert s. unfold run_operations.
  induction os as [|o os IH]; intros s Hno Hun; simpl; [done |].
  assert (no_string_id (collection (snd (run_operation o s)))
          ∧ all_unresolved (collection (snd (run_operation o s)))) as [? ?];
    [| by apply IH].
  destruct o as [dicts_out|]; simpl.
  - unfold Ftp.merge.
    apply (for_each_preserves
             (fun t => no_string_id (collection t) ∧ all_unresolved (collection t)));
      [| done].
    intros a t _ [? ?]. by apply merge_article_unresolved.
  - unfold Ftp.resolve. py_unfold.
    apply (for_each_preserves
             (fun t => no_string_id (collection t) ∧ all_unresolved (collection t)));
      [| done].
    intros article t Hin [? ?]. apply resolve_article_unresolved; try done.
    apply Forall_forall. intros r Hr. apply (Hun article); [| done].
    apply list_elem_of_In, filter_In in Hin as [Hin _]. by apply list_elem_of_In.
Qed.

Lemma nothing_is_ever_resolved_witness :
  no_string_id (collection initial)
  ∧ all_unresolved (collection initial)
  ∧ no_string_id
      (collection (run_operations [Merge [raw "1" "2"; raw "2" ""]; Resolve] initial))
  ∧ all_unresolved
      (collection (run_operations [Merge [raw "1" "2"; raw "2" ""]; Resolve] initial)).
Proof.
  assert (no_string_id (collection initial)) as Hno
    by (intros d s Hd; by apply elem_of_nil in Hd).
  assert (all_unresolved (collection initial)) as Hun
    by (intros d r Hd; by apply elem_of_nil in Hd).
  split; [exact Hno |]. split; [exact Hun |].
  exact (nothing_is_ever_resolved [Merge [raw "1" "2"; raw "2" ""]; Resolve] initial Hno Hun).
Defined.

(** ** A republished Record whose citations changed *)

(** X8. When the lookup returns a Record and the republished raw record has
    another set of cited PMIDs, the Record, and no other document, is
    rewritten in place: it keeps its [_id], becomes dirty, gets one
    unresolved citation for each distinct PMID of the new list (what was
    resolved before is reset), and takes the keys of the raw record
    while keeping every key the raw record lacks, ['filename'] among
    them. *)
Theorem republished_changed_record_is_replaced
    (a : article) (s : state) (p r : string) (existing : document) :
  unique_ids (collection s) →
  pmid a = Some p → reference a = Some r →
  find_one (id_is (StrId p)) (collection s) = Some existing →
  Ftp.old_references_of existing ≠ Ftp.new_references_of r →
  ∃ d',
    Ftp.merge_article a s
    = (Return tt,
       {| collection := (fun d => if id_is (StrId p) d then d' else d) <$> collection s;
          reported := reported s;
          retrieved := retrieved s |})
    ∧ internalId d' = internalId existing
    ∧ externalId d' = Some p
    ∧ dirty d' = true
    ∧ Forall (fun c => idArticle c = None) (citations d')
    ∧ NoDup (ref_pmid <$> citations d')
    ∧ (∀ t, t ∈ (ref_pmid <$> citations d') ↔ t ∈ split ";" r)
    ∧ (∀ k, doc_fields d' !! k
            = match fields a !! k with
              | Some v => Some v
              | None => doc_fields existing !! k
              end).
Proof.
  intros Huniq Hp Hr Hfind Hne.
  pose proof (find_one_Some _ _ _ Hfind) as [Hin Hid]. apply bool_decide_eq_true in Hid.
  exists (Ftp.set_article p r (fields a)
            (Ftp.new_reference <$> elements (Ftp.new_references_of r)) existing).
  assert (ref_pmid <$> (Ftp.new_reference <$> elements (Ftp.new_references_of r))
          = elements (Ftp.new_references_of r)) as Hpmids.
  { rewrite <- list_fmap_compose. apply list_fmap_id. }
  split; [| unfold citations, dirty, internalId, externalId; simpl; rewrite Hpmids;
            repeat split].
  - rewrite (merge_article_update a s p r existing Hp Hr Hfind Hne).
    rewrite Hid, (update_one_unique _ _ _ Huniq). f_equal. f_equal.
    apply Forall_fmap_ext, Forall_forall. intros d Hd. unfold id_is.
    destruct (bool_decide_reflect (_id d = StrId p)) as [Hd' | Hd']; [| done].
    f_equal. apply (unique_ids_same (collection s)); try done. congruence.
  - apply Forall_forall. intros c Hc.
    by apply list_elem_of_fmap in Hc as (x & -> & _).
  - apply NoDup_elements.
  - unfold Ftp.new_references_of. by rewrite elem_of_elements, elem_of_list_to_set.
  - unfold Ftp.new_references_of. by rewrite elem_of_elements, elem_of_list_to_set.
  - intros k. rewrite lookup_union.
    by destruct (fields a !! k), (doc_fields existing !! k).
Qed.

Lemma republished_changed_record_is_replaced_witness :
  let s := with_collection [stored "1" "pubmed23n0001.xml"] in
  unique_ids (collection s)
  ∧ pmid (raw "1" "2;3") = Some "1"
  ∧ reference (raw "1" "2;3") = Some "2;3"
  ∧ find_one (id_is (StrId "1")) (collection s) = Some (stored "1" "pubmed23n0001.xml")
  ∧ Ftp.old_references_of (stored "1" "pubmed23n0001.xml") ≠ Ftp.new_references_of "2;3"
  ∧ ∃ d',
      Ftp.merge_article (raw "1" "2;3") s
      = (Return tt,
         {| collection := (fun d => if id_is (StrId "1") d then d' else d) <$> collection s;
            reported := reported s;
            retrieved := retrieved s |})
      ∧ internalId d' = internalId (stored "1" "pubmed23n0001.xml")
      ∧ externalId d' = Some "1"
      ∧ dirty d' = true
      ∧ Forall (fun c => idArticle c = None) (citations d')
      ∧ NoDup (ref_pmid <$> citations d')
      ∧ (∀ t, t ∈ (ref_pmid <$> citations d') ↔ t ∈ split ";" "2;3")
      ∧ (∀ k, doc_fields d' !! k
              = match fields (raw "1" "2;3") !! k with
                | Some v => Some v
                | None => doc_fields (stored "1" "pubmed23n0001.xml") !! k
                end).
Proof.
  intros s.
  assert (unique_ids (collection s)) as Huniq by apply NoDup_singleton.
  assert (Ftp.old_references_of (stored "1" "pubmed23n0001.xml")
          ≠ Ftp.new_references_of "2;3") as Hne.
  { apply (bool_decide_eq_true_1 _). vm_compute. reflexivity. }
  split; [exact Huniq |]. split; [reflexivity |]. split; [reflexivity |].
  split; [reflexivity |]. split; [exact Hne |].
  exact (republished_changed_record_is_replaced (raw "1" "2;3") s "1" "2;3"
           (stored "1" "pubmed23n0001.xml") Huniq eq_refl eq_refl eq_refl Hne).
Defined.

(** ** What makes the merge loop raise *)

Lemma merge_article_outcome (a : article) (s : state) :
  fst (Ftp.merge_article a s)
  = match pmid a, reference a with
    | None, _ => Raise (KeyError "pmid")
    | Some _, None => Raise (KeyError "reference")
    | Some _, Some _ => Return tt
    end.
Proof.
  destruct (pmid a) as [p|] eqn:Hp; [| by rewrite merge_article_no_pmid].
  destruct (reference a) as [r|] eqn:Hr; [| by erewrite merge_article_no_reference].
  apply merge_article_returns. split; by eexists.
Qed.

(** X9. The merge loop returns exactly when every raw record of the batch has
    both ['pmid'] and ['reference']; otherwise it raises the [KeyError]
    of the first key missing. It reports nothing itself and retrieves
    nothing. *)
Theorem merge_raises_only_on_missing_key (dicts_out : list article) (s : state) :
  (fst (Ftp.merge dicts_out s) = Return tt ↔ Forall well_formed dicts_out)
  ∧ (fst (Ftp.merge dicts_out s) = Return tt
     ∨ fst (Ftp.merge dicts_out s) = Raise (KeyError "pmid")
     ∨ fst (Ftp.merge dicts_out s) = Raise (KeyError "reference"))
  ∧ reported (snd (Ftp.merge dicts_out s)) = reported s
  ∧ retrieved (snd (Ftp.merge dicts_out s)) = retrieved s.
Proof.
  split; [| split; [| apply merge_frame]]; unfold Ftp.merge.
  - split; [| apply merge_returns]. revert s.
    induction dicts_out as [|a ds IH]; intros s; [constructor |].
    simpl. unfold bind. pose proof (merge_article_outcome a s) as Ha.
    destruct (Ftp.merge_article a s) as [[[]|e] s']; simpl in Ha; [| done].
    intros Hrest. constructor; [| by eapply IH].
    unfold well_formed. by destruct (pmid a), (reference a).
  - revert s. induction dicts_out as [|a ds IH]; intros s; [by left |].
    simpl. unfold bind. pose proof (merge_article_outcome a s) as Ha.
    destruct (Ftp.merge_article a s) as [[[]|e] s']; simpl in Ha; [apply IH |].
    simpl. destruct (pmid a), (reference a); try done; injection Ha as ->; auto.
Qed.

(** ** A batch that goes through *)

Lemma merge_article_dirty_have_references (a : article) (s : state) :
  dirty_have_references (collection s) →
  dirty_have_references (collection (snd (Ftp.merge_article a s))).
Proof.
  intros Hrefs.
  destruct (pmid a) as [p|] eqn:Hp; [| by rewrite merge_article_no_pmid].
  destruct (reference a) as [r|] eqn:Hr; [| by erewrite merge_article_no_reference].
  destruct (find_one (id_is (StrId p)) (collection s)) as [existing|] eqn:Hfind.
  - destruct (decide (Ftp.old_references_of existing = Ftp.new_references_of r)).
    + by erewrite merge_article_unchanged.
    + erewrite merge_article_update by done. simpl. intros d Hd Hdirty.
      apply elem_of_update_one in Hd as [Hd | (d0 & _ & _ & ->)];
        [by apply Hrefs | by eexists].
  - erewrite merge_article_insert by done. simpl. intros d Hd Hdirty.
    unfold insert_one in Hd. apply elem_of_app in Hd as [Hd | Hd]; [by apply Hrefs |].
    apply list_elem_of_singleton in Hd as ->. by eexists.
Qed.

(** X10. A file whose raw records all have both keys, merged into a store
    with distinct [_id]s in which every dirty document has its
    ['references']: [update_database] returns, reports nothing, and no
    document of the store is dirty afterwards. *)
Theorem update_database_leaves_nothing_dirty
    (w : world) (file_path : string) (dicts_out : list article) (s : state) :
  parse_medline_xml w file_path = Some dicts_out →
  Forall well_formed dicts_out →
  unique_ids (collection s) → dirty_have_references (collection s) →
  fst (Ftp.update_database w file_path s) = Return tt
  ∧ (∀ d, d ∈ collection (snd (Ftp.update_database w file_path s)) → dirty d = false)
  ∧ ids (collection s) `prefix_of` ids (collection (snd (Ftp.update_database w file_path s)))
  ∧ reported (snd (Ftp.update_database w file_path s)) = reported s
  ∧ retrieved (snd (Ftp.update_database w file_path s)) = retrieved s.
Proof.
  intros Hparse Hwf Huniq Hrefs.
  unfold Ftp.update_database, reporting. rewrite Hparse. py_unfold.
  pose proof (merge_returns dicts_out s Hwf) as Hret.
  destruct (merge_frame dicts_out s) as [Hrep Hretr].
  destruct (run_operation_ids (Merge dicts_out) s) as (new & Hids & _ & Hu).
  simpl in Hids, Hu. specialize (Hu Huniq).
  assert (dirty_have_references (collection (snd (Ftp.merge dicts_out s)))) as Hrefs'.
  { unfold Ftp.merge. apply (for_each_preserves
      (fun t => dirty_have_references (collection t))); [| done].
    intros a t _. apply merge_article_dirty_have_references. }
  destruct (Ftp.merge dicts_out s) as [[[]|e] s1]; simpl in *; [| done].
  pose proof (resolve_ids s1) as Hids1.
  rewrite (resolve_runs_as_pass s1 Hu Hrefs') in *. simpl in *.
  split; [done |]. split; [apply resolved_documents_clean |].
  split; [| by rewrite Hrep, Hretr].
  exists new. by rewrite Hids1.
Qed.

Lemma update_database_leaves_nothing_dirty_witness :
  let w := world_of ["pubmed23n0002.xml.gz"] (fun _ => Some [raw "3" "2"; raw "4" "1;2"]) in
  parse_medline_xml w "xml_data/pubmed23n0002.xml" = Some [raw "3" "2"; raw "4" "1;2"]
  ∧ Forall well_formed [raw "3" "2"; raw "4" "1;2"]
  ∧ unique_ids (collection dirty_store)
  ∧ dirty_have_references (collection dirty_store)
  ∧ fst (Ftp.update_database w "xml_data/pubmed23n0002.xml" dirty_store) = Return tt
  ∧ (∀ d, d ∈ collection (snd (Ftp.update_database w "xml_data/pubmed23n0002.xml" dirty_store)) →
          dirty d = false)
  ∧ ids (collection dirty_store)
      `prefix_of` ids (collection (snd (Ftp.update_database w "xml_data/pubmed23n0002.xml"
                                          dirty_store)))
  ∧ reported (snd (Ftp.update_database w "xml_data/pubmed23n0002.xml" dirty_store))
    = reported dirty_store
  ∧ retrieved (snd (Ftp.update_database w "xml_data/pubmed23n0002.xml" dirty_store))
    = retrieved dirty_store.
Proof.
  intros w.
  assert (Forall well_formed [raw "3" "2"; raw "4" "1;2"]) as Hwf.
  { repeat constructor; by eexists. }
  split; [reflexivity |]. split; [exact Hwf |].
  split; [exact dirty_store_unique_ids |]. split; [exact dirty_store_references |].
  exact (update_database_leaves_nothing_dirty w "xml_data/pubmed23n0002.xml"
           [raw "3" "2"; raw "4" "1;2"] dirty_store eq_refl Hwf
           dirty_store_unique_ids dirty_store_references).
Defined.

(** ** What a run reports *)

Section Reports.

Lemma roe_ret {A} (a : A) : reports_only_errors (ret a).
Proof. intros s. exists []. by rewrite app_nil_r. Qed.

Lemma roe_raise {A} (e : exn) : reports_only_errors (raise (A := A) e).
Proof. intros s. exists []. by rewrite app_nil_r. Qed.

Lemma roe_query {A} (f : list document → A) : reports_only_errors (query f).
Proof. intros s. exists []. by rewrite app_nil_r. Qed.

Lemma roe_write (f : list document → list document) : reports_only_errors (write f).
Proof. intros s. exists []. by rewrite app_nil_r. Qed.

Lemma roe_getitem {A} (key : string) (v : option A) : reports_only_errors (getitem key v).
Proof. destruct v; [apply roe_ret | apply roe_raise]. Qed.

Lemma roe_bind {A B} (m : py A) (k : A → py B) :
  reports_only_errors m → (∀ a, reports_only_errors (k a)) →
  reports_only_errors (bind m k).
Proof.
  intros Hm Hk s. unfold bind. destruct (Hm s) as (l1 & H1 & Hret1).
  destruct (m s) as [[a|e] s1]; simpl in *.
  - rewrite (Hret1 a eq_refl), app_nil_r in H1.
    destruct (Hk a s1) as (l2 & H2 & Hret2). exists l2. by rewrite H2, H1.
  - exists l1. split; [done |]. by intros.
Qed.

Lemma roe_reporting {A} (fn : string) (m : py A) :
  reports_only_errors m → reports_only_errors (reporting fn m).
Proof.
  intros Hm s. unfold reporting. destruct (Hm s) as (l & H & Hret).
  destruct (m s) as [[a|e] s1]; simpl in *.
  - exists l. split; [done |]. intros a' [= <-]. by eapply Hret.
  - exists (l ++ [(fn, e)]). rewrite H, <- app_assoc. split; [done |]. by intros.
Qed.

Lemma roe_for_each {A} (xs : list A) (body : A → py unit) :
  (∀ x, reports_only_errors (body x)) → reports_only_errors (for_each xs body).
Proof.
  intros Hbody. induction xs as [|x xs IH]; simpl; [apply roe_ret |].
  apply roe_bind; [apply Hbody | done].
Qed.

Lemma roe_map_py {A B} (f : A → py B) (xs : list A) :
  (∀ x, reports_only_errors (f x)) → reports_only_errors (map_py f xs).
Proof.
  intros Hf. induction xs as [|x xs IH]; simpl; [apply roe_ret |].
  apply roe_bind; [apply Hf |]. intros y. apply roe_bind; [done |].
  intros ys. apply roe_ret.
Qed.

Lemma roe_filter_py {A} (p : A → py bool) (xs : list A) :
  (∀ x, reports_only_errors (p x)) → reports_only_errors (filter_py p xs).
Proof.
  intros Hp. induction xs as [|x xs IH]; simpl; [apply roe_ret |].
  apply roe_bind; [apply Hp |]. intros b. apply roe_bind; [done |].
  intros ys. apply roe_ret.
Qed.

End Reports.

Lemma roe_parse_filename (f : string) : reports_only_errors (Ftp.parse_filename f).
Proof.
  apply roe_reporting. destruct (Ftp.file_number f); [apply roe_ret | apply roe_raise].
Qed.

Lemma roe_update_database (w : world) (file_path : string) :
  reports_only_errors (Ftp.update_database w file_path).
Proof.
  apply roe_reporting. apply roe_bind.
  { destruct (parse_medline_xml w file_path); [apply roe_ret | apply roe_raise]. }
  intros ds. apply roe_bind.
  - apply roe_for_each. intros a. unfold Ftp.merge_article.
    apply roe_bind; [apply roe_getitem |]. intros p.
    apply roe_bind; [apply roe_query |]. intros existing.
    apply roe_bind; [apply roe_getitem |]. intros r.
    destruct existing as [existing|]; [| apply roe_write].
    destruct (bool_decide _); [apply roe_write | apply roe_ret].
  - intros _. apply roe_bind; [apply roe_query |]. intros updated_articles.
    apply roe_for_each. intros article. unfold Ftp.resolve_article.
    apply roe_bind; [apply roe_getitem |]. intros refs.
    apply roe_bind; [| intros; apply roe_write].
    apply roe_map_py. intros ref. apply roe_bind; [apply roe_query |].
    intros [t|]; apply roe_ret.
Qed.

Lemma roe_process_file (w : world) (host directory remote_dir file : string) :
  reports_only_errors (Ftp.process_file w host directory remote_dir file).
Proof.
  unfold Ftp.process_file. apply roe_bind.
  - apply roe_reporting. intros s. exists [].
    rewrite app_nil_r. by destruct (urlretrieve w _ _).
  - intros _. apply roe_bind; [| intros _; apply roe_update_database].
    apply roe_reporting. destruct (gunzip w _ _); [apply roe_ret | apply roe_raise].
Qed.

Lemma roe_main_body (w : world) (host directory remote_dir : string) :
  reports_only_errors
    (last_number <- Ftp.last_number ;;
     match ftp_open w with Some e => raise e | None => ret tt end ;;;
     files <- Ftp.list_files w ;;
     files_to_download <- Ftp.files_to_download last_number files ;;
     sorted <- Ftp.sorted_files files_to_download ;;
     for_each sorted (Ftp.process_file w host directory remote_dir) ;;;
     Ftp.quit_and_remove w directory).
Proof.
  apply roe_bind.
  { unfold Ftp.last_number. apply roe_bind.
    - apply roe_reporting. apply roe_bind; [apply roe_query |].
      intros [d|]; [| apply roe_ret].
      apply roe_bind; [apply roe_getitem | intros; apply roe_ret].
    - intros [f|]; [| apply roe_ret].
      destruct (bool_decide _); [apply roe_ret | apply roe_parse_filename]. }
  intros n. apply roe_bind.
  { destruct (ftp_open w); [apply roe_raise | apply roe_ret]. }
  intros _. apply roe_bind.
  { unfold Ftp.list_files. destruct (nlst w) as [files | e]; [apply roe_ret |].
    destruct e; try apply roe_raise.
    destruct (bool_decide _); [apply roe_ret | apply roe_reporting, roe_raise]. }
  intros files. apply roe_bind.
  { apply roe_filter_py. intros f.
    apply roe_bind; [apply roe_parse_filename | intros; apply roe_ret]. }
  intros to_download. apply roe_bind.
  { unfold Ftp.sorted_files. apply roe_bind; [| intros; apply roe_ret].
    apply roe_map_py. intros f.
    apply roe_bind; [apply roe_parse_filename | intros; apply roe_ret]. }
  intros sorted. apply roe_bind.
  { apply roe_for_each. intros file. apply roe_process_file. }
  intros _. unfold Ftp.quit_and_remove. apply roe_bind.
  { destruct (ftp_quit w); [apply roe_raise | apply roe_ret]. }
  intros _. destruct (remove_files w directory); [apply roe_raise | apply roe_ret].
Qed.

(** X11. No error is swallowed and none is invented from the [try] of
    [main] on. The [try] statement only adds to the reports; when it
    returns it has added nothing; when it raises, the exception was
    reported, the last time by [main] itself. *)
Theorem main_reports_what_it_raises
    (w : world) (host directory remote_dir : string) (s : state) :
  ∃ l,
    reported (snd (Ftp.main_try w host directory remote_dir s)) = reported s ++ l
    ∧ (fst (Ftp.main_try w host directory remote_dir s) = Return tt ↔ l = [])
    ∧ (∀ e, fst (Ftp.main_try w host directory remote_dir s) = Raise e →
            ∃ l', l = l' ++ [("main", e)]).
Proof.
  unfold Ftp.main_try, reporting.
  destruct (roe_main_body w host directory remote_dir s) as (l & Hl & Hret).
  destruct (bind Ftp.last_number _ s) as [[[]|e] s1]; simpl in *.
  - exists l. split; [done |]. split; [| by intros].
    split; [intros _; by eapply Hret | done].
  - exists (l ++ [("main", e)]). rewrite Hl, <- app_assoc. split; [done |].
    split; [split; [done |]; intros H; by apply app_nil in H as [_ ?] |].
    intros e' [= <-]. eauto.
Qed.

(** ** Runs that have nothing to do, and runs that cannot start *)

(** X12. With nothing listed above the watermark, or with the listing refused
    as ["550 No files found"], the [try] statement of [main] writes
    nothing to the store and retrieves nothing. It returns, with nothing
    reported, when [ftp.quit()] and the removal of the local files go
    through; when one of them raises, it raises that exception, which
    [main] reports. *)
Theorem up_to_date_run_changes_nothing
    (w : world) (host directory remote_dir : string) (files : list string)
    (n : N) (s : state) :
  fst (Ftp.last_number s) = Return n →
  ftp_open w = None →
  nlst w = inl files ∨ (nlst w = inr (error_perm "550 No files found") ∧ files = []) →
  Forall (fun f => ∃ k, Ftp.file_number f = Some k ∧ (k <= n)%N) files →
  Ftp.main_try w host directory remote_dir s
  = match ftp_quit w, remove_files w directory with
    | None, None => (Return tt, s)
    | Some e, _ =>
        (Raise e, {| collection := collection s;
                     reported := reported s ++ [("main", e)];
                     retrieved := retrieved s |})
    | None, Some e =>
        (Raise e, {| collection := collection s;
                     reported := reported s ++ [("main", e)];
                     retrieved := retrieved s |})
    end.
Proof.
  intros Hn Hopen Hlist Hall.
  assert (Ftp.list_files w s = (Return files, s)) as Hfiles.
  { unfold Ftp.list_files. destruct Hlist as [-> | [-> ->]]; [done |].
    by rewrite bool_decide_eq_true_2. }
  assert (Forall (fun f => is_Some (Ftp.file_number f)) files) as Hnum.
  { eapply Forall_impl; [exact Hall |]. intros f (k & Hk & _). by eexists. }
  assert (List.filter (above_watermark n) files = []) as Hnone.
  { clear -Hall. induction Hall as [|f files (k & Hk & Hle) _ IH]; [done |].
    simpl. unfold above_watermark at 1. rewrite Hk.
    destruct (N.ltb_spec n k); [lia | done]. }
  unfold Ftp.main_try, reporting. py_unfold.
  rewrite (last_number_reads n s Hn), Hopen, Hfiles.
  rewrite (files_to_download_all_numbered n files s Hnum), Hnone.
  simpl. rewrite quit_and_remove_spec.
  destruct (ftp_quit w); [done |]. by destruct (remove_files w directory).
Qed.

Lemma up_to_date_run_changes_nothing_witness :
  let files := ["pubmed23n0002.xml.gz"; "pubmed23n0003.xml.gz"] in
  let w := world_of files (fun _ => Some [raw "1" "2"]) in
  let s := with_collection [stored "9" "pubmed23n0003.xml"] in
  fst (Ftp.last_number s) = Return 3%N
  ∧ ftp_open w = None
  ∧ (nlst w = inl files ∨ (nlst w = inr (error_perm "550 No files found") ∧ files = []))
  ∧ Forall (fun f => ∃ k, Ftp.file_number f = Some k ∧ (k <= 3)%N) files
  ∧ Ftp.main_try w "ftp.ncbi.nlm.nih.gov" "xml_data" "/pubmed/updatefiles/" s
    = (Return tt, s).
Proof.
  intros files w s.
  assert (Forall (fun f => ∃ k, Ftp.file_number f = Some k ∧ (k <= 3)%N) files) as Hall.
  { constructor; [exists 2%N; split; [reflexivity | lia] |].
    constructor; [exists 3%N; split; [reflexivity | lia] | constructor]. }
  split; [reflexivity |]. split; [reflexivity |]. split; [by left |].
  split; [exact Hall |].
  exact (up_to_date_run_changes_nothing w "ftp.ncbi.nlm.nih.gov" "xml_data"
           "/pubmed/updatefiles/" files 3 s eq_refl eq_refl (or_introl eq_refl) Hall).
Defined.

(** The [try] statement over a store whose first document has no
    ['filename']. *)
Lemma main_without_filename (w : world) (host directory remote_dir : string)
    (d : document) (c : list document) (s : state) :
  collection s = d :: c → filename d = None →
  Ftp.main_try w host directory remote_dir s
  = (Raise (KeyError "filename"),
     {| collection := collection s;
        reported := reported s ++ [("get_last_file", KeyError "filename");
                                   ("main", KeyError "filename")];
        retrieved := retrieved s |}).
Proof.
  intros Hc Hf. unfold Ftp.main_try, Ftp.last_number, Ftp.get_last_file, reporting.
  py_unfold. rewrite Hc. simpl. rewrite Hf. simpl. by rewrite <- app_assoc, Hc.
Qed.

Lemma merge_article_keeps_head (a : article) (s : state) (d : document)
    (c : list document) (n : nat) :
  collection s = d :: c → _id d = ObjectId n →
  ∃ c', collection (snd (Ftp.merge_article a s)) = d :: c'.
Proof.
  intros Hc Hid.
  destruct (pmid a) as [p|] eqn:Hp; [| rewrite merge_article_no_pmid by done; eauto].
  destruct (reference a) as [r|] eqn:Hr;
    [| erewrite merge_article_no_reference by done; eauto].
  destruct (find_one (id_is (StrId p)) (collection s)) as [existing|] eqn:Hfind.
  - destruct (decide (Ftp.old_references_of existing = Ftp.new_references_of r)).
    + erewrite merge_article_unchanged by done. eauto.
    + erewrite merge_article_update by done. simpl.
      apply find_one_Some in Hfind as [_ Hex]. apply bool_decide_eq_true in Hex.
      rewrite Hc, Hex. simpl. unfold id_is at 1.
      rewrite bool_decide_eq_false_2 by congruence. eauto.
  - erewrite merge_article_insert by done. simpl. unfold insert_one.
    rewrite Hc. simpl. eauto.
Qed.

Lemma resolve_article_keeps_head (article : document) (s : state) (d : document)
    (c : list document) :
  collection s = d :: c →
  ∃ d' c', collection (snd (Ftp.resolve_article article s)) = d' :: c'
           ∧ _id d' = _id d ∧ filename d' = filename d.
Proof.
  intros Hc. destruct (references article) as [refs|] eqn:Hrefs.
  - rewrite (resolve_article_step article refs s Hrefs). simpl. rewrite Hc. simpl.
    destruct (id_is (_id article) d); eauto.
  - unfold Ftp.resolve_article. rewrite Hrefs. simpl. eauto.
Qed.

Lemma run_operation_keeps_head (o : operation) (s : state) :
  (∃ d c n, collection s = d :: c ∧ _id d = ObjectId n ∧ filename d = None) →
  ∃ d c n, collection (snd (run_operation o s)) = d :: c
           ∧ _id d = ObjectId n ∧ filename d = None.
Proof.
  intros Hs. destruct o as [dicts_out|]; simpl.
  - unfold Ftp.merge. apply (for_each_preserves
      (fun t => ∃ d c n, collection t = d :: c ∧ _id d = ObjectId n ∧ filename d = None));
      [| done].
    intros a t _ (d & c & n & Hc & Hid & Hf).
    destruct (merge_article_keeps_head a t d c n Hc Hid) as [c' Hc']. eauto 10.
  - unfold Ftp.resolve. py_unfold. apply (for_each_preserves
      (fun t => ∃ d c n, collection t = d :: c ∧ _id d = ObjectId n ∧ filename d = None));
      [| done].
    intros a t _ (d & c & n & Hc & Hid & Hf).
    destruct (resolve_article_keeps_head a t d c Hc) as (d' & c' & Hc' & Hid' & Hf').
    exists d', c', n. split; [done |]. split; congruence.
Qed.

(** X13. The merge loop locks the [try] block of [main] out. Once a batch
    whose first raw record has both keys and no ['filename'] (the parser
    gives none) has been merged into an empty store, whatever merges and
    resolutions follow, the [try] statement of [main] cannot read the
    watermark: it raises [KeyError('filename')], reported by
    [get_last_file] and by [main], before anything is listed, retrieved
    or written. *)
Theorem first_batch_blocks_later_runs
    (w : world) (host directory remote_dir : string)
    (a : article) (dicts_out : list article) (os : list operation) (s : state) :
  collection s = [] → well_formed a → fields a !! "filename" = None →
  Ftp.main_try w host directory remote_dir
    (run_operations (Merge (a :: dicts_out) :: os) s)
  = (Raise (KeyError "filename"),
     {| collection := collection (run_operations (Merge (a :: dicts_out) :: os) s);
        reported := reported (run_operations (Merge (a :: dicts_out) :: os) s)
                    ++ [("get_last_file", KeyError "filename");
                        ("main", KeyError "filename")];
        retrieved := retrieved (run_operations (Merge (a :: dicts_out) :: os) s) |}).
Proof.
  intros Hempty [[p Hp] [r Hr]] Hfile.
  assert (∃ d c n, collection (run_operations (Merge (a :: dicts_out) :: os) s) = d :: c
                   ∧ _id d = ObjectId n ∧ filename d = None) as (d & c & n & Hc & _ & Hf).
  { unfold run_operations. simpl.
    assert (∃ d c n, collection (snd (Ftp.merge (a :: dicts_out) s)) = d :: c
                     ∧ _id d = ObjectId n ∧ filename d = None) as Hhead.
    { unfold Ftp.merge. simpl. unfold bind.
      assert (find_one (id_is (StrId p)) (collection s) = None) as Hfind
        by (by rewrite Hempty).
      rewrite (merge_article_insert a s p r Hp Hr Hfind).
      apply (for_each_preserves
        (fun t => ∃ d c n, collection t = d :: c ∧ _id d = ObjectId n ∧ filename d = None)).
      - intros a' t _ (d & c & n & Hc & Hid & Hf).
        destruct (merge_article_keeps_head a' t d c n Hc Hid) as [c' Hc']. eauto 10.
      - simpl. rewrite Hempty. unfold insert_one. simpl. eauto 10. }
    revert Hhead. generalize (snd (Ftp.merge (a :: dicts_out) s)). clear.
    induction os as [|o os IH]; intros t Ht; simpl; [done |].
    apply IH. by apply run_operation_keeps_head. }
  by apply (main_without_filename w host directory remote_dir d c).
Qed.

Lemma first_batch_blocks_later_runs_witness :
  let w := world_of ["pubmed23n0002.xml.gz"] (fun _ => Some [raw "3" "1"]) in
  let s := run_operations (Merge (raw "1" "2" :: [raw "2" ""]) :: [Resolve]) initial in
  collection initial = []
  ∧ well_formed (raw "1" "2")
  ∧ fields (raw "1" "2") !! "filename" = None
  ∧ Ftp.main_try w "ftp.ncbi.nlm.nih.gov" "xml_data" "/pubmed/updatefiles/" s
    = (Raise (KeyError "filename"),
       {| collection := collection s;
          reported := reported s ++ [("get_last_file", KeyError "filename");
                                     ("main", KeyError "filename")];
          retrieved := retrieved s |}).
Proof.
  intros w s.
  assert (well_formed (raw "1" "2")) as Hwf by (split; by eexists).
  split; [reflexivity |]. split; [exact Hwf |]. split; [reflexivity |].
  exact (first_batch_blocks_later_runs w "ftp.ncbi.nlm.nih.gov" "xml_data"
           "/pubmed/updatefiles/" (raw "1" "2") [raw "2" ""] [Resolve] initial
           eq_refl Hwf eq_refl).
Defined.

(** ** main.py: the watermark and the order of the links *)

Lemma string_leb_trans (a b c : string) :
  String.leb a b = true → String.leb b c = true → String.leb a c = true.
Proof.
  unfold String.leb. revert b c.
  induction a as [|x a IH]; intros [|y b] [|z c]; simpl; try done.
  unfold Ascii.compare.
  destruct (N.compare_spec (N_of_ascii x) (N_of_ascii y)),
           (N.compare_spec (N_of_ascii y) (N_of_ascii z)),
           (N.compare_spec (N_of_ascii x) (N_of_ascii z));
    try done; try lia.
  apply IH.
Qed.

Lemma string_leb_refl (a : string) : String.leb a a = true.
Proof. by destruct (String.leb_total a a). Qed.

Lemma filename_leb_trans (a b c : option string) :
  Http.filename_leb a b = true → Http.filename_leb b c = true →
  Http.filename_leb a c = true.
Proof.
  destruct a as [a|], b as [b|], c as [c|]; simpl; try done. apply string_leb_trans.
Qed.

Lemma filename_leb_total (a b : option string) :
  Http.filename_leb a b = true ∨ Http.filename_leb b a = true.
Proof.
  destruct a as [a|], b as [b|]; simpl; auto. apply String.leb_total.
Qed.

Lemma find_one_sort_filename_desc_spec (c : list document) :
  match Http.find_one_sort_filename_desc c with
  | None => c = []
  | Some m => m ∈ c ∧ ∀ d, d ∈ c → Http.filename_leb (filename d) (filename m) = true
  end.
Proof.
  induction c as [|x c IH]; simpl; [done |].
  destruct (Http.find_one_sort_filename_desc c) as [m|].
  - destruct IH as [Hm Hmax].
    destruct (Http.filename_leb (filename m) (filename x)) eqn:Hle.
    + split; [left |]. intros d Hd. apply elem_of_cons in Hd as [-> | Hd].
      * destruct (filename_leb_total (filename x) (filename x)); done.
      * eapply filename_leb_trans; [by apply Hmax | done].
    + split; [by right |]. intros d Hd. apply elem_of_cons in Hd as [-> | Hd].
      * destruct (filename_leb_total (filename x) (filename m)); [done | congruence].
      * by apply Hmax.
  - subst c. split; [left |]. intros d Hd. apply list_elem_of_singleton in Hd as ->.
    destruct (filename_leb_total (filename x) (filename x)); done.
Qed.

(** X14. [get_last_updated_file] of main.py returns the greatest
    ['filename'] of the collection in the order of the strings, a name
    some document carries. It raises [TypeError] on the empty collection
    and [KeyError] when no document has the key. *)
Theorem get_last_updated_file_is_greatest (c : list document) :
  match Http.get_last_updated_file c with
  | Return f =>
      (∃ d, d ∈ c ∧ filename d = Some f)
      ∧ ∀ d g, d ∈ c → filename d = Some g → String.leb g f = true
  | Raise e =>
      (e = TypeError ∧ c = [])
      ∨ (e = KeyError "filename" ∧ c ≠ [] ∧ ∀ d, d ∈ c → filename d = None)
  end.
Proof.
  unfold Http.get_last_updated_file.
  pose proof (find_one_sort_filename_desc_spec c) as Hspec.
  destruct (Http.find_one_sort_filename_desc c) as [m|]; [| by left].
  destruct Hspec as [Hm Hmax]. destruct (filename m) as [f|] eqn:Hf.
  - split; [by exists m |]. intros d g Hd Hg. specialize (Hmax d Hd).
    by rewrite Hg in Hmax.
  - right. split; [done |]. split; [intros ->; by apply elem_of_nil in Hm |].
    intros d Hd. specialize (Hmax d Hd). by destruct (filename d).
Qed.

(** The watermark of main.py follows the order of the strings, not of
    the numbers: with files 999 and 1000 stored it is 999. *)
Lemma http_watermark_in_string_order :
  Http.last_number [stored "1" "pubmed23n999.xml"; stored "2" "pubmed23n1000.xml"]
  = Return 999%N.
Proof. reflexivity. Qed.

Section SortedLinks.

Lemma insert_link_perm (x : string) (l : list string) :
  Permutation (Http.insert_link x l) (x :: l).
Proof.
  induction l as [|y l IH]; simpl; [done |].
  destruct (String.leb y x); [| done]. rewrite IH. apply perm_swap.
Qed.

Lemma insert_link_Forall (P : string → Prop) (x : string) (l : list string) :
  P x → Forall P l → Forall P (Http.insert_link x l).
Proof.
  intros Hx Hl. induction Hl as [|y l Hy Hl IH]; simpl; [by constructor |].
  destruct (String.leb y x); by repeat constructor.
Qed.

Lemma insert_link_sorted (x : string) (l : list string) :
  StronglySorted (fun a b => String.leb a b = true) l →
  StronglySorted (fun a b => String.leb a b = true) (Http.insert_link x l).
Proof.
  induction 1 as [|y l Hl IH Hy]; simpl; [repeat constructor |].
  destruct (String.leb y x) eqn:Hle.
  - constructor; [done |]. by apply insert_link_Forall.
  - assert (String.leb x y = true) as Hxy
      by (destruct (String.leb_total x y); [done | congruence]).
    constructor; [by constructor |]. constructor; [done |].
    eapply Forall_impl; [exact Hy |]. intros z Hz. by eapply string_leb_trans.
Qed.

Lemma sorted_perm (links : list string) : Permutation (Http.sorted links) links.
Proof.
  unfold Http.sorted.
  assert (∀ acc, Permutation (fold_left (fun acc x => Http.insert_link x acc) links acc)
                   (acc ++ links)) as Hgen; [| by rewrite Hgen].
  induction links as [|x l IH]; intros acc; simpl; [by rewrite app_nil_r |].
  rewrite IH, insert_link_perm. by rewrite <- Permutation_middle.
Qed.

Lemma sorted_sorted (links : list string) :
  StronglySorted (fun a b => String.leb a b = true) (Http.sorted links).
Proof.
  unfold Http.sorted.
  assert (∀ acc, StronglySorted (fun a b => String.leb a b = true) acc →
                 StronglySorted (fun a b => String.leb a b = true)
                   (fold_left (fun acc x => Http.insert_link x acc) links acc)) as Hgen;
    [| apply Hgen; constructor].
  induction links as [|x l IH]; intros acc Hacc; simpl; [done |].
  by apply IH, insert_link_sorted.
Qed.

End SortedLinks.

Lemma filter_links_all_numbered (n : N) (links : list string) :
  Forall (fun l => is_Some (search_first l)) links →
  Http.filter_links n links
  = Return (List.filter
              (fun l => match search_first l with
                        | Some ds => (n <? int_of_digits ds)%N
                        | None => false
                        end) links).
Proof.
  induction 1 as [|l links [ds Hds] _ IH]; [done |].
  simpl. unfold Http.get_file_number at 1. rewrite Hds, IH.
  by destruct (n <? int_of_digits ds)%N.
Qed.

(** X15. [process_files] of main.py, when every link has a number: it goes
    through the links whose number is above [last_number], each as often
    as listed, in ascending order of the link strings. *)
Theorem http_links_filtered_and_sorted_as_strings (links : list string) (n : N) :
  Forall (fun l => is_Some (search_first l)) links →
  ∃ order,
    Http.process_files_order links n = Return order
    ∧ Permutation order
        (List.filter
           (fun l => match Http.get_file_number l with
                     | Return k => (n <? k)%N
                     | Raise _ => false
                     end) links)
    ∧ StronglySorted (fun a b => String.leb a b = true) order.
Proof.
  intros Hall. unfold Http.process_files_order.
  rewrite (filter_links_all_numbered n links Hall). eexists. split; [done |].
  split; [| apply sorted_sorted]. rewrite sorted_perm.
  assert (∀ l, match search_first l with
               | Some ds => (n <? int_of_digits ds)%N
               | None => false
               end
               = match Http.get_file_number l with
                 | Return k => (n <? k)%N
                 | Raise _ => false
                 end) as Hext.
  { intros l. unfold Http.get_file_number. by destruct (search_first l). }
  clear Hall. induction links as [|l links IH]; [done |].
  simpl. rewrite Hext. destruct (Http.get_file_number l) as [k|e]; [| done].
  destruct (n <? k)%N; [by constructor | done].
Qed.

Lemma http_links_filtered_and_sorted_as_strings_witness :
  let links := ["https://h/pubmed23n0003.xml.gz"; "https://h/pubmed23n0002.xml.gz";
                "https://h/pubmed23n0001.xml.gz"] in
  Forall (fun l => is_Some (search_first l)) links
  ∧ ∃ order,
      Http.process_files_order links 1 = Return order
      ∧ Permutation order
          (List.filter
             (fun l => match Http.get_file_number l with
                       | Return k => (1 <? k)%N
                       | Raise _ => false
                       end) links)
      ∧ StronglySorted (fun a b => String.leb a b = true) order.
Proof.
  intros links.
  assert (Forall (fun l => is_Some (search_first l)) links) as Hall.
  { repeat constructor; by eexists. }
  split; [exact Hall |].
  exact (http_links_filtered_and_sorted_as_strings links 1 Hall).
Defined.

(** ** The strings the scripts cut up *)

Lemma split_nonempty (sep : ascii) (s : string) : split sep s ≠ [].
Proof.
  induction s as [|c s IH]; simpl; [done |].
  destruct (Ascii.eqb c sep); [done |]. by destruct (split sep s).
Qed.

Lemma concat_String_cons (sep : string) (c : ascii) (w : string) (ws : list string) :
  String.concat sep (String c w :: ws) = String c (String.concat sep (w :: ws)).
Proof. by destruct ws. Qed.

Lemma concat_empty_cons (sep : ascii) (w : string) (ws : list string) :
  String.concat (String sep "") ("" :: w :: ws)
  = String sep (String.concat (String sep "") (w :: ws)).
Proof. reflexivity. Qed.

(** [s.split(sep)] loses nothing: it never returns the empty list, no
    piece contains the separator, and the pieces joined by the separator
    are [s] again. *)
Theorem split_join (sep : ascii) (s : string) :
  split sep s ≠ []
  ∧ Forall (fun piece => ∀ i, String.get i piece ≠ Some sep) (split sep s)
  ∧ String.concat (String sep "") (split sep s) = s.
Proof.
  split; [apply split_nonempty |].
  induction s as [|c s [IHpieces IHjoin]].
  - split; [| done]. constructor; [| constructor]. by intros [|i].
  - pose proof (split_nonempty sep s) as Hne. cbn [split].
    destruct (split sep s) as [|w ws]; [done |].
    apply Forall_cons in IHpieces as [Hw Hws].
    destruct (Ascii.eqb_spec c sep) as [-> | Hc].
    + split.
      * constructor; [by intros [|i] |]. by constructor.
      * by rewrite concat_empty_cons, IHjoin.
    + split.
      * constructor; [| done]. intros [|i]; simpl; [congruence | apply Hw].
      * by rewrite concat_String_cons, IHjoin.
Qed.

(** X16. A Record the merge loop inserts always has a citation: an empty
    ['reference'] string splits into one empty PMID, so a raw record that
    cites nothing is stored with one citation, of the PMID [""]. *)
Theorem record_without_references_cites_empty_pmid (a : article) (s : state) (p r : string) :
  pmid a = Some p → reference a = Some r →
  find_one (id_is (StrId p)) (collection s) = None →
  ∃ d,
    collection (snd (Ftp.merge_article a s)) = collection s ++ [d]
    ∧ citations d ≠ []
    ∧ (r = "" → citations d = [ {| ref_pmid := ""; idArticle := None |} ]).
Proof.
  intros Hp Hr Hfind. rewrite (merge_article_insert a s p r Hp Hr Hfind). simpl.
  eexists. split; [reflexivity |]. unfold citations. simpl. split.
  - intros Hnil. apply fmap_nil_inv in Hnil.
    pose proof (split_nonempty ";" r) as Hne.
    destruct (split ";" r) as [|x xs] eqn:Hsplit; [done |].
    assert (x ∈ elements (Ftp.new_references_of r)) as Hx.
    { unfold Ftp.new_references_of. rewrite elem_of_elements, elem_of_list_to_set, Hsplit.
      left. }
    rewrite Hnil in Hx. by apply elem_of_nil in Hx.
  - intros ->. vm_compute. reflexivity.
Qed.

Lemma record_without_references_cites_empty_pmid_witness :
  pmid (raw "1" "") = Some "1"
  ∧ reference (raw "1" "") = Some ""
  ∧ find_one (id_is (StrId "1")) (collection initial) = None
  ∧ ∃ d,
      collection (snd (Ftp.merge_article (raw "1" "") initial)) = collection initial ++ [d]
      ∧ citations d ≠ []
      ∧ ("" = "" → citations d = [ {| ref_pmid := ""; idArticle := None |} ]).
Proof.
  split; [reflexivity |]. split; [reflexivity |]. split; [reflexivity |].
  exact (record_without_references_cites_empty_pmid (raw "1" "") initial "1" ""
           eq_refl eq_refl eq_refl).
Defined.

Lemma string_app_assoc (a b c : string) : ((a ++ b) ++ c = a ++ (b ++ c))%string.
Proof.
  induction a as [|x a IH]; [done |].
  change (String x ((a ++ b) ++ c) = String x (a ++ (b ++ c)))%string. by rewrite IH.
Qed.

Lemma string_app_length (a b : string) :
  String.length (a ++ b) = String.length a + String.length b.
Proof.
  induction a as [|x a IH]; [done |].
  change (S (String.length (a ++ b)) = S (String.length a + String.length b)).
  by rewrite IH.
Qed.

Lemma substring_prefix (a b : string) :
  substring 0 (String.length a) (a ++ b) = a.
Proof.
  induction a as [|x a IH]; [by destruct b |].
  change (String x (substring 0 (String.length a) (a ++ b)) = String x a).
  by rewrite IH.
Qed.

Lemma drop_last3_app (s : string) (a b c : ascii) :
  drop_last3 (s ++ String a (String b (String c ""))) = s.
Proof.
  unfold drop_last3. rewrite string_app_length. cbn [String.length].
  replace (String.length s + 3 - 3) with (String.length s) by lia.
  apply substring_prefix.
Qed.

Lemma not_slash (c : ascii) (u v : string) :
  c ≠ "/"%char → match c with "/"%char => u | _ => v end = v.
Proof. intros H. destruct c as [[] [] [] [] [] [] [] []]; done. Qed.

Lemma head_not_slash (x : ascii) (t u v : string) :
  x ≠ "/"%char → match String x t with String "/" _ => u | _ => v end = v.
Proof. intros H. destruct x as [[] [] [] [] [] [] [] []]; done. Qed.

Lemma path_join_app (directory name ext : string) :
  name ≠ "" → path_join directory (name ++ ext) = (path_join directory name ++ ext)%string.
Proof.
  intros Hname. destruct name as [|x name]; [done |].
  change (String x name ++ ext)%string with (String x (name ++ ext))%string.
  unfold path_join.
  destruct (decide (x = "/"%char)) as [-> | Hx]; [reflexivity |].
  rewrite !(head_not_slash x) by done.
  destruct (bool_decide (directory = "")); [reflexivity |].
  assert (∀ p : string,
            (p ++ String x (name ++ ext) = (p ++ String x name) ++ ext)%string) as Hassoc.
  { intros p. change (String x (name ++ ext)) with (String x name ++ ext)%string.
    by rewrite string_app_assoc. }
  assert ((directory ++ "/" ++ String x (name ++ ext)
           = (directory ++ "/" ++ String x name) ++ ext)%string) as Hslash.
  { rewrite <- (string_app_assoc directory "/" (String x (name ++ ext))).
    rewrite <- (string_app_assoc directory "/" (String x name)). apply Hassoc. }
  destruct (get (String.length directory - 1) directory) as [c|]; [| exact Hslash].
  destruct (decide (c = "/"%char)) as [-> | Hc]; [apply Hassoc |].
  rewrite !(not_slash c) by done. exact Hslash.
Qed.

(** X17. The file [main] unzips into and parses is the listed name without
    its last three characters, whatever they are, in the local
    directory: ["x.xml.gz"] gives [directory/x.xml]. *)
Theorem xml_file_name_drops_three_characters (directory name : string) (a b c : ascii) :
  name ≠ "" →
  drop_last3 (path_join directory (name ++ String a (String b (String c ""))))
  = path_join directory name.
Proof. intros Hname. by rewrite path_join_app, drop_last3_app. Qed.

Lemma xml_file_name_drops_three_characters_witness :
  "pubmed23n0001.xml" ≠ ""
  ∧ drop_last3 (path_join "xml_data" ("pubmed23n0001.xml" ++ ".gz"))
    = path_join "xml_data" "pubmed23n0001.xml".
Proof.
  assert ("pubmed23n0001.xml" ≠ "") as Hne by done.
  split; [exact Hne |].
  exact (xml_file_name_drops_three_characters "xml_data" "pubmed23n0001.xml" "." "g" "z" Hne).
Defined.

(** ** A listing that fails *)

(** X18. When the listing raises anything but the refusal
    ["550 No files found"], the [try] statement of [main] raises it with
    the store and the transfers untouched; [list_files] reports an
    [error_perm] itself, and [main] reports whatever was raised. *)
Theorem failed_listing_aborts_run
    (w : world) (host directory remote_dir : string) (e : exn) (n : N) (s : state) :
  fst (Ftp.last_number s) = Return n →
  ftp_open w = None →
  nlst w = inr e →
  e ≠ error_perm "550 No files found" →
  Ftp.main_try w host directory remote_dir s
  = (Raise e,
     {| collection := collection s;
        reported := reported s
                    ++ (match e with error_perm _ => [("list_files", e)] | _ => [] end)
                    ++ [("main", e)];
        retrieved := retrieved s |}).
Proof.
  intros Hn Hopen Hlist Hne. unfold Ftp.main_try, reporting, Ftp.list_files.
  rewrite Hopen, Hlist. py_unfold. rewrite (last_number_reads n s Hn).
  destruct e as [k| | | |resp|what|name]; try done.
  rewrite bool_decide_eq_false_2 by congruence. simpl. by rewrite <- app_assoc.
Qed.

Lemma failed_listing_aborts_run_witness :
  let w := {| ftp_open := None;
              nlst := inr (error_perm "530 Login incorrect");
              urlretrieve := fun _ _ => true;
              gunzip := fun _ _ => true;
              parse_medline_xml := fun _ => None;
              ftp_quit := None;
              remove_files := fun _ => None |} in
  fst (Ftp.last_number initial) = Return 0%N
  ∧ ftp_open w = None
  ∧ nlst w = inr (error_perm "530 Login incorrect")
  ∧ error_perm "530 Login incorrect" ≠ error_perm "550 No files found"
  ∧ Ftp.main_try w "h" "d" "/r/" initial
    = (Raise (error_perm "530 Login incorrect"),
       {| collection := collection initial;
          reported := reported initial
                      ++ [("list_files", error_perm "530 Login incorrect")]
                      ++ [("main", error_perm "530 Login incorrect")];
          retrieved := retrieved initial |}).
Proof.
  intros w.
  assert (error_perm "530 Login incorrect" ≠ error_perm "550 No files found") as Hne
    by done.
  split; [reflexivity |]. split; [reflexivity |]. split; [reflexivity |].
  split; [exact Hne |].
  exact (failed_listing_aborts_run w "h" "d" "/r/" (error_perm "530 Login incorrect")
           0 initial eq_refl eq_refl eq_refl Hne).
Defined.

(** ** The number main.py reads in a link *)

(** The leftmost match of a pattern, from what a match at the head is. *)
Section Leftmost.

Variable match_here : string → option (list ascii).
Variable seg : string → string → list ascii → string → Prop.

Hypothesis seg_here : ∀ s ds, match_here s = Some ds ↔ ∃ post, seg s "" ds post.
Hypothesis seg_tail : ∀ c s pre ds post,
  seg (String c s) pre ds post →
  pre = "" ∨ ∃ pre', pre = String c pre' ∧ seg s pre' ds post.
Hypothesis seg_cons : ∀ c s pre ds post,
  seg s pre ds post → seg (String c s) (String c pre) ds post.
Hypothesis seg_nonempty : ∀ pre ds post, ¬ seg "" pre ds post.

Lemma leftmost_Some (f : string) (ds : list ascii) :
  leftmost match_here f = Some ds →
  ∃ pre post, seg f pre ds post
    ∧ ∀ pre' ds' post', seg f pre' ds' post' →
                        (String.length pre <= String.length pre')%nat.
Proof.
  revert ds. induction f as [|c s IH]; intros ds.
  - cbn [leftmost]. destruct (match_here "") as [g|] eqn:Hhere; [| done].
    apply seg_here in Hhere as [post Hseg]. by apply seg_nonempty in Hseg.
  - cbn [leftmost]. destruct (match_here (String c s)) as [g|] eqn:Hhere.
    + intros [= <-]. apply seg_here in Hhere as [post Hseg].
      exists "", post. split; [done |]. intros; simpl; lia.
    + intros Hs. destruct (IH _ Hs) as (pre & post & Hseg & Hleft).
      exists (String c pre), post. split; [by apply seg_cons |].
      intros pre' ds' post' Hseg'.
      destruct (seg_tail _ _ _ _ _ Hseg') as [-> | (pre'' & -> & Hseg'')].
      * assert (match_here (String c s) = Some ds') as Hm by (apply seg_here; eauto).
        congruence.
      * simpl. apply le_n_S. eauto.
Qed.

Lemma leftmost_None (f : string) :
  leftmost match_here f = None ↔ ¬ ∃ pre ds post, seg f pre ds post.
Proof.
  split.
  - induction f as [|c s IH]; intros Hnone (pre & ds & post & Hseg).
    + by apply seg_nonempty in Hseg.
    + cbn [leftmost] in Hnone.
      destruct (match_here (String c s)) as [g|] eqn:Hhere; [done |].
      destruct (seg_tail _ _ _ _ _ Hseg) as [-> | (pre' & -> & Hseg')].
      * assert (match_here (String c s) = Some ds) as Hm by (apply seg_here; eauto).
        congruence.
      * apply (IH Hnone). eauto.
  - intros Hno. destruct (leftmost match_here f) as [ds|] eqn:Hf; [| done].
    destruct (leftmost_Some f ds Hf) as (pre & post & Hseg & _).
    exfalso. apply Hno. eauto.
Qed.

Lemma seg_same_start (f pre pre' : string) (ds ds' : list ascii) (post post' : string) :
  seg f pre ds post → seg f pre' ds' post' →
  String.length pre = String.length pre' → ds = ds'.
Proof.
  revert pre pre'. induction f as [|c f IH]; intros pre pre' Hseg Hseg' Hlen.
  - by apply seg_nonempty in Hseg.
  - destruct (seg_tail _ _ _ _ _ Hseg) as [-> | (p & -> & Hp)];
      destruct (seg_tail _ _ _ _ _ Hseg') as [-> | (p' & -> & Hp')];
      try done.
    + assert (match_here (String c f) = Some ds) as H1 by (apply seg_here; eauto).
      assert (match_here (String c f) = Some ds') as H2 by (apply seg_here; eauto).
      congruence.
    + simpl in Hlen. eapply IH; eauto.
Qed.

Lemma leftmost_spec (f : string) (ds : list ascii) :
  leftmost match_here f = Some ds ↔
  ∃ pre post, seg f pre ds post
    ∧ ∀ pre' ds' post', seg f pre' ds' post' →
                        (String.length pre <= String.length pre')%nat.
Proof.
  split; [apply leftmost_Some |].
  intros (pre & post & Hseg & Hleft).
  destruct (leftmost match_here f) as [ds0|] eqn:Hf.
  - destruct (leftmost_Some f ds0 Hf) as (pre0 & post0 & Hseg0 & Hleft0).
    f_equal. eapply seg_same_start; eauto. apply Nat.le_antisymm; eauto.
  - apply leftmost_None in Hf. exfalso. apply Hf. eauto.
Qed.

End Leftmost.

Lemma span_digits_stops (ds : list ascii) (post : string) :
  Forall (fun c => is_digit c = true) ds →
  match post with String c _ => is_digit c = false | EmptyString => True end →
  span_digits (string_of_list_ascii ds ++ post) = (ds, post).
Proof.
  intros Hds Hpost. induction Hds as [|c ds Hc _ IH].
  - change (span_digits post = ([], post)). destruct post as [|c post]; [done |].
    simpl. by rewrite Hpost.
  - change (span_digits (String c (string_of_list_ascii ds ++ post)) = (c :: ds, post)).
    simpl. by rewrite Hc, IH.
Qed.

Lemma span_digits_rest (s : string) (ds : list ascii) (rest : string) :
  span_digits s = (ds, rest) →
  match rest with String c _ => is_digit c = false | EmptyString => True end.
Proof.
  revert ds. induction s as [|c s IH]; intros ds; simpl.
  - by intros [= <- <-].
  - destruct (is_digit c) eqn:Hc.
    + destruct (span_digits s) as [ds' rest'] eqn:Hs. intros [= <- <-]. by eapply IH.
    + by intros [= <- <-].
Qed.

Lemma match_n_digits_spec (s : string) (ds : list ascii) :
  match_n_digits s = Some ds ↔ ∃ post, number_run s "" ds post.
Proof.
  split.
  - destruct s as [|c s]; simpl; [done |].
    destruct (Ascii.eqb_spec c "n") as [-> |]; [| done].
    destruct (span_digits s) as [[|d run] rest] eqn:Hrun; [done |].
    intros [= <-]. exists rest. pose proof (span_digits_rest _ _ _ Hrun) as Hrest.
    apply span_digits_sound in Hrun as [-> Hds]. by repeat split.
  - intros (post & Hf & Hne & Hds & Hpost). subst s.
    change (match_n_digits (String "n" (string_of_list_ascii ds ++ post)) = Some ds).
    simpl. rewrite (span_digits_stops ds post Hds Hpost). by destruct ds.
Qed.

Lemma number_run_tail (c : ascii) (s pre : string) (ds : list ascii) (post : string) :
  number_run (String c s) pre ds post →
  pre = "" ∨ ∃ pre', pre = String c pre' ∧ number_run s pre' ds post.
Proof.
  intros (Hf & Hrest). destruct pre as [|c' pre']; [by left | right].
  simpl in Hf. injection Hf as <- ->. exists pre'. by split.
Qed.

Lemma number_run_cons (c : ascii) (s pre : string) (ds : list ascii) (post : string) :
  number_run s pre ds post → number_run (String c s) (String c pre) ds post.
Proof. intros (-> & Hrest). by split. Qed.

Lemma number_run_nonempty (pre : string) (ds : list ascii) (post : string) :
  ¬ number_run "" pre ds post.
Proof. intros (Hf & _). by destruct pre. Qed.

(** X19. [get_file_number] of main.py returns the number written by all the
    digits after the leftmost ['n'] that a digit follows, and raises
    [AttributeError] exactly when no ['n'] of the name is followed by a
    digit. *)
Theorem get_file_number_spec (file_name : string) :
  (∀ k, Http.get_file_number file_name = Return k ↔
        ∃ pre ds post,
          number_run file_name pre ds post ∧ k = int_of_digits ds
          ∧ ∀ pre' ds' post', number_run file_name pre' ds' post' →
                              (String.length pre <= String.length pre')%nat)
  ∧ (Http.get_file_number file_name = Raise AttributeError ↔
     ¬ ∃ pre ds post, number_run file_name pre ds post)
  ∧ (∀ e, Http.get_file_number file_name = Raise e → e = AttributeError).
Proof.
  unfold Http.get_file_number, search_first.
  pose proof (leftmost_spec match_n_digits number_run match_n_digits_spec
                number_run_tail number_run_cons number_run_nonempty file_name) as Hsome.
  pose proof (leftmost_None match_n_digits number_run match_n_digits_spec
                number_run_tail number_run_cons number_run_nonempty file_name) as Hnone.
  destruct (leftmost match_n_digits file_name) as [ds|].
  - split; [| split; [| done]].
    + intros k. split.
      * intros [= <-]. destruct (proj1 (Hsome ds) eq_refl) as (pre & post & Hseg & Hleft).
        exists pre, ds, post. eauto.
      * intros (pre & ds' & post & Hseg & -> & Hleft).
        assert (Some ds = Some ds') as [= ->]; [| done].
        apply Hsome. eauto.
    + split; [done |]. intros Hno. exfalso. apply Hno.
      destruct (proj1 (Hsome ds) eq_refl) as (pre & post & Hseg & _). eauto.
  - split; [| split; [| by intros e [= <-]]].
    + intros k. split; [done |]. intros (pre & ds & post & Hseg & _).
      exfalso. apply (proj1 Hnone eq_refl). eauto.
    + split; [intros _; by apply Hnone | done].
Qed.

(** ** main.py on names of one width *)

Lemma int_of_digits_from (ds : list ascii) (acc : N) :
  fold_left (fun acc c => (10 * acc + digit_value c)%N) ds acc
  = (acc * 10 ^ N.of_nat (length ds) + int_of_digits ds)%N.
Proof.
  unfold int_of_digits. revert acc. induction ds as [|d ds IH]; intros acc.
  - simpl. lia.
  - cbn [fold_left length]. rewrite IH, (IH (10 * 0 + digit_value d)%N).
    rewrite Nat2N.inj_succ, N.pow_succ_r'. lia.
Qed.

Lemma int_of_digits_cons (d : ascii) (ds : list ascii) :
  int_of_digits (d :: ds)
  = (digit_value d * 10 ^ N.of_nat (length ds) + int_of_digits ds)%N.
Proof.
  unfold int_of_digits at 1. cbn [fold_left]. rewrite int_of_digits_from. lia.
Qed.

Lemma digit_value_bound (c : ascii) : is_digit c = true → (digit_value c <= 9)%N.
Proof.
  unfold is_digit, digit_value. intros H. apply andb_true_iff in H as [_ H].
  apply N.leb_le in H. lia.
Qed.

Lemma int_of_digits_bound (ds : list ascii) :
  Forall (fun c => is_digit c = true) ds →
  (int_of_digits ds < 10 ^ N.of_nat (length ds))%N.
Proof.
  induction 1 as [|d ds Hd _ IH].
  - simpl. unfold int_of_digits. simpl. lia.
  - rewrite int_of_digits_cons. cbn [length]. rewrite Nat2N.inj_succ, N.pow_succ_r'.
    apply digit_value_bound in Hd. nia.
Qed.

(** Digit strings of one length compare as their numbers do. *)
Lemma leb_digits (ds1 ds2 : list ascii) (post1 post2 : string) :
  length ds1 = length ds2 →
  Forall (fun c => is_digit c = true) ds1 → Forall (fun c => is_digit c = true) ds2 →
  String.leb (string_of_list_ascii ds1 ++ post1) (string_of_list_ascii ds2 ++ post2) = true →
  (int_of_digits ds1 <= int_of_digits ds2)%N.
Proof.
  revert ds2. induction ds1 as [|d1 ds1 IH]; intros [|d2 ds2] Hlen H1 H2 Hleb;
    try done.
  apply Forall_cons in H1 as [Hd1 H1]. apply Forall_cons in H2 as [Hd2 H2].
  injection Hlen as Hlen. rewrite !int_of_digits_cons, Hlen.
  pose proof (int_of_digits_bound ds1 H1) as Hb1. rewrite Hlen in Hb1.
  change (String.leb (String d1 (string_of_list_ascii ds1 ++ post1))
            (String d2 (string_of_list_ascii ds2 ++ post2)) = true) in Hleb.
  unfold String.leb in Hleb. cbn [String.compare] in Hleb.
  unfold Ascii.compare in Hleb.
  unfold is_digit in Hd1, Hd2.
  apply andb_true_iff in Hd1 as [Hl1 _]. apply andb_true_iff in Hd2 as [Hl2 _].
  apply N.leb_le in Hl1, Hl2. unfold digit_value.
  destruct (N.compare_spec (N_of_ascii d1) (N_of_ascii d2)) as [Heq | Hlt | Hgt].
  - rewrite Heq. apply N.add_le_mono_l. by apply (IH ds2).
  - nia.
  - done.
Qed.

Lemma leb_common_prefix (p a b : string) :
  String.leb (p ++ a) (p ++ b) = String.leb a b.
Proof.
  unfold String.leb. induction p as [|c p IH]; [done |].
  change (match String.compare (String c (p ++ a)) (String c (p ++ b)) with
          | Gt => false | _ => true end
          = match String.compare a b with Gt => false | _ => true end).
  cbn [String.compare]. unfold Ascii.compare. by rewrite N.compare_refl.
Qed.

Lemma search_first_after_prefix (pre : string) (ds : list ascii) (post : string) :
  search_first pre = None →
  ds ≠ [] → Forall (fun c => is_digit c = true) ds →
  match post with String c _ => is_digit c = false | EmptyString => True end →
  search_first (pre ++ "n" ++ string_of_list_ascii ds ++ post) = Some ds.
Proof.
  unfold search_first. intros Hpre Hne Hds Hpost.
  assert (match_n_digits (String "n" (string_of_list_ascii ds ++ post)) = Some ds) as Hrun.
  { simpl. rewrite (span_digits_stops ds post Hds Hpost). by destruct ds. }
  induction pre as [|c pre IH].
  - change (leftmost match_n_digits (String "n" (string_of_list_ascii ds ++ post)) = Some ds).
    cbn [leftmost]. by rewrite Hrun.
  - cbn [leftmost] in Hpre.
    destruct (match_n_digits (String c pre)) as [g|] eqn:Hhere; [done |].
    change (leftmost match_n_digits
              (String c (pre ++ "n" ++ string_of_list_ascii ds ++ post)) = Some ds).
    cbn [leftmost].
    assert (match_n_digits (String c (pre ++ "n" ++ string_of_list_ascii ds ++ post)) = None)
      as ->; [| by apply IH].
    simpl in Hhere |- *. destruct (Ascii.eqb c "n"); [| done].
    destruct pre as [|x pre]; [done |].
    change (String x pre ++ "n" ++ string_of_list_ascii ds ++ post)%string
      with (String x (pre ++ "n" ++ string_of_list_ascii ds ++ post)).
    simpl in Hhere |- *. destruct (is_digit x); [| done].
    by destruct (span_digits pre).
Qed.

Lemma StronglySorted_weaken {A} (R R' : A → A → Prop) (P : A → Prop) (l : list A) :
  (∀ a b, P a → P b → R a b → R' a b) →
  Forall P l → StronglySorted R l → StronglySorted R' l.
Proof.
  intros Himp HP Hsorted. induction Hsorted as [|a l Hl IH Ha]; [constructor |].
  apply Forall_cons in HP as [Pa HP]. constructor; [by apply IH |].
  rewrite Forall_forall in Ha, HP. apply Forall_forall. intros b Hb. eauto.
Qed.

(** X20. On links that differ only in a number of one width after a common
    prefix without number (the names of the corpus), the order of
    [sorted(links)] is the order of the numbers: [process_files] of
    main.py goes through the links above [last_number] in ascending
    order of their numbers. *)
Theorem http_order_is_numeric_for_one_width
    (pre : string) (width : nat) (links : list string) (n : N) :
  search_first pre = None →
  Forall (fun l => ∃ ds post, number_run l pre ds post ∧ length ds = width) links →
  ∃ order,
    Http.process_files_order links n = Return order
    ∧ Permutation order (List.filter (fun l => (n <? link_number l)%N) links)
    ∧ StronglySorted (fun a b => (link_number a <= link_number b)%N) order.
Proof.
  intros Hpre Hall.
  assert (∀ l ds post, number_run l pre ds post → search_first l = Some ds) as Hnum.
  { intros l ds post (-> & Hne & Hds & Hpost). by apply search_first_after_prefix. }
  assert (Forall (fun l => is_Some (search_first l)) links) as Hsome.
  { eapply Forall_impl; [exact Hall |]. intros l (ds & post & Hrun & _).
    rewrite (Hnum l ds post Hrun). by eexists. }
  unfold Http.process_files_order. rewrite (filter_links_all_numbered n links Hsome).
  eexists. split; [done |].
  assert (List.filter
            (fun l => match search_first l with
                      | Some ds => (n <? int_of_digits ds)%N
                      | None => false
                      end) links
          = List.filter (fun l => (n <? link_number l)%N) links) as Hfilter.
  { clear Hsome. induction Hall as [|l links (ds & post & Hrun & _) _ IH]; [done |].
    simpl. unfold link_number at 1, Http.get_file_number.
    rewrite (Hnum l ds post Hrun), IH. done. }
  rewrite Hfilter. split; [apply sorted_perm |].
  apply (StronglySorted_weaken (fun a b => String.leb a b = true) _
           (fun l => ∃ ds post, number_run l pre ds post ∧ length ds = width));
    [| | apply sorted_sorted].
  - intros a b (ds1 & post1 & Hrun1 & Hw1) (ds2 & post2 & Hrun2 & Hw2) Hleb.
    unfold link_number, Http.get_file_number.
    rewrite (Hnum a ds1 post1 Hrun1), (Hnum b ds2 post2 Hrun2).
    destruct Hrun1 as (-> & _ & Hds1 & _), Hrun2 as (-> & _ & Hds2 & _).
    rewrite leb_common_prefix in Hleb.
    rewrite (leb_common_prefix "n") in Hleb.
    eapply leb_digits; eauto. congruence.
  - rewrite sorted_perm. apply Forall_forall. intros l Hl.
    apply list_elem_of_In, filter_In in Hl as [Hl _]. rewrite Forall_forall in Hall.
    by apply Hall, list_elem_of_In.
Qed.

Lemma http_order_is_numeric_for_one_width_witness :
  let pre := "https://ftp.ncbi.nlm.nih.gov/pubmed/updatefiles/pubmed23" in
  let links := [ (pre ++ "n1201.xml.gz")%string; (pre ++ "n0999.xml.gz")%string;
                 (pre ++ "n1200.xml.gz")%string ] in
  search_first pre = None
  ∧ Forall (fun l => ∃ ds post, number_run l pre ds post ∧ length ds = 4) links
  ∧ ∃ order,
      Http.process_files_order links 999 = Return order
      ∧ Permutation order (List.filter (fun l => (999 <? link_number l)%N) links)
      ∧ StronglySorted (fun a b => (link_number a <= link_number b)%N) order.
Proof.
  intros pre links.
  assert (Forall (fun l => ∃ ds post, number_run l pre ds post ∧ length ds = 4) links)
    as Hall.
  { constructor; [| constructor; [| constructor; [| constructor]]].
    - exists ["1"; "2"; "0"; "1"]%char, ".xml.gz". repeat split; try done.
      repeat constructor.
    - exists ["0"; "9"; "9"; "9"]%char, ".xml.gz". repeat split; try done.
      repeat constructor.
    - exists ["1"; "2"; "0"; "0"]%char, ".xml.gz". repeat split; try done.
      repeat constructor. }
  split; [reflexivity |]. split; [exact Hall |].
  exact (http_order_is_numeric_for_one_width pre 4 links 999 eq_refl Hall).
Defined.

(** ** The file names of main.py's [download_and_unzip] *)

Lemma split_single (sep : ascii) (s : string) :
  (∀ i, String.get i s ≠ Some sep) → split sep s = [s].
Proof.
  induction s as [|c s IH]; intros Hno; [done |].
  cbn [split]. destruct (Ascii.eqb_spec c sep) as [-> | Hc].
  - by specialize (Hno 0).
  - rewrite IH; [done |]. intros i. apply (Hno (S i)).
Qed.

Lemma split_app_sep (sep : ascii) (a b : string) :
  ∃ f fs, split sep (a ++ String sep b) = (f :: fs) ++ split sep b.
Proof.
  induction a as [|c a (f & fs & IH)].
  - exists "", []. change (split sep (String sep b) = "" :: split sep b).
    cbn [split]. by rewrite Ascii.eqb_refl.
  - change (String c a ++ String sep b)%string with (String c (a ++ String sep b)).
    cbn [split]. rewrite IH. destruct (Ascii.eqb c sep).
    + by exists "", (f :: fs).
    + by exists (String c f), fs.
Qed.

Lemma last_app_nonempty {A} (l k : list A) (d : A) :
  k ≠ [] → List.last (l ++ k) d = List.last k d.
Proof.
  intros Hk. induction l as [|x l IH]; [done |].
  simpl. rewrite IH. destruct (l ++ k) eqn:Happ; [| done].
  by apply app_eq_nil in Happ as [_ ?].
Qed.

(** The last component of a url is what follows its last ['/']. *)
Lemma last_component_after_slash (base name : string) :
  (∀ i, String.get i name ≠ Some "/"%char) →
  Http.last_component (base ++ String "/" name) = name.
Proof.
  intros Hno. unfold Http.last_component.
  destruct (split_app_sep "/" base name) as (f & fs & ->).
  rewrite last_app_nonempty by apply split_nonempty.
  by rewrite split_single.
Qed.

Lemma replace_gz_match (rest : string) :
  Http.replace_gz (String "." (String "g" (String "z" rest))) = Http.replace_gz rest.
Proof. reflexivity. Qed.

Lemma replace_gz_other (c : ascii) (s : string) :
  c ≠ "."%char → Http.replace_gz (String c s) = String c (Http.replace_gz s).
Proof. intros Hc. destruct c as [[] [] [] [] [] [] [] []]; done. Qed.

Lemma replace_gz_dot_other (c : ascii) (s : string) :
  c ≠ "g"%char →
  Http.replace_gz (String "." (String c s)) = String "." (Http.replace_gz (String c s)).
Proof. intros Hc. destruct c as [[] [] [] [] [] [] [] []]; done. Qed.

Lemma replace_gz_dot_g_other (c : ascii) (s : string) :
  c ≠ "z"%char →
  Http.replace_gz (String "." (String "g" (String c s)))
  = String "." (Http.replace_gz (String "g" (String c s))).
Proof. intros Hc. destruct c as [[] [] [] [] [] [] [] []]; done. Qed.

(** A final ['.gz'] is dropped, and what stands before it is handled as
    without it. *)
Lemma replace_gz_suffix (s : string) :
  Http.replace_gz (s ++ ".gz") = Http.replace_gz s.
Proof.
  assert (∀ n s, String.length s <= n →
                 Http.replace_gz (s ++ ".gz") = Http.replace_gz s) as Hgen;
    [| by apply (Hgen (String.length s))].
  clear s. induction n as [|n IH]; intros s Hlen.
  - destruct s; [reflexivity | simpl in Hlen; lia].
  - destruct s as [|c s]; [reflexivity |].
    change (String c s ++ ".gz")%string with (String c (s ++ ".gz")).
    simpl in Hlen.
    destruct (decide (c = "."%char)) as [-> | Hc];
      [| rewrite !replace_gz_other by done; rewrite IH by lia; done].
    destruct s as [|g s]; [reflexivity |].
    change (String g s ++ ".gz")%string with (String g (s ++ ".gz")).
    simpl in Hlen.
    destruct (decide (g = "g"%char)) as [-> | Hg].
    2: { rewrite !replace_gz_dot_other by done.
         change (String g (s ++ ".gz")) with (String g s ++ ".gz")%string.
         rewrite IH by (simpl; lia). done. }
    destruct s as [|z s]; [reflexivity |].
    change (String z s ++ ".gz")%string with (String z (s ++ ".gz")).
    simpl in Hlen.
    destruct (decide (z = "z"%char)) as [-> | Hz].
    + rewrite !replace_gz_match. apply IH. lia.
    + rewrite !replace_gz_dot_g_other by done.
      change (String "g" (String z (s ++ ".gz")))
        with (String "g" (String z s) ++ ".gz")%string.
      rewrite IH by (simpl; lia). done.
Qed.

(** X21. For a url ending in [/stem.gz], with no other ['.gz'] in the local
    directory and the stem, main.py unzips into [directory/stem], the
    file main_ftp.py names by cutting three characters. *)
Theorem http_xml_file_name (base stem directory : string) :
  stem ≠ "" →
  (∀ i, String.get i (stem ++ ".gz") ≠ Some "/"%char) →
  Http.replace_gz (path_join directory stem) = path_join directory stem →
  Http.gz_file_name (base ++ String "/" (stem ++ ".gz")) directory
  = path_join directory (stem ++ ".gz")
  ∧ Http.xml_file_name (base ++ String "/" (stem ++ ".gz")) directory
    = path_join directory stem
  ∧ Http.xml_file_name (base ++ String "/" (stem ++ ".gz")) directory
    = drop_last3 (path_join directory (stem ++ ".gz")).
Proof.
  intros Hstem Hslash Hclean. unfold Http.xml_file_name, Http.gz_file_name.
  rewrite (last_component_after_slash base _ Hslash).
  rewrite (path_join_app directory stem ".gz" Hstem), replace_gz_suffix, Hclean.
  split; [done |]. split; [done |].
  by rewrite drop_last3_app.
Qed.

Lemma http_xml_file_name_witness :
  "pubmed23n0001.xml" ≠ ""
  ∧ (∀ i, String.get i ("pubmed23n0001.xml" ++ ".gz") ≠ Some "/"%char)
  ∧ Http.replace_gz (path_join "xml_data" "pubmed23n0001.xml")
    = path_join "xml_data" "pubmed23n0001.xml"
  ∧ Http.gz_file_name ("https://ftp.ncbi.nlm.nih.gov/pubmed/updatefiles"
                       ++ String "/" ("pubmed23n0001.xml" ++ ".gz")) "xml_data"
    = path_join "xml_data" ("pubmed23n0001.xml" ++ ".gz")
  ∧ Http.xml_file_name ("https://ftp.ncbi.nlm.nih.gov/pubmed/updatefiles"
                        ++ String "/" ("pubmed23n0001.xml" ++ ".gz")) "xml_data"
    = path_join "xml_data" "pubmed23n0001.xml"
  ∧ Http.xml_file_name ("https://ftp.ncbi.nlm.nih.gov/pubmed/updatefiles"
                        ++ String "/" ("pubmed23n0001.xml" ++ ".gz")) "xml_data"
    = drop_last3 (path_join "xml_data" ("pubmed23n0001.xml" ++ ".gz")).
Proof.
  assert ("pubmed23n0001.xml" ≠ "") as Hstem by done.
  assert (∀ i, String.get i ("pubmed23n0001.xml" ++ ".gz") ≠ Some "/"%char) as Hslash.
  { intros i. do 22 (destruct i as [|i]; [done |]). done. }
  split; [exact Hstem |]. split; [exact Hslash |]. split; [reflexivity |].
  exact (http_xml_file_name "https://ftp.ncbi.nlm.nih.gov/pubmed/updatefiles"
           "pubmed23n0001.xml" "xml_data" Hstem Hslash eq_refl).
Defined.

(** With ['.gz'] in the name of the local directory the two scripts part:
    main.py drops it there too, and unzips into another directory. *)
Lemma http_xml_file_name_in_gz_directory :
  Http.gz_file_name "https://h/u/pubmed23n0001.xml.gz" "data.gz"
  = "data.gz/pubmed23n0001.xml.gz"
  ∧ Http.xml_file_name "https://h/u/pubmed23n0001.xml.gz" "data.gz"
    = "data/pubmed23n0001.xml"
  ∧ drop_last3 (path_join "data.gz" "pubmed23n0001.xml.gz")
    = "data.gz/pubmed23n0001.xml".
Proof. repeat split. Qed.
